(** * Evvo Slack bot: the request pipeline

    A shallow embedding of the pipeline of [src/app.py], [src/llm.py],
    [src/db.py] and [src/chart.py]: SQL post-processing and validation,
    query execution with a preview cap, the fixed-width table formatter,
    the date-range classifier, the chart renderer's eligibility rules and
    the orchestration of the stages with its failure handling.

    Python values are modelled as follows.
    - [str] is a list of Unicode code points ([pystr]); [len] is [length].
    - The character classes and case mappings used by [str.strip],
      [str.lower], [str.upper], [float] and the [re] module are the tables
      of the Unicode Character Database 14.0.0 that CPython 3.11 ships,
      stored here as code-point ranges.
    - [re] patterns are a small regular-expression syntax with a
      backtracking matcher that tries alternatives in SRE's order.
    - Exceptions are values of [exn]; effectful functions run in the monad
      [M] over a state that holds the file system and the trace of calls
      made to the outside world (Slack, the completion provider, the
      connection pool, matplotlib, the file system).  What the outside
      world answers is read from an environment record [env]. *)

From Stdlib Require Import ZArith NArith List Bool Lia String Ascii DecimalString.
From stdpp Require Import base option list gmap fin_maps.

Local Open Scope N_scope.

(** ** Strings *)

(** A Python [str]: its code points. *)
Definition pystr : Type := list N.

(** Decoding of UTF-8, used to write string literals of the sources. *)
Fixpoint utf8_decode (bs : list N) : pystr :=
  match bs with
  | [] => []
  | b0 :: r0 =>
    if b0 <? 0x80 then b0 :: utf8_decode r0
    else
      match r0 with
      | [] => []
      | b1 :: r1 =>
        if b0 <? 0xE0 then ((b0 mod 0x20) * 0x40 + b1 mod 0x40) :: utf8_decode r1
        else
          match r1 with
          | [] => []
          | b2 :: r2 =>
            if b0 <? 0xF0
            then ((b0 mod 0x10) * 0x1000 + (b1 mod 0x40) * 0x40 + b2 mod 0x40)
                   :: utf8_decode r2
            else
              match r2 with
              | [] => []
              | b3 :: r3 =>
                ((b0 mod 0x8) * 0x40000 + (b1 mod 0x40) * 0x1000
                 + (b2 mod 0x40) * 0x40 + b3 mod 0x40) :: utf8_decode r3
              end
          end
      end
  end.

(** A literal of the source as a [pystr]. *)
Definition py (s : string) : pystr :=
  utf8_decode (List.map N_of_ascii (list_ascii_of_string s)).

Definition NL : pystr := [0xA].

(** ** The Unicode tables (UCD 14.0.0, as in CPython 3.11)

    Character classes are lists of inclusive ranges.  Case mappings are
    lists of runs [(lo, hi, step, img)]: the code points [lo], [lo + step],
    ... up to [hi] map to [img], [img + step], ... *)

Definition space_table : list (N * N) :=
  [(0x9, 0xD); (0x1C, 0x20); (0x85, 0x85); (0xA0, 0xA0); (0x1680, 0x1680); (0x2000, 0x200A);
   (0x2028, 0x2029); (0x202F, 0x202F); (0x205F, 0x205F); (0x3000, 0x3000)].

Definition alnum_table : list (N * N) :=
  [(0x30, 0x39); (0x41, 0x5A); (0x61, 0x7A); (0xAA, 0xAA); (0xB2, 0xB3); (0xB5, 0xB5);
   (0xB9, 0xBA); (0xBC, 0xBE); (0xC0, 0xD6); (0xD8, 0xF6); (0xF8, 0x2C1); (0x2C6, 0x2D1);
   (0x2E0, 0x2E4); (0x2EC, 0x2EC); (0x2EE, 0x2EE); (0x370, 0x374); (0x376, 0x377); (0x37A, 0x37D);
   (0x37F, 0x37F); (0x386, 0x386); (0x388, 0x38A); (0x38C, 0x38C); (0x38E, 0x3A1); (0x3A3, 0x3F5);
   (0x3F7, 0x481); (0x48A, 0x52F); (0x531, 0x556); (0x559, 0x559); (0x560, 0x588); (0x5D0, 0x5EA);
   (0x5EF, 0x5F2); (0x620, 0x64A); (0x660, 0x669); (0x66E, 0x66F); (0x671, 0x6D3); (0x6D5, 0x6D5);
   (0x6E5, 0x6E6); (0x6EE, 0x6FC); (0x6FF, 0x6FF); (0x710, 0x710); (0x712, 0x72F); (0x74D, 0x7A5);
   (0x7B1, 0x7B1); (0x7C0, 0x7EA); (0x7F4, 0x7F5); (0x7FA, 0x7FA); (0x800, 0x815); (0x81A, 0x81A);
   (0x824, 0x824); (0x828, 0x828); (0x840, 0x858); (0x860, 0x86A); (0x870, 0x887); (0x889, 0x88E);
   (0x8A0, 0x8C9); (0x904, 0x939); (0x93D, 0x93D); (0x950, 0x950); (0x958, 0x961); (0x966, 0x96F);
   (0x971, 0x980); (0x985, 0x98C); (0x98F, 0x990); (0x993, 0x9A8); (0x9AA, 0x9B0); (0x9B2, 0x9B2);
   (0x9B6, 0x9B9); (0x9BD, 0x9BD); (0x9CE, 0x9CE); (0x9DC, 0x9DD); (0x9DF, 0x9E1); (0x9E6, 0x9F1);
   (0x9F4, 0x9F9); (0x9FC, 0x9FC); (0xA05, 0xA0A); (0xA0F, 0xA10); (0xA13, 0xA28); (0xA2A, 0xA30);
   (0xA32, 0xA33); (0xA35, 0xA36); (0xA38, 0xA39); (0xA59, 0xA5C); (0xA5E, 0xA5E); (0xA66, 0xA6F);
   (0xA72, 0xA74); (0xA85, 0xA8D); (0xA8F, 0xA91); (0xA93, 0xAA8); (0xAAA, 0xAB0); (0xAB2, 0xAB3);
   (0xAB5, 0xAB9); (0xABD, 0xABD); (0xAD0, 0xAD0); (0xAE0, 0xAE1); (0xAE6, 0xAEF); (0xAF9, 0xAF9);
   (0xB05, 0xB0C); (0xB0F, 0xB10); (0xB13, 0xB28); (0xB2A, 0xB30); (0xB32, 0xB33); (0xB35, 0xB39);
   (0xB3D, 0xB3D); (0xB5C, 0xB5D); (0xB5F, 0xB61); (0xB66, 0xB6F); (0xB71, 0xB77); (0xB83, 0xB83);
   (0xB85, 0xB8A); (0xB8E, 0xB90); (0xB92, 0xB95); (0xB99, 0xB9A); (0xB9C, 0xB9C); (0xB9E, 0xB9F);
   (0xBA3, 0xBA4); (0xBA8, 0xBAA); (0xBAE, 0xBB9); (0xBD0, 0xBD0); (0xBE6, 0xBF2); (0xC05, 0xC0C);
   (0xC0E, 0xC10); (0xC12, 0xC28); (0xC2A, 0xC39); (0xC3D, 0xC3D); (0xC58, 0xC5A); (0xC5D, 0xC5D);
   (0xC60, 0xC61); (0xC66, 0xC6F); (0xC78, 0xC7E); (0xC80, 0xC80); (0xC85, 0xC8C); (0xC8E, 0xC90);
   (0xC92, 0xCA8); (0xCAA, 0xCB3); (0xCB5, 0xCB9); (0xCBD, 0xCBD); (0xCDD, 0xCDE); (0xCE0, 0xCE1);
   (0xCE6, 0xCEF); (0xCF1, 0xCF2); (0xD04, 0xD0C); (0xD0E, 0xD10); (0xD12, 0xD3A); (0xD3D, 0xD3D);
   (0xD4E, 0xD4E); (0xD54, 0xD56); (0xD58, 0xD61); (0xD66, 0xD78); (0xD7A, 0xD7F); (0xD85, 0xD96);
   (0xD9A, 0xDB1); (0xDB3, 0xDBB); (0xDBD, 0xDBD); (0xDC0, 0xDC6); (0xDE6, 0xDEF); (0xE01, 0xE30);
   (0xE32, 0xE33); (0xE40, 0xE46); (0xE50, 0xE59); (0xE81, 0xE82); (0xE84, 0xE84); (0xE86, 0xE8A);
   (0xE8C, 0xEA3); (0xEA5, 0xEA5); (0xEA7, 0xEB0); (0xEB2, 0xEB3); (0xEBD, 0xEBD); (0xEC0, 0xEC4);
   (0xEC6, 0xEC6); (0xED0, 0xED9); (0xEDC, 0xEDF); (0xF00, 0xF00); (0xF20, 0xF33); (0xF40, 0xF47);
   (0xF49, 0xF6C); (0xF88, 0xF8C); (0x1000, 0x102A); (0x103F, 0x1049); (0x1050, 0x1055); (0x105A, 0x105D);
   (0x1061, 0x1061); (0x1065, 0x1066); (0x106E, 0x1070); (0x1075, 0x1081); (0x108E, 0x108E); (0x1090, 0x1099);
   (0x10A0, 0x10C5); (0x10C7, 0x10C7); (0x10CD, 0x10CD); (0x10D0, 0x10FA); (0x10FC, 0x1248); (0x124A, 0x124D);
   (0x1250, 0x1256); (0x1258, 0x1258); (0x125A, 0x125D); (0x1260, 0x1288); (0x128A, 0x128D); (0x1290, 0x12B0);
   (0x12B2, 0x12B5); (0x12B8, 0x12BE); (0x12C0, 0x12C0); (0x12C2, 0x12C5); (0x12C8, 0x12D6); (0x12D8, 0x1310);
   (0x1312, 0x1315); (0x1318, 0x135A); (0x1369, 0x137C); (0x1380, 0x138F); (0x13A0, 0x13F5); (0x13F8, 0x13FD);
   (0x1401, 0x166C); (0x166F, 0x167F); (0x1681, 0x169A); (0x16A0, 0x16EA); (0x16EE, 0x16F8); (0x1700, 0x1711);
   (0x171F, 0x1731); (0x1740, 0x1751); (0x1760, 0x176C); (0x176E, 0x1770); (0x1780, 0x17B3); (0x17D7, 0x17D7);
   (0x17DC, 0x17DC); (0x17E0, 0x17E9); (0x17F0, 0x17F9); (0x1810, 0x1819); (0x1820, 0x1878); (0x1880, 0x1884);
   (0x1887, 0x18A8); (0x18AA, 0x18AA); (0x18B0, 0x18F5); (0x1900, 0x191E); (0x1946, 0x196D); (0x1970, 0x1974);
   (0x1980, 0x19AB); (0x19B0, 0x19C9); (0x19D0, 0x19DA); (0x1A00, 0x1A16); (0x1A20, 0x1A54); (0x1A80, 0x1A89);
   (0x1A90, 0x1A99); (0x1AA7, 0x1AA7); (0x1B05, 0x1B33); (0x1B45, 0x1B4C); (0x1B50, 0x1B59); (0x1B83, 0x1BA0);
   (0x1BAE, 0x1BE5); (0x1C00, 0x1C23); (0x1C40, 0x1C49); (0x1C4D, 0x1C7D); (0x1C80, 0x1C88); (0x1C90, 0x1CBA);
   (0x1CBD, 0x1CBF); (0x1CE9, 0x1CEC); (0x1CEE, 0x1CF3); (0x1CF5, 0x1CF6); (0x1CFA, 0x1CFA); (0x1D00, 0x1DBF);
   (0x1E00, 0x1F15); (0x1F18, 0x1F1D); (0x1F20, 0x1F45); (0x1F48, 0x1F4D); (0x1F50, 0x1F57); (0x1F59, 0x1F59);
   (0x1F5B, 0x1F5B); (0x1F5D, 0x1F5D); (0x1F5F, 0x1F7D); (0x1F80, 0x1FB4); (0x1FB6, 0x1FBC); (0x1FBE, 0x1FBE);
   (0x1FC2, 0x1FC4); (0x1FC6, 0x1FCC); (0x1FD0, 0x1FD3); (0x1FD6, 0x1FDB); (0x1FE0, 0x1FEC); (0x1FF2, 0x1FF4);
   (0x1FF6, 0x1FFC); (0x2070, 0x2071); (0x2074, 0x2079); (0x207F, 0x2089); (0x2090, 0x209C); (0x2102, 0x2102);
   (0x2107, 0x2107); (0x210A, 0x2113); (0x2115, 0x2115); (0x2119, 0x211D); (0x2124, 0x2124); (0x2126, 0x2126);
   (0x2128, 0x2128); (0x212A, 0x212D); (0x212F, 0x2139); (0x213C, 0x213F); (0x2145, 0x2149); (0x214E, 0x214E);
   (0x2150, 0x2189); (0x2460, 0x249B); (0x24EA, 0x24FF); (0x2776, 0x2793); (0x2C00, 0x2CE4); (0x2CEB, 0x2CEE);
   (0x2CF2, 0x2CF3); (0x2CFD, 0x2CFD); (0x2D00, 0x2D25); (0x2D27, 0x2D27); (0x2D2D, 0x2D2D); (0x2D30, 0x2D67);
   (0x2D6F, 0x2D6F); (0x2D80, 0x2D96); (0x2DA0, 0x2DA6); (0x2DA8, 0x2DAE); (0x2DB0, 0x2DB6); (0x2DB8, 0x2DBE);
   (0x2DC0, 0x2DC6); (0x2DC8, 0x2DCE); (0x2DD0, 0x2DD6); (0x2DD8, 0x2DDE); (0x2E2F, 0x2E2F); (0x3005, 0x3007);
   (0x3021, 0x3029); (0x3031, 0x3035); (0x3038, 0x303C); (0x3041, 0x3096); (0x309D, 0x309F); (0x30A1, 0x30FA);
   (0x30FC, 0x30FF); (0x3105, 0x312F); (0x3131, 0x318E); (0x3192, 0x3195); (0x31A0, 0x31BF); (0x31F0, 0x31FF);
   (0x3220, 0x3229); (0x3248, 0x324F); (0x3251, 0x325F); (0x3280, 0x3289); (0x32B1, 0x32BF); (0x3400, 0x4DBF);
   (0x4E00, 0xA48C); (0xA4D0, 0xA4FD); (0xA500, 0xA60C); (0xA610, 0xA62B); (0xA640, 0xA66E); (0xA67F, 0xA69D);
   (0xA6A0, 0xA6EF); (0xA717, 0xA71F); (0xA722, 0xA788); (0xA78B, 0xA7CA); (0xA7D0, 0xA7D1); (0xA7D3, 0xA7D3);
   (0xA7D5, 0xA7D9); (0xA7F2, 0xA801); (0xA803, 0xA805); (0xA807, 0xA80A); (0xA80C, 0xA822); (0xA830, 0xA835);
   (0xA840, 0xA873); (0xA882, 0xA8B3); (0xA8D0, 0xA8D9); (0xA8F2, 0xA8F7); (0xA8FB, 0xA8FB); (0xA8FD, 0xA8FE);
   (0xA900, 0xA925); (0xA930, 0xA946); (0xA960, 0xA97C); (0xA984, 0xA9B2); (0xA9CF, 0xA9D9); (0xA9E0, 0xA9E4);
   (0xA9E6, 0xA9FE); (0xAA00, 0xAA28); (0xAA40, 0xAA42); (0xAA44, 0xAA4B); (0xAA50, 0xAA59); (0xAA60, 0xAA76);
   (0xAA7A, 0xAA7A); (0xAA7E, 0xAAAF); (0xAAB1, 0xAAB1); (0xAAB5, 0xAAB6); (0xAAB9, 0xAABD); (0xAAC0, 0xAAC0);
   (0xAAC2, 0xAAC2); (0xAADB, 0xAADD); (0xAAE0, 0xAAEA); (0xAAF2, 0xAAF4); (0xAB01, 0xAB06); (0xAB09, 0xAB0E);
   (0xAB11, 0xAB16); (0xAB20, 0xAB26); (0xAB28, 0xAB2E); (0xAB30, 0xAB5A); (0xAB5C, 0xAB69); (0xAB70, 0xABE2);
   (0xABF0, 0xABF9); (0xAC00, 0xD7A3); (0xD7B0, 0xD7C6); (0xD7CB, 0xD7FB); (0xF900, 0xFA6D); (0xFA70, 0xFAD9);
   (0xFB00, 0xFB06); (0xFB13, 0xFB17); (0xFB1D, 0xFB1D); (0xFB1F, 0xFB28); (0xFB2A, 0xFB36); (0xFB38, 0xFB3C);
   (0xFB3E, 0xFB3E); (0xFB40, 0xFB41); (0xFB43, 0xFB44); (0xFB46, 0xFBB1); (0xFBD3, 0xFD3D); (0xFD50, 0xFD8F);
   (0xFD92, 0xFDC7); (0xFDF0, 0xFDFB); (0xFE70, 0xFE74); (0xFE76, 0xFEFC); (0xFF10, 0xFF19); (0xFF21, 0xFF3A);
   (0xFF41, 0xFF5A); (0xFF66, 0xFFBE); (0xFFC2, 0xFFC7); (0xFFCA, 0xFFCF); (0xFFD2, 0xFFD7); (0xFFDA, 0xFFDC);
   (0x10000, 0x1000B); (0x1000D, 0x10026); (0x10028, 0x1003A); (0x1003C, 0x1003D); (0x1003F, 0x1004D); (0x10050, 0x1005D);
   (0x10080, 0x100FA); (0x10107, 0x10133); (0x10140, 0x10178); (0x1018A, 0x1018B); (0x10280, 0x1029C); (0x102A0, 0x102D0);
   (0x102E1, 0x102FB); (0x10300, 0x10323); (0x1032D, 0x1034A); (0x10350, 0x10375); (0x10380, 0x1039D); (0x103A0, 0x103C3);
   (0x103C8, 0x103CF); (0x103D1, 0x103D5); (0x10400, 0x1049D); (0x104A0, 0x104A9); (0x104B0, 0x104D3); (0x104D8, 0x104FB);
   (0x10500, 0x10527); (0x10530, 0x10563); (0x10570, 0x1057A); (0x1057C, 0x1058A); (0x1058C, 0x10592); (0x10594, 0x10595);
   (0x10597, 0x105A1); (0x105A3, 0x105B1); (0x105B3, 0x105B9); (0x105BB, 0x105BC); (0x10600, 0x10736); (0x10740, 0x10755);
   (0x10760, 0x10767); (0x10780, 0x10785); (0x10787, 0x107B0); (0x107B2, 0x107BA); (0x10800, 0x10805); (0x10808, 0x10808);
   (0x1080A, 0x10835); (0x10837, 0x10838); (0x1083C, 0x1083C); (0x1083F, 0x10855); (0x10858, 0x10876); (0x10879, 0x1089E);
   (0x108A7, 0x108AF); (0x108E0, 0x108F2); (0x108F4, 0x108F5); (0x108FB, 0x1091B); (0x10920, 0x10939); (0x10980, 0x109B7);
   (0x109BC, 0x109CF); (0x109D2, 0x10A00); (0x10A10, 0x10A13); (0x10A15, 0x10A17); (0x10A19, 0x10A35); (0x10A40, 0x10A48);
   (0x10A60, 0x10A7E); (0x10A80, 0x10A9F); (0x10AC0, 0x10AC7); (0x10AC9, 0x10AE4); (0x10AEB, 0x10AEF); (0x10B00, 0x10B35);
   (0x10B40, 0x10B55); (0x10B58, 0x10B72); (0x10B78, 0x10B91); (0x10BA9, 0x10BAF); (0x10C00, 0x10C48); (0x10C80, 0x10CB2);
   (0x10CC0, 0x10CF2); (0x10CFA, 0x10D23); (0x10D30, 0x10D39); (0x10E60, 0x10E7E); (0x10E80, 0x10EA9); (0x10EB0, 0x10EB1);
   (0x10F00, 0x10F27); (0x10F30, 0x10F45); (0x10F51, 0x10F54); (0x10F70, 0x10F81); (0x10FB0, 0x10FCB); (0x10FE0, 0x10FF6);
   (0x11003, 0x11037); (0x11052, 0x1106F); (0x11071, 0x11072); (0x11075, 0x11075); (0x11083, 0x110AF); (0x110D0, 0x110E8);
   (0x110F0, 0x110F9); (0x11103, 0x11126); (0x11136, 0x1113F); (0x11144, 0x11144); (0x11147, 0x11147); (0x11150, 0x11172);
   (0x11176, 0x11176); (0x11183, 0x111B2); (0x111C1, 0x111C4); (0x111D0, 0x111DA); (0x111DC, 0x111DC); (0x111E1, 0x111F4);
   (0x11200, 0x11211); (0x11213, 0x1122B); (0x11280, 0x11286); (0x11288, 0x11288); (0x1128A, 0x1128D); (0x1128F, 0x1129D);
   (0x1129F, 0x112A8); (0x112B0, 0x112DE); (0x112F0, 0x112F9); (0x11305, 0x1130C); (0x1130F, 0x11310); (0x11313, 0x11328);
   (0x1132A, 0x11330); (0x11332, 0x11333); (0x11335, 0x11339); (0x1133D, 0x1133D); (0x11350, 0x11350); (0x1135D, 0x11361);
   (0x11400, 0x11434); (0x11447, 0x1144A); (0x11450, 0x11459); (0x1145F, 0x11461); (0x11480, 0x114AF); (0x114C4, 0x114C5);
   (0x114C7, 0x114C7); (0x114D0, 0x114D9); (0x11580, 0x115AE); (0x115D8, 0x115DB); (0x11600, 0x1162F); (0x11644, 0x11644);
   (0x11650, 0x11659); (0x11680, 0x116AA); (0x116B8, 0x116B8); (0x116C0, 0x116C9); (0x11700, 0x1171A); (0x11730, 0x1173B);
   (0x11740, 0x11746); (0x11800, 0x1182B); (0x118A0, 0x118F2); (0x118FF, 0x11906); (0x11909, 0x11909); (0x1190C, 0x11913);
   (0x11915, 0x11916); (0x11918, 0x1192F); (0x1193F, 0x1193F); (0x11941, 0x11941); (0x11950, 0x11959); (0x119A0, 0x119A7);
   (0x119AA, 0x119D0); (0x119E1, 0x119E1); (0x119E3, 0x119E3); (0x11A00, 0x11A00); (0x11A0B, 0x11A32); (0x11A3A, 0x11A3A);
   (0x11A50, 0x11A50); (0x11A5C, 0x11A89); (0x11A9D, 0x11A9D); (0x11AB0, 0x11AF8); (0x11C00, 0x11C08); (0x11C0A, 0x11C2E);
   (0x11C40, 0x11C40); (0x11C50, 0x11C6C); (0x11C72, 0x11C8F); (0x11D00, 0x11D06); (0x11D08, 0x11D09); (0x11D0B, 0x11D30);
   (0x11D46, 0x11D46); (0x11D50, 0x11D59); (0x11D60, 0x11D65); (0x11D67, 0x11D68); (0x11D6A, 0x11D89); (0x11D98, 0x11D98);
   (0x11DA0, 0x11DA9); (0x11EE0, 0x11EF2); (0x11FB0, 0x11FB0); (0x11FC0, 0x11FD4); (0x12000, 0x12399); (0x12400, 0x1246E);
   (0x12480, 0x12543); (0x12F90, 0x12FF0); (0x13000, 0x1342E); (0x14400, 0x14646); (0x16800, 0x16A38); (0x16A40, 0x16A5E);
   (0x16A60, 0x16A69); (0x16A70, 0x16ABE); (0x16AC0, 0x16AC9); (0x16AD0, 0x16AED); (0x16B00, 0x16B2F); (0x16B40, 0x16B43);
   (0x16B50, 0x16B59); (0x16B5B, 0x16B61); (0x16B63, 0x16B77); (0x16B7D, 0x16B8F); (0x16E40, 0x16E96); (0x16F00, 0x16F4A);
   (0x16F50, 0x16F50); (0x16F93, 0x16F9F); (0x16FE0, 0x16FE1); (0x16FE3, 0x16FE3); (0x17000, 0x187F7); (0x18800, 0x18CD5);
   (0x18D00, 0x18D08); (0x1AFF0, 0x1AFF3); (0x1AFF5, 0x1AFFB); (0x1AFFD, 0x1AFFE); (0x1B000, 0x1B122); (0x1B150, 0x1B152);
   (0x1B164, 0x1B167); (0x1B170, 0x1B2FB); (0x1BC00, 0x1BC6A); (0x1BC70, 0x1BC7C); (0x1BC80, 0x1BC88); (0x1BC90, 0x1BC99);
   (0x1D2E0, 0x1D2F3); (0x1D360, 0x1D378); (0x1D400, 0x1D454); (0x1D456, 0x1D49C); (0x1D49E, 0x1D49F); (0x1D4A2, 0x1D4A2);
   (0x1D4A5, 0x1D4A6); (0x1D4A9, 0x1D4AC); (0x1D4AE, 0x1D4B9); (0x1D4BB, 0x1D4BB); (0x1D4BD, 0x1D4C3); (0x1D4C5, 0x1D505);
   (0x1D507, 0x1D50A); (0x1D50D, 0x1D514); (0x1D516, 0x1D51C); (0x1D51E, 0x1D539); (0x1D53B, 0x1D53E); (0x1D540, 0x1D544);
   (0x1D546, 0x1D546); (0x1D54A, 0x1D550); (0x1D552, 0x1D6A5); (0x1D6A8, 0x1D6C0); (0x1D6C2, 0x1D6DA); (0x1D6DC, 0x1D6FA);
   (0x1D6FC, 0x1D714); (0x1D716, 0x1D734); (0x1D736, 0x1D74E); (0x1D750, 0x1D76E); (0x1D770, 0x1D788); (0x1D78A, 0x1D7A8);
   (0x1D7AA, 0x1D7C2); (0x1D7C4, 0x1D7CB); (0x1D7CE, 0x1D7FF); (0x1DF00, 0x1DF1E); (0x1E100, 0x1E12C); (0x1E137, 0x1E13D);
   (0x1E140, 0x1E149); (0x1E14E, 0x1E14E); (0x1E290, 0x1E2AD); (0x1E2C0, 0x1E2EB); (0x1E2F0, 0x1E2F9); (0x1E7E0, 0x1E7E6);
   (0x1E7E8, 0x1E7EB); (0x1E7ED, 0x1E7EE); (0x1E7F0, 0x1E7FE); (0x1E800, 0x1E8C4); (0x1E8C7, 0x1E8CF); (0x1E900, 0x1E943);
   (0x1E94B, 0x1E94B); (0x1E950, 0x1E959); (0x1EC71, 0x1ECAB); (0x1ECAD, 0x1ECAF); (0x1ECB1, 0x1ECB4); (0x1ED01, 0x1ED2D);
   (0x1ED2F, 0x1ED3D); (0x1EE00, 0x1EE03); (0x1EE05, 0x1EE1F); (0x1EE21, 0x1EE22); (0x1EE24, 0x1EE24); (0x1EE27, 0x1EE27);
   (0x1EE29, 0x1EE32); (0x1EE34, 0x1EE37); (0x1EE39, 0x1EE39); (0x1EE3B, 0x1EE3B); (0x1EE42, 0x1EE42); (0x1EE47, 0x1EE47);
   (0x1EE49, 0x1EE49); (0x1EE4B, 0x1EE4B); (0x1EE4D, 0x1EE4F); (0x1EE51, 0x1EE52); (0x1EE54, 0x1EE54); (0x1EE57, 0x1EE57);
   (0x1EE59, 0x1EE59); (0x1EE5B, 0x1EE5B); (0x1EE5D, 0x1EE5D); (0x1EE5F, 0x1EE5F); (0x1EE61, 0x1EE62); (0x1EE64, 0x1EE64);
   (0x1EE67, 0x1EE6A); (0x1EE6C, 0x1EE72); (0x1EE74, 0x1EE77); (0x1EE79, 0x1EE7C); (0x1EE7E, 0x1EE7E); (0x1EE80, 0x1EE89);
   (0x1EE8B, 0x1EE9B); (0x1EEA1, 0x1EEA3); (0x1EEA5, 0x1EEA9); (0x1EEAB, 0x1EEBB); (0x1F100, 0x1F10C); (0x1FBF0, 0x1FBF9);
   (0x20000, 0x2A6DF); (0x2A700, 0x2B738); (0x2B740, 0x2B81D); (0x2B820, 0x2CEA1); (0x2CEB0, 0x2EBE0); (0x2F800, 0x2FA1D);
   (0x30000, 0x3134A)].

Definition decimal_table : list (N * N) :=
  [(0x30, 0x39); (0x660, 0x669); (0x6F0, 0x6F9); (0x7C0, 0x7C9); (0x966, 0x96F); (0x9E6, 0x9EF);
   (0xA66, 0xA6F); (0xAE6, 0xAEF); (0xB66, 0xB6F); (0xBE6, 0xBEF); (0xC66, 0xC6F); (0xCE6, 0xCEF);
   (0xD66, 0xD6F); (0xDE6, 0xDEF); (0xE50, 0xE59); (0xED0, 0xED9); (0xF20, 0xF29); (0x1040, 0x1049);
   (0x1090, 0x1099); (0x17E0, 0x17E9); (0x1810, 0x1819); (0x1946, 0x194F); (0x19D0, 0x19D9); (0x1A80, 0x1A89);
   (0x1A90, 0x1A99); (0x1B50, 0x1B59); (0x1BB0, 0x1BB9); (0x1C40, 0x1C49); (0x1C50, 0x1C59); (0xA620, 0xA629);
   (0xA8D0, 0xA8D9); (0xA900, 0xA909); (0xA9D0, 0xA9D9); (0xA9F0, 0xA9F9); (0xAA50, 0xAA59); (0xABF0, 0xABF9);
   (0xFF10, 0xFF19); (0x104A0, 0x104A9); (0x10D30, 0x10D39); (0x11066, 0x1106F); (0x110F0, 0x110F9); (0x11136, 0x1113F);
   (0x111D0, 0x111D9); (0x112F0, 0x112F9); (0x11450, 0x11459); (0x114D0, 0x114D9); (0x11650, 0x11659); (0x116C0, 0x116C9);
   (0x11730, 0x11739); (0x118E0, 0x118E9); (0x11950, 0x11959); (0x11C50, 0x11C59); (0x11D50, 0x11D59); (0x11DA0, 0x11DA9);
   (0x16A60, 0x16A69); (0x16AC0, 0x16AC9); (0x16B50, 0x16B59); (0x1D7CE, 0x1D7FF); (0x1E140, 0x1E149); (0x1E2F0, 0x1E2F9);
   (0x1E950, 0x1E959); (0x1FBF0, 0x1FBF9)].

Definition cased_table : list (N * N) :=
  [(0x41, 0x5A); (0x61, 0x7A); (0xAA, 0xAA); (0xB5, 0xB5); (0xBA, 0xBA); (0xC0, 0xD6);
   (0xD8, 0xF6); (0xF8, 0x1BA); (0x1BC, 0x1BF); (0x1C4, 0x293); (0x295, 0x2B8); (0x2C0, 0x2C1);
   (0x2E0, 0x2E4); (0x345, 0x345); (0x370, 0x373); (0x376, 0x377); (0x37A, 0x37D); (0x37F, 0x37F);
   (0x386, 0x386); (0x388, 0x38A); (0x38C, 0x38C); (0x38E, 0x3A1); (0x3A3, 0x3F5); (0x3F7, 0x481);
   (0x48A, 0x52F); (0x531, 0x556); (0x560, 0x588); (0x10A0, 0x10C5); (0x10C7, 0x10C7); (0x10CD, 0x10CD);
   (0x10D0, 0x10FA); (0x10FD, 0x10FF); (0x13A0, 0x13F5); (0x13F8, 0x13FD); (0x1C80, 0x1C88); (0x1C90, 0x1CBA);
   (0x1CBD, 0x1CBF); (0x1D00, 0x1DBF); (0x1E00, 0x1F15); (0x1F18, 0x1F1D); (0x1F20, 0x1F45); (0x1F48, 0x1F4D);
   (0x1F50, 0x1F57); (0x1F59, 0x1F59); (0x1F5B, 0x1F5B); (0x1F5D, 0x1F5D); (0x1F5F, 0x1F7D); (0x1F80, 0x1FB4);
   (0x1FB6, 0x1FBC); (0x1FBE, 0x1FBE); (0x1FC2, 0x1FC4); (0x1FC6, 0x1FCC); (0x1FD0, 0x1FD3); (0x1FD6, 0x1FDB);
   (0x1FE0, 0x1FEC); (0x1FF2, 0x1FF4); (0x1FF6, 0x1FFC); (0x2071, 0x2071); (0x207F, 0x207F); (0x2090, 0x209C);
   (0x2102, 0x2102); (0x2107, 0x2107); (0x210A, 0x2113); (0x2115, 0x2115); (0x2119, 0x211D); (0x2124, 0x2124);
   (0x2126, 0x2126); (0x2128, 0x2128); (0x212A, 0x212D); (0x212F, 0x2134); (0x2139, 0x2139); (0x213C, 0x213F);
   (0x2145, 0x2149); (0x214E, 0x214E); (0x2160, 0x217F); (0x2183, 0x2184); (0x24B6, 0x24E9); (0x2C00, 0x2CE4);
   (0x2CEB, 0x2CEE); (0x2CF2, 0x2CF3); (0x2D00, 0x2D25); (0x2D27, 0x2D27); (0x2D2D, 0x2D2D); (0xA640, 0xA66D);
   (0xA680, 0xA69D); (0xA722, 0xA787); (0xA78B, 0xA78E); (0xA790, 0xA7CA); (0xA7D0, 0xA7D1); (0xA7D3, 0xA7D3);
   (0xA7D5, 0xA7D9); (0xA7F5, 0xA7F6); (0xA7F8, 0xA7FA); (0xAB30, 0xAB5A); (0xAB5C, 0xAB68); (0xAB70, 0xABBF);
   (0xFB00, 0xFB06); (0xFB13, 0xFB17); (0xFF21, 0xFF3A); (0xFF41, 0xFF5A); (0x10400, 0x1044F); (0x104B0, 0x104D3);
   (0x104D8, 0x104FB); (0x10570, 0x1057A); (0x1057C, 0x1058A); (0x1058C, 0x10592); (0x10594, 0x10595); (0x10597, 0x105A1);
   (0x105A3, 0x105B1); (0x105B3, 0x105B9); (0x105BB, 0x105BC); (0x10780, 0x10780); (0x10783, 0x10785); (0x10787, 0x107B0);
   (0x107B2, 0x107BA); (0x10C80, 0x10CB2); (0x10CC0, 0x10CF2); (0x118A0, 0x118DF); (0x16E40, 0x16E7F); (0x1D400, 0x1D454);
   (0x1D456, 0x1D49C); (0x1D49E, 0x1D49F); (0x1D4A2, 0x1D4A2); (0x1D4A5, 0x1D4A6); (0x1D4A9, 0x1D4AC); (0x1D4AE, 0x1D4B9);
   (0x1D4BB, 0x1D4BB); (0x1D4BD, 0x1D4C3); (0x1D4C5, 0x1D505); (0x1D507, 0x1D50A); (0x1D50D, 0x1D514); (0x1D516, 0x1D51C);
   (0x1D51E, 0x1D539); (0x1D53B, 0x1D53E); (0x1D540, 0x1D544); (0x1D546, 0x1D546); (0x1D54A, 0x1D550); (0x1D552, 0x1D6A5);
   (0x1D6A8, 0x1D6C0); (0x1D6C2, 0x1D6DA); (0x1D6DC, 0x1D6FA); (0x1D6FC, 0x1D714); (0x1D716, 0x1D734); (0x1D736, 0x1D74E);
   (0x1D750, 0x1D76E); (0x1D770, 0x1D788); (0x1D78A, 0x1D7A8); (0x1D7AA, 0x1D7C2); (0x1D7C4, 0x1D7CB); (0x1DF00, 0x1DF09);
   (0x1DF0B, 0x1DF1E); (0x1E900, 0x1E943); (0x1F130, 0x1F149); (0x1F150, 0x1F169); (0x1F170, 0x1F189)].

Definition case_ignorable_table : list (N * N) :=
  [(0x27, 0x27); (0x2E, 0x2E); (0x3A, 0x3A); (0x5E, 0x5E); (0x60, 0x60); (0xA8, 0xA8);
   (0xAD, 0xAD); (0xAF, 0xAF); (0xB4, 0xB4); (0xB7, 0xB8); (0x2B0, 0x36F); (0x374, 0x375);
   (0x37A, 0x37A); (0x384, 0x385); (0x387, 0x387); (0x483, 0x489); (0x559, 0x559); (0x55F, 0x55F);
   (0x591, 0x5BD); (0x5BF, 0x5BF); (0x5C1, 0x5C2); (0x5C4, 0x5C5); (0x5C7, 0x5C7); (0x5F4, 0x5F4);
   (0x600, 0x605); (0x610, 0x61A); (0x61C, 0x61C); (0x640, 0x640); (0x64B, 0x65F); (0x670, 0x670);
   (0x6D6, 0x6DD); (0x6DF, 0x6E8); (0x6EA, 0x6ED); (0x70F, 0x70F); (0x711, 0x711); (0x730, 0x74A);
   (0x7A6, 0x7B0); (0x7EB, 0x7F5); (0x7FA, 0x7FA); (0x7FD, 0x7FD); (0x816, 0x82D); (0x859, 0x85B);
   (0x888, 0x888); (0x890, 0x891); (0x898, 0x89F); (0x8C9, 0x902); (0x93A, 0x93A); (0x93C, 0x93C);
   (0x941, 0x948); (0x94D, 0x94D); (0x951, 0x957); (0x962, 0x963); (0x971, 0x971); (0x981, 0x981);
   (0x9BC, 0x9BC); (0x9C1, 0x9C4); (0x9CD, 0x9CD); (0x9E2, 0x9E3); (0x9FE, 0x9FE); (0xA01, 0xA02);
   (0xA3C, 0xA3C); (0xA41, 0xA42); (0xA47, 0xA48); (0xA4B, 0xA4D); (0xA51, 0xA51); (0xA70, 0xA71);
   (0xA75, 0xA75); (0xA81, 0xA82); (0xABC, 0xABC); (0xAC1, 0xAC5); (0xAC7, 0xAC8); (0xACD, 0xACD);
   (0xAE2, 0xAE3); (0xAFA, 0xAFF); (0xB01, 0xB01); (0xB3C, 0xB3C); (0xB3F, 0xB3F); (0xB41, 0xB44);
   (0xB4D, 0xB4D); (0xB55, 0xB56); (0xB62, 0xB63); (0xB82, 0xB82); (0xBC0, 0xBC0); (0xBCD, 0xBCD);
   (0xC00, 0xC00); (0xC04, 0xC04); (0xC3C, 0xC3C); (0xC3E, 0xC40); (0xC46, 0xC48); (0xC4A, 0xC4D);
   (0xC55, 0xC56); (0xC62, 0xC63); (0xC81, 0xC81); (0xCBC, 0xCBC); (0xCBF, 0xCBF); (0xCC6, 0xCC6);
   (0xCCC, 0xCCD); (0xCE2, 0xCE3); (0xD00, 0xD01); (0xD3B, 0xD3C); (0xD41, 0xD44); (0xD4D, 0xD4D);
   (0xD62, 0xD63); (0xD81, 0xD81); (0xDCA, 0xDCA); (0xDD2, 0xDD4); (0xDD6, 0xDD6); (0xE31, 0xE31);
   (0xE34, 0xE3A); (0xE46, 0xE4E); (0xEB1, 0xEB1); (0xEB4, 0xEBC); (0xEC6, 0xEC6); (0xEC8, 0xECD);
   (0xF18, 0xF19); (0xF35, 0xF35); (0xF37, 0xF37); (0xF39, 0xF39); (0xF71, 0xF7E); (0xF80, 0xF84);
   (0xF86, 0xF87); (0xF8D, 0xF97); (0xF99, 0xFBC); (0xFC6, 0xFC6); (0x102D, 0x1030); (0x1032, 0x1037);
   (0x1039, 0x103A); (0x103D, 0x103E); (0x1058, 0x1059); (0x105E, 0x1060); (0x1071, 0x1074); (0x1082, 0x1082);
   (0x1085, 0x1086); (0x108D, 0x108D); (0x109D, 0x109D); (0x10FC, 0x10FC); (0x135D, 0x135F); (0x1712, 0x1714);
   (0x1732, 0x1733); (0x1752, 0x1753); (0x1772, 0x1773); (0x17B4, 0x17B5); (0x17B7, 0x17BD); (0x17C6, 0x17C6);
   (0x17C9, 0x17D3); (0x17D7, 0x17D7); (0x17DD, 0x17DD); (0x180B, 0x180F); (0x1843, 0x1843); (0x1885, 0x1886);
   (0x18A9, 0x18A9); (0x1920, 0x1922); (0x1927, 0x1928); (0x1932, 0x1932); (0x1939, 0x193B); (0x1A17, 0x1A18);
   (0x1A1B, 0x1A1B); (0x1A56, 0x1A56); (0x1A58, 0x1A5E); (0x1A60, 0x1A60); (0x1A62, 0x1A62); (0x1A65, 0x1A6C);
   (0x1A73, 0x1A7C); (0x1A7F, 0x1A7F); (0x1AA7, 0x1AA7); (0x1AB0, 0x1ACE); (0x1B00, 0x1B03); (0x1B34, 0x1B34);
   (0x1B36, 0x1B3A); (0x1B3C, 0x1B3C); (0x1B42, 0x1B42); (0x1B6B, 0x1B73); (0x1B80, 0x1B81); (0x1BA2, 0x1BA5);
   (0x1BA8, 0x1BA9); (0x1BAB, 0x1BAD); (0x1BE6, 0x1BE6); (0x1BE8, 0x1BE9); (0x1BED, 0x1BED); (0x1BEF, 0x1BF1);
   (0x1C2C, 0x1C33); (0x1C36, 0x1C37); (0x1C78, 0x1C7D); (0x1CD0, 0x1CD2); (0x1CD4, 0x1CE0); (0x1CE2, 0x1CE8);
   (0x1CED, 0x1CED); (0x1CF4, 0x1CF4); (0x1CF8, 0x1CF9); (0x1D2C, 0x1D6A); (0x1D78, 0x1D78); (0x1D9B, 0x1DFF);
   (0x1FBD, 0x1FBD); (0x1FBF, 0x1FC1); (0x1FCD, 0x1FCF); (0x1FDD, 0x1FDF); (0x1FED, 0x1FEF); (0x1FFD, 0x1FFE);
   (0x200B, 0x200F); (0x2018, 0x2019); (0x2024, 0x2024); (0x2027, 0x2027); (0x202A, 0x202E); (0x2060, 0x2064);
   (0x2066, 0x206F); (0x2071, 0x2071); (0x207F, 0x207F); (0x2090, 0x209C); (0x20D0, 0x20F0); (0x2C7C, 0x2C7D);
   (0x2CEF, 0x2CF1); (0x2D6F, 0x2D6F); (0x2D7F, 0x2D7F); (0x2DE0, 0x2DFF); (0x2E2F, 0x2E2F); (0x3005, 0x3005);
   (0x302A, 0x302D); (0x3031, 0x3035); (0x303B, 0x303B); (0x3099, 0x309E); (0x30FC, 0x30FE); (0xA015, 0xA015);
   (0xA4F8, 0xA4FD); (0xA60C, 0xA60C); (0xA66F, 0xA672); (0xA674, 0xA67D); (0xA67F, 0xA67F); (0xA69C, 0xA69F);
   (0xA6F0, 0xA6F1); (0xA700, 0xA721); (0xA770, 0xA770); (0xA788, 0xA78A); (0xA7F2, 0xA7F4); (0xA7F8, 0xA7F9);
   (0xA802, 0xA802); (0xA806, 0xA806); (0xA80B, 0xA80B); (0xA825, 0xA826); (0xA82C, 0xA82C); (0xA8C4, 0xA8C5);
   (0xA8E0, 0xA8F1); (0xA8FF, 0xA8FF); (0xA926, 0xA92D); (0xA947, 0xA951); (0xA980, 0xA982); (0xA9B3, 0xA9B3);
   (0xA9B6, 0xA9B9); (0xA9BC, 0xA9BD); (0xA9CF, 0xA9CF); (0xA9E5, 0xA9E6); (0xAA29, 0xAA2E); (0xAA31, 0xAA32);
   (0xAA35, 0xAA36); (0xAA43, 0xAA43); (0xAA4C, 0xAA4C); (0xAA70, 0xAA70); (0xAA7C, 0xAA7C); (0xAAB0, 0xAAB0);
   (0xAAB2, 0xAAB4); (0xAAB7, 0xAAB8); (0xAABE, 0xAABF); (0xAAC1, 0xAAC1); (0xAADD, 0xAADD); (0xAAEC, 0xAAED);
   (0xAAF3, 0xAAF4); (0xAAF6, 0xAAF6); (0xAB5B, 0xAB5F); (0xAB69, 0xAB6B); (0xABE5, 0xABE5); (0xABE8, 0xABE8);
   (0xABED, 0xABED); (0xFB1E, 0xFB1E); (0xFBB2, 0xFBC2); (0xFE00, 0xFE0F); (0xFE13, 0xFE13); (0xFE20, 0xFE2F);
   (0xFE52, 0xFE52); (0xFE55, 0xFE55); (0xFEFF, 0xFEFF); (0xFF07, 0xFF07); (0xFF0E, 0xFF0E); (0xFF1A, 0xFF1A);
   (0xFF3E, 0xFF3E); (0xFF40, 0xFF40); (0xFF70, 0xFF70); (0xFF9E, 0xFF9F); (0xFFE3, 0xFFE3); (0xFFF9, 0xFFFB);
   (0x101FD, 0x101FD); (0x102E0, 0x102E0); (0x10376, 0x1037A); (0x10780, 0x10785); (0x10787, 0x107B0); (0x107B2, 0x107BA);
   (0x10A01, 0x10A03); (0x10A05, 0x10A06); (0x10A0C, 0x10A0F); (0x10A38, 0x10A3A); (0x10A3F, 0x10A3F); (0x10AE5, 0x10AE6);
   (0x10D24, 0x10D27); (0x10EAB, 0x10EAC); (0x10F46, 0x10F50); (0x10F82, 0x10F85); (0x11001, 0x11001); (0x11038, 0x11046);
   (0x11070, 0x11070); (0x11073, 0x11074); (0x1107F, 0x11081); (0x110B3, 0x110B6); (0x110B9, 0x110BA); (0x110BD, 0x110BD);
   (0x110C2, 0x110C2); (0x110CD, 0x110CD); (0x11100, 0x11102); (0x11127, 0x1112B); (0x1112D, 0x11134); (0x11173, 0x11173);
   (0x11180, 0x11181); (0x111B6, 0x111BE); (0x111C9, 0x111CC); (0x111CF, 0x111CF); (0x1122F, 0x11231); (0x11234, 0x11234);
   (0x11236, 0x11237); (0x1123E, 0x1123E); (0x112DF, 0x112DF); (0x112E3, 0x112EA); (0x11300, 0x11301); (0x1133B, 0x1133C);
   (0x11340, 0x11340); (0x11366, 0x1136C); (0x11370, 0x11374); (0x11438, 0x1143F); (0x11442, 0x11444); (0x11446, 0x11446);
   (0x1145E, 0x1145E); (0x114B3, 0x114B8); (0x114BA, 0x114BA); (0x114BF, 0x114C0); (0x114C2, 0x114C3); (0x115B2, 0x115B5);
   (0x115BC, 0x115BD); (0x115BF, 0x115C0); (0x115DC, 0x115DD); (0x11633, 0x1163A); (0x1163D, 0x1163D); (0x1163F, 0x11640);
   (0x116AB, 0x116AB); (0x116AD, 0x116AD); (0x116B0, 0x116B5); (0x116B7, 0x116B7); (0x1171D, 0x1171F); (0x11722, 0x11725);
   (0x11727, 0x1172B); (0x1182F, 0x11837); (0x11839, 0x1183A); (0x1193B, 0x1193C); (0x1193E, 0x1193E); (0x11943, 0x11943);
   (0x119D4, 0x119D7); (0x119DA, 0x119DB); (0x119E0, 0x119E0); (0x11A01, 0x11A0A); (0x11A33, 0x11A38); (0x11A3B, 0x11A3E);
   (0x11A47, 0x11A47); (0x11A51, 0x11A56); (0x11A59, 0x11A5B); (0x11A8A, 0x11A96); (0x11A98, 0x11A99); (0x11C30, 0x11C36);
   (0x11C38, 0x11C3D); (0x11C3F, 0x11C3F); (0x11C92, 0x11CA7); (0x11CAA, 0x11CB0); (0x11CB2, 0x11CB3); (0x11CB5, 0x11CB6);
   (0x11D31, 0x11D36); (0x11D3A, 0x11D3A); (0x11D3C, 0x11D3D); (0x11D3F, 0x11D45); (0x11D47, 0x11D47); (0x11D90, 0x11D91);
   (0x11D95, 0x11D95); (0x11D97, 0x11D97); (0x11EF3, 0x11EF4); (0x13430, 0x13438); (0x16AF0, 0x16AF4); (0x16B30, 0x16B36);
   (0x16B40, 0x16B43); (0x16F4F, 0x16F4F); (0x16F8F, 0x16F9F); (0x16FE0, 0x16FE1); (0x16FE3, 0x16FE4); (0x1AFF0, 0x1AFF3);
   (0x1AFF5, 0x1AFFB); (0x1AFFD, 0x1AFFE); (0x1BC9D, 0x1BC9E); (0x1BCA0, 0x1BCA3); (0x1CF00, 0x1CF2D); (0x1CF30, 0x1CF46);
   (0x1D167, 0x1D169); (0x1D173, 0x1D182); (0x1D185, 0x1D18B); (0x1D1AA, 0x1D1AD); (0x1D242, 0x1D244); (0x1DA00, 0x1DA36);
   (0x1DA3B, 0x1DA6C); (0x1DA75, 0x1DA75); (0x1DA84, 0x1DA84); (0x1DA9B, 0x1DA9F); (0x1DAA1, 0x1DAAF); (0x1E000, 0x1E006);
   (0x1E008, 0x1E018); (0x1E01B, 0x1E021); (0x1E023, 0x1E024); (0x1E026, 0x1E02A); (0x1E130, 0x1E13D); (0x1E2AE, 0x1E2AE);
   (0x1E2EC, 0x1E2EF); (0x1E8D0, 0x1E8D6); (0x1E944, 0x1E94B); (0x1F3FB, 0x1F3FF); (0xE0001, 0xE0001); (0xE0020, 0xE007F);
   (0xE0100, 0xE01EF)].

Definition lower_table : list (N * N * N * N) :=
  [(0x41, 0x5A, 1, 0x61); (0xC0, 0xD6, 1, 0xE0); (0xD8, 0xDE, 1, 0xF8); (0x100, 0x12E, 2, 0x101);
   (0x130, 0x130, 1, 0x69); (0x132, 0x136, 2, 0x133); (0x139, 0x147, 2, 0x13A); (0x14A, 0x176, 2, 0x14B);
   (0x178, 0x178, 1, 0xFF); (0x179, 0x17D, 2, 0x17A); (0x181, 0x181, 1, 0x253); (0x182, 0x184, 2, 0x183);
   (0x186, 0x186, 1, 0x254); (0x187, 0x187, 1, 0x188); (0x189, 0x18A, 1, 0x256); (0x18B, 0x18B, 1, 0x18C);
   (0x18E, 0x18E, 1, 0x1DD); (0x18F, 0x18F, 1, 0x259); (0x190, 0x190, 1, 0x25B); (0x191, 0x191, 1, 0x192);
   (0x193, 0x193, 1, 0x260); (0x194, 0x194, 1, 0x263); (0x196, 0x196, 1, 0x269); (0x197, 0x197, 1, 0x268);
   (0x198, 0x198, 1, 0x199); (0x19C, 0x19C, 1, 0x26F); (0x19D, 0x19D, 1, 0x272); (0x19F, 0x19F, 1, 0x275);
   (0x1A0, 0x1A4, 2, 0x1A1); (0x1A6, 0x1A6, 1, 0x280); (0x1A7, 0x1A7, 1, 0x1A8); (0x1A9, 0x1A9, 1, 0x283);
   (0x1AC, 0x1AC, 1, 0x1AD); (0x1AE, 0x1AE, 1, 0x288); (0x1AF, 0x1AF, 1, 0x1B0); (0x1B1, 0x1B2, 1, 0x28A);
   (0x1B3, 0x1B5, 2, 0x1B4); (0x1B7, 0x1B7, 1, 0x292); (0x1B8, 0x1B8, 1, 0x1B9); (0x1BC, 0x1BC, 1, 0x1BD);
   (0x1C4, 0x1C4, 1, 0x1C6); (0x1C5, 0x1C5, 1, 0x1C6); (0x1C7, 0x1C7, 1, 0x1C9); (0x1C8, 0x1C8, 1, 0x1C9);
   (0x1CA, 0x1CA, 1, 0x1CC); (0x1CB, 0x1DB, 2, 0x1CC); (0x1DE, 0x1EE, 2, 0x1DF); (0x1F1, 0x1F1, 1, 0x1F3);
   (0x1F2, 0x1F4, 2, 0x1F3); (0x1F6, 0x1F6, 1, 0x195); (0x1F7, 0x1F7, 1, 0x1BF); (0x1F8, 0x21E, 2, 0x1F9);
   (0x220, 0x220, 1, 0x19E); (0x222, 0x232, 2, 0x223); (0x23A, 0x23A, 1, 0x2C65); (0x23B, 0x23B, 1, 0x23C);
   (0x23D, 0x23D, 1, 0x19A); (0x23E, 0x23E, 1, 0x2C66); (0x241, 0x241, 1, 0x242); (0x243, 0x243, 1, 0x180);
   (0x244, 0x244, 1, 0x289); (0x245, 0x245, 1, 0x28C); (0x246, 0x24E, 2, 0x247); (0x370, 0x372, 2, 0x371);
   (0x376, 0x376, 1, 0x377); (0x37F, 0x37F, 1, 0x3F3); (0x386, 0x386, 1, 0x3AC); (0x388, 0x38A, 1, 0x3AD);
   (0x38C, 0x38C, 1, 0x3CC); (0x38E, 0x38F, 1, 0x3CD); (0x391, 0x3A1, 1, 0x3B1); (0x3A3, 0x3AB, 1, 0x3C3);
   (0x3CF, 0x3CF, 1, 0x3D7); (0x3D8, 0x3EE, 2, 0x3D9); (0x3F4, 0x3F4, 1, 0x3B8); (0x3F7, 0x3F7, 1, 0x3F8);
   (0x3F9, 0x3F9, 1, 0x3F2); (0x3FA, 0x3FA, 1, 0x3FB); (0x3FD, 0x3FF, 1, 0x37B); (0x400, 0x40F, 1, 0x450);
   (0x410, 0x42F, 1, 0x430); (0x460, 0x480, 2, 0x461); (0x48A, 0x4BE, 2, 0x48B); (0x4C0, 0x4C0, 1, 0x4CF);
   (0x4C1, 0x4CD, 2, 0x4C2); (0x4D0, 0x52E, 2, 0x4D1); (0x531, 0x556, 1, 0x561); (0x10A0, 0x10C5, 1, 0x2D00);
   (0x10C7, 0x10C7, 1, 0x2D27); (0x10CD, 0x10CD, 1, 0x2D2D); (0x13A0, 0x13EF, 1, 0xAB70); (0x13F0, 0x13F5, 1, 0x13F8);
   (0x1C90, 0x1CBA, 1, 0x10D0); (0x1CBD, 0x1CBF, 1, 0x10FD); (0x1E00, 0x1E94, 2, 0x1E01); (0x1E9E, 0x1E9E, 1, 0xDF);
   (0x1EA0, 0x1EFE, 2, 0x1EA1); (0x1F08, 0x1F0F, 1, 0x1F00); (0x1F18, 0x1F1D, 1, 0x1F10); (0x1F28, 0x1F2F, 1, 0x1F20);
   (0x1F38, 0x1F3F, 1, 0x1F30); (0x1F48, 0x1F4D, 1, 0x1F40); (0x1F59, 0x1F5F, 2, 0x1F51); (0x1F68, 0x1F6F, 1, 0x1F60);
   (0x1F88, 0x1F8F, 1, 0x1F80); (0x1F98, 0x1F9F, 1, 0x1F90); (0x1FA8, 0x1FAF, 1, 0x1FA0); (0x1FB8, 0x1FB9, 1, 0x1FB0);
   (0x1FBA, 0x1FBB, 1, 0x1F70); (0x1FBC, 0x1FBC, 1, 0x1FB3); (0x1FC8, 0x1FCB, 1, 0x1F72); (0x1FCC, 0x1FCC, 1, 0x1FC3);
   (0x1FD8, 0x1FD9, 1, 0x1FD0); (0x1FDA, 0x1FDB, 1, 0x1F76); (0x1FE8, 0x1FE9, 1, 0x1FE0); (0x1FEA, 0x1FEB, 1, 0x1F7A);
   (0x1FEC, 0x1FEC, 1, 0x1FE5); (0x1FF8, 0x1FF9, 1, 0x1F78); (0x1FFA, 0x1FFB, 1, 0x1F7C); (0x1FFC, 0x1FFC, 1, 0x1FF3);
   (0x2126, 0x2126, 1, 0x3C9); (0x212A, 0x212A, 1, 0x6B); (0x212B, 0x212B, 1, 0xE5); (0x2132, 0x2132, 1, 0x214E);
   (0x2160, 0x216F, 1, 0x2170); (0x2183, 0x2183, 1, 0x2184); (0x24B6, 0x24CF, 1, 0x24D0); (0x2C00, 0x2C2F, 1, 0x2C30);
   (0x2C60, 0x2C60, 1, 0x2C61); (0x2C62, 0x2C62, 1, 0x26B); (0x2C63, 0x2C63, 1, 0x1D7D); (0x2C64, 0x2C64, 1, 0x27D);
   (0x2C67, 0x2C6B, 2, 0x2C68); (0x2C6D, 0x2C6D, 1, 0x251); (0x2C6E, 0x2C6E, 1, 0x271); (0x2C6F, 0x2C6F, 1, 0x250);
   (0x2C70, 0x2C70, 1, 0x252); (0x2C72, 0x2C72, 1, 0x2C73); (0x2C75, 0x2C75, 1, 0x2C76); (0x2C7E, 0x2C7F, 1, 0x23F);
   (0x2C80, 0x2CE2, 2, 0x2C81); (0x2CEB, 0x2CED, 2, 0x2CEC); (0x2CF2, 0x2CF2, 1, 0x2CF3); (0xA640, 0xA66C, 2, 0xA641);
   (0xA680, 0xA69A, 2, 0xA681); (0xA722, 0xA72E, 2, 0xA723); (0xA732, 0xA76E, 2, 0xA733); (0xA779, 0xA77B, 2, 0xA77A);
   (0xA77D, 0xA77D, 1, 0x1D79); (0xA77E, 0xA786, 2, 0xA77F); (0xA78B, 0xA78B, 1, 0xA78C); (0xA78D, 0xA78D, 1, 0x265);
   (0xA790, 0xA792, 2, 0xA791); (0xA796, 0xA7A8, 2, 0xA797); (0xA7AA, 0xA7AA, 1, 0x266); (0xA7AB, 0xA7AB, 1, 0x25C);
   (0xA7AC, 0xA7AC, 1, 0x261); (0xA7AD, 0xA7AD, 1, 0x26C); (0xA7AE, 0xA7AE, 1, 0x26A); (0xA7B0, 0xA7B0, 1, 0x29E);
   (0xA7B1, 0xA7B1, 1, 0x287); (0xA7B2, 0xA7B2, 1, 0x29D); (0xA7B3, 0xA7B3, 1, 0xAB53); (0xA7B4, 0xA7C2, 2, 0xA7B5);
   (0xA7C4, 0xA7C4, 1, 0xA794); (0xA7C5, 0xA7C5, 1, 0x282); (0xA7C6, 0xA7C6, 1, 0x1D8E); (0xA7C7, 0xA7C9, 2, 0xA7C8);
   (0xA7D0, 0xA7D0, 1, 0xA7D1); (0xA7D6, 0xA7D8, 2, 0xA7D7); (0xA7F5, 0xA7F5, 1, 0xA7F6); (0xFF21, 0xFF3A, 1, 0xFF41);
   (0x10400, 0x10427, 1, 0x10428); (0x104B0, 0x104D3, 1, 0x104D8); (0x10570, 0x1057A, 1, 0x10597); (0x1057C, 0x1058A, 1, 0x105A3);
   (0x1058C, 0x10592, 1, 0x105B3); (0x10594, 0x10595, 1, 0x105BB); (0x10C80, 0x10CB2, 1, 0x10CC0); (0x118A0, 0x118BF, 1, 0x118C0);
   (0x16E40, 0x16E5F, 1, 0x16E60); (0x1E900, 0x1E921, 1, 0x1E922)].

Definition upper_table : list (N * N * N * N) :=
  [(0x61, 0x7A, 1, 0x41); (0xB5, 0xB5, 1, 0x39C); (0xE0, 0xF6, 1, 0xC0); (0xF8, 0xFE, 1, 0xD8);
   (0xFF, 0xFF, 1, 0x178); (0x101, 0x12F, 2, 0x100); (0x131, 0x131, 1, 0x49); (0x133, 0x137, 2, 0x132);
   (0x13A, 0x148, 2, 0x139); (0x14B, 0x177, 2, 0x14A); (0x17A, 0x17E, 2, 0x179); (0x17F, 0x17F, 1, 0x53);
   (0x180, 0x180, 1, 0x243); (0x183, 0x185, 2, 0x182); (0x188, 0x188, 1, 0x187); (0x18C, 0x18C, 1, 0x18B);
   (0x192, 0x192, 1, 0x191); (0x195, 0x195, 1, 0x1F6); (0x199, 0x199, 1, 0x198); (0x19A, 0x19A, 1, 0x23D);
   (0x19E, 0x19E, 1, 0x220); (0x1A1, 0x1A5, 2, 0x1A0); (0x1A8, 0x1A8, 1, 0x1A7); (0x1AD, 0x1AD, 1, 0x1AC);
   (0x1B0, 0x1B0, 1, 0x1AF); (0x1B4, 0x1B6, 2, 0x1B3); (0x1B9, 0x1B9, 1, 0x1B8); (0x1BD, 0x1BD, 1, 0x1BC);
   (0x1BF, 0x1BF, 1, 0x1F7); (0x1C5, 0x1C5, 1, 0x1C4); (0x1C6, 0x1C6, 1, 0x1C4); (0x1C8, 0x1C8, 1, 0x1C7);
   (0x1C9, 0x1C9, 1, 0x1C7); (0x1CB, 0x1CB, 1, 0x1CA); (0x1CC, 0x1CC, 1, 0x1CA); (0x1CE, 0x1DC, 2, 0x1CD);
   (0x1DD, 0x1DD, 1, 0x18E); (0x1DF, 0x1EF, 2, 0x1DE); (0x1F2, 0x1F2, 1, 0x1F1); (0x1F3, 0x1F3, 1, 0x1F1);
   (0x1F5, 0x1F5, 1, 0x1F4); (0x1F9, 0x21F, 2, 0x1F8); (0x223, 0x233, 2, 0x222); (0x23C, 0x23C, 1, 0x23B);
   (0x23F, 0x240, 1, 0x2C7E); (0x242, 0x242, 1, 0x241); (0x247, 0x24F, 2, 0x246); (0x250, 0x250, 1, 0x2C6F);
   (0x251, 0x251, 1, 0x2C6D); (0x252, 0x252, 1, 0x2C70); (0x253, 0x253, 1, 0x181); (0x254, 0x254, 1, 0x186);
   (0x256, 0x257, 1, 0x189); (0x259, 0x259, 1, 0x18F); (0x25B, 0x25B, 1, 0x190); (0x25C, 0x25C, 1, 0xA7AB);
   (0x260, 0x260, 1, 0x193); (0x261, 0x261, 1, 0xA7AC); (0x263, 0x263, 1, 0x194); (0x265, 0x265, 1, 0xA78D);
   (0x266, 0x266, 1, 0xA7AA); (0x268, 0x268, 1, 0x197); (0x269, 0x269, 1, 0x196); (0x26A, 0x26A, 1, 0xA7AE);
   (0x26B, 0x26B, 1, 0x2C62); (0x26C, 0x26C, 1, 0xA7AD); (0x26F, 0x26F, 1, 0x19C); (0x271, 0x271, 1, 0x2C6E);
   (0x272, 0x272, 1, 0x19D); (0x275, 0x275, 1, 0x19F); (0x27D, 0x27D, 1, 0x2C64); (0x280, 0x280, 1, 0x1A6);
   (0x282, 0x282, 1, 0xA7C5); (0x283, 0x283, 1, 0x1A9); (0x287, 0x287, 1, 0xA7B1); (0x288, 0x288, 1, 0x1AE);
   (0x289, 0x289, 1, 0x244); (0x28A, 0x28B, 1, 0x1B1); (0x28C, 0x28C, 1, 0x245); (0x292, 0x292, 1, 0x1B7);
   (0x29D, 0x29D, 1, 0xA7B2); (0x29E, 0x29E, 1, 0xA7B0); (0x345, 0x345, 1, 0x399); (0x371, 0x373, 2, 0x370);
   (0x377, 0x377, 1, 0x376); (0x37B, 0x37D, 1, 0x3FD); (0x3AC, 0x3AC, 1, 0x386); (0x3AD, 0x3AF, 1, 0x388);
   (0x3B1, 0x3C1, 1, 0x391); (0x3C2, 0x3C2, 1, 0x3A3); (0x3C3, 0x3CB, 1, 0x3A3); (0x3CC, 0x3CC, 1, 0x38C);
   (0x3CD, 0x3CE, 1, 0x38E); (0x3D0, 0x3D0, 1, 0x392); (0x3D1, 0x3D1, 1, 0x398); (0x3D5, 0x3D5, 1, 0x3A6);
   (0x3D6, 0x3D6, 1, 0x3A0); (0x3D7, 0x3D7, 1, 0x3CF); (0x3D9, 0x3EF, 2, 0x3D8); (0x3F0, 0x3F0, 1, 0x39A);
   (0x3F1, 0x3F1, 1, 0x3A1); (0x3F2, 0x3F2, 1, 0x3F9); (0x3F3, 0x3F3, 1, 0x37F); (0x3F5, 0x3F5, 1, 0x395);
   (0x3F8, 0x3F8, 1, 0x3F7); (0x3FB, 0x3FB, 1, 0x3FA); (0x430, 0x44F, 1, 0x410); (0x450, 0x45F, 1, 0x400);
   (0x461, 0x481, 2, 0x460); (0x48B, 0x4BF, 2, 0x48A); (0x4C2, 0x4CE, 2, 0x4C1); (0x4CF, 0x4CF, 1, 0x4C0);
   (0x4D1, 0x52F, 2, 0x4D0); (0x561, 0x586, 1, 0x531); (0x10D0, 0x10FA, 1, 0x1C90); (0x10FD, 0x10FF, 1, 0x1CBD);
   (0x13F8, 0x13FD, 1, 0x13F0); (0x1C80, 0x1C80, 1, 0x412); (0x1C81, 0x1C81, 1, 0x414); (0x1C82, 0x1C82, 1, 0x41E);
   (0x1C83, 0x1C84, 1, 0x421); (0x1C85, 0x1C85, 1, 0x422); (0x1C86, 0x1C86, 1, 0x42A); (0x1C87, 0x1C87, 1, 0x462);
   (0x1C88, 0x1C88, 1, 0xA64A); (0x1D79, 0x1D79, 1, 0xA77D); (0x1D7D, 0x1D7D, 1, 0x2C63); (0x1D8E, 0x1D8E, 1, 0xA7C6);
   (0x1E01, 0x1E95, 2, 0x1E00); (0x1E9B, 0x1E9B, 1, 0x1E60); (0x1EA1, 0x1EFF, 2, 0x1EA0); (0x1F00, 0x1F07, 1, 0x1F08);
   (0x1F10, 0x1F15, 1, 0x1F18); (0x1F20, 0x1F27, 1, 0x1F28); (0x1F30, 0x1F37, 1, 0x1F38); (0x1F40, 0x1F45, 1, 0x1F48);
   (0x1F51, 0x1F57, 2, 0x1F59); (0x1F60, 0x1F67, 1, 0x1F68); (0x1F70, 0x1F71, 1, 0x1FBA); (0x1F72, 0x1F75, 1, 0x1FC8);
   (0x1F76, 0x1F77, 1, 0x1FDA); (0x1F78, 0x1F79, 1, 0x1FF8); (0x1F7A, 0x1F7B, 1, 0x1FEA); (0x1F7C, 0x1F7D, 1, 0x1FFA);
   (0x1FB0, 0x1FB1, 1, 0x1FB8); (0x1FBE, 0x1FBE, 1, 0x399); (0x1FD0, 0x1FD1, 1, 0x1FD8); (0x1FE0, 0x1FE1, 1, 0x1FE8);
   (0x1FE5, 0x1FE5, 1, 0x1FEC); (0x214E, 0x214E, 1, 0x2132); (0x2170, 0x217F, 1, 0x2160); (0x2184, 0x2184, 1, 0x2183);
   (0x24D0, 0x24E9, 1, 0x24B6); (0x2C30, 0x2C5F, 1, 0x2C00); (0x2C61, 0x2C61, 1, 0x2C60); (0x2C65, 0x2C65, 1, 0x23A);
   (0x2C66, 0x2C66, 1, 0x23E); (0x2C68, 0x2C6C, 2, 0x2C67); (0x2C73, 0x2C73, 1, 0x2C72); (0x2C76, 0x2C76, 1, 0x2C75);
   (0x2C81, 0x2CE3, 2, 0x2C80); (0x2CEC, 0x2CEE, 2, 0x2CEB); (0x2CF3, 0x2CF3, 1, 0x2CF2); (0x2D00, 0x2D25, 1, 0x10A0);
   (0x2D27, 0x2D27, 1, 0x10C7); (0x2D2D, 0x2D2D, 1, 0x10CD); (0xA641, 0xA66D, 2, 0xA640); (0xA681, 0xA69B, 2, 0xA680);
   (0xA723, 0xA72F, 2, 0xA722); (0xA733, 0xA76F, 2, 0xA732); (0xA77A, 0xA77C, 2, 0xA779); (0xA77F, 0xA787, 2, 0xA77E);
   (0xA78C, 0xA78C, 1, 0xA78B); (0xA791, 0xA793, 2, 0xA790); (0xA794, 0xA794, 1, 0xA7C4); (0xA797, 0xA7A9, 2, 0xA796);
   (0xA7B5, 0xA7C3, 2, 0xA7B4); (0xA7C8, 0xA7CA, 2, 0xA7C7); (0xA7D1, 0xA7D1, 1, 0xA7D0); (0xA7D7, 0xA7D9, 2, 0xA7D6);
   (0xA7F6, 0xA7F6, 1, 0xA7F5); (0xAB53, 0xAB53, 1, 0xA7B3); (0xAB70, 0xABBF, 1, 0x13A0); (0xFF41, 0xFF5A, 1, 0xFF21);
   (0x10428, 0x1044F, 1, 0x10400); (0x104D8, 0x104FB, 1, 0x104B0); (0x10597, 0x105A1, 1, 0x10570); (0x105A3, 0x105B1, 1, 0x1057C);
   (0x105B3, 0x105B9, 1, 0x1058C); (0x105BB, 0x105BC, 1, 0x10594); (0x10CC0, 0x10CF2, 1, 0x10C80); (0x118C0, 0x118DF, 1, 0x118A0);
   (0x16E60, 0x16E7F, 1, 0x16E40); (0x1E922, 0x1E943, 1, 0x1E900)].

Definition upper_special_table : list (N * list N) :=
  [(0xDF, [0x53; 0x53]); (0x149, [0x2BC; 0x4E]); (0x1F0, [0x4A; 0x30C]); (0x390, [0x399; 0x308; 0x301]);
   (0x3B0, [0x3A5; 0x308; 0x301]); (0x587, [0x535; 0x552]); (0x1E96, [0x48; 0x331]); (0x1E97, [0x54; 0x308]);
   (0x1E98, [0x57; 0x30A]); (0x1E99, [0x59; 0x30A]); (0x1E9A, [0x41; 0x2BE]); (0x1F50, [0x3A5; 0x313]);
   (0x1F52, [0x3A5; 0x313; 0x300]); (0x1F54, [0x3A5; 0x313; 0x301]); (0x1F56, [0x3A5; 0x313; 0x342]); (0x1F80, [0x1F08; 0x399]);
   (0x1F81, [0x1F09; 0x399]); (0x1F82, [0x1F0A; 0x399]); (0x1F83, [0x1F0B; 0x399]); (0x1F84, [0x1F0C; 0x399]);
   (0x1F85, [0x1F0D; 0x399]); (0x1F86, [0x1F0E; 0x399]); (0x1F87, [0x1F0F; 0x399]); (0x1F88, [0x1F08; 0x399]);
   (0x1F89, [0x1F09; 0x399]); (0x1F8A, [0x1F0A; 0x399]); (0x1F8B, [0x1F0B; 0x399]); (0x1F8C, [0x1F0C; 0x399]);
   (0x1F8D, [0x1F0D; 0x399]); (0x1F8E, [0x1F0E; 0x399]); (0x1F8F, [0x1F0F; 0x399]); (0x1F90, [0x1F28; 0x399]);
   (0x1F91, [0x1F29; 0x399]); (0x1F92, [0x1F2A; 0x399]); (0x1F93, [0x1F2B; 0x399]); (0x1F94, [0x1F2C; 0x399]);
   (0x1F95, [0x1F2D; 0x399]); (0x1F96, [0x1F2E; 0x399]); (0x1F97, [0x1F2F; 0x399]); (0x1F98, [0x1F28; 0x399]);
   (0x1F99, [0x1F29; 0x399]); (0x1F9A, [0x1F2A; 0x399]); (0x1F9B, [0x1F2B; 0x399]); (0x1F9C, [0x1F2C; 0x399]);
   (0x1F9D, [0x1F2D; 0x399]); (0x1F9E, [0x1F2E; 0x399]); (0x1F9F, [0x1F2F; 0x399]); (0x1FA0, [0x1F68; 0x399]);
   (0x1FA1, [0x1F69; 0x399]); (0x1FA2, [0x1F6A; 0x399]); (0x1FA3, [0x1F6B; 0x399]); (0x1FA4, [0x1F6C; 0x399]);
   (0x1FA5, [0x1F6D; 0x399]); (0x1FA6, [0x1F6E; 0x399]); (0x1FA7, [0x1F6F; 0x399]); (0x1FA8, [0x1F68; 0x399]);
   (0x1FA9, [0x1F69; 0x399]); (0x1FAA, [0x1F6A; 0x399]); (0x1FAB, [0x1F6B; 0x399]); (0x1FAC, [0x1F6C; 0x399]);
   (0x1FAD, [0x1F6D; 0x399]); (0x1FAE, [0x1F6E; 0x399]); (0x1FAF, [0x1F6F; 0x399]); (0x1FB2, [0x1FBA; 0x399]);
   (0x1FB3, [0x391; 0x399]); (0x1FB4, [0x386; 0x399]); (0x1FB6, [0x391; 0x342]); (0x1FB7, [0x391; 0x342; 0x399]);
   (0x1FBC, [0x391; 0x399]); (0x1FC2, [0x1FCA; 0x399]); (0x1FC3, [0x397; 0x399]); (0x1FC4, [0x389; 0x399]);
   (0x1FC6, [0x397; 0x342]); (0x1FC7, [0x397; 0x342; 0x399]); (0x1FCC, [0x397; 0x399]); (0x1FD2, [0x399; 0x308; 0x300]);
   (0x1FD3, [0x399; 0x308; 0x301]); (0x1FD6, [0x399; 0x342]); (0x1FD7, [0x399; 0x308; 0x342]); (0x1FE2, [0x3A5; 0x308; 0x300]);
   (0x1FE3, [0x3A5; 0x308; 0x301]); (0x1FE4, [0x3A1; 0x313]); (0x1FE6, [0x3A5; 0x342]); (0x1FE7, [0x3A5; 0x308; 0x342]);
   (0x1FF2, [0x1FFA; 0x399]); (0x1FF3, [0x3A9; 0x399]); (0x1FF4, [0x38F; 0x399]); (0x1FF6, [0x3A9; 0x342]);
   (0x1FF7, [0x3A9; 0x342; 0x399]); (0x1FFC, [0x3A9; 0x399]); (0xFB00, [0x46; 0x46]); (0xFB01, [0x46; 0x49]);
   (0xFB02, [0x46; 0x4C]); (0xFB03, [0x46; 0x46; 0x49]); (0xFB04, [0x46; 0x46; 0x4C]); (0xFB05, [0x53; 0x54]);
   (0xFB06, [0x53; 0x54]); (0xFB13, [0x544; 0x546]); (0xFB14, [0x544; 0x535]); (0xFB15, [0x544; 0x53B]);
   (0xFB16, [0x54E; 0x546]); (0xFB17, [0x544; 0x53D])].
Definition sre_iscased_table : list (N * N) :=
  [(0x41, 0x5A); (0x61, 0x7A); (0xB5, 0xB5); (0xC0, 0xD6); (0xD8, 0xF6); (0xF8, 0x137);
   (0x139, 0x18C); (0x18E, 0x19A); (0x19C, 0x1A9); (0x1AC, 0x1B9); (0x1BC, 0x1BD); (0x1BF, 0x1BF);
   (0x1C4, 0x220); (0x222, 0x233); (0x23A, 0x254); (0x256, 0x257); (0x259, 0x259); (0x25B, 0x25C);
   (0x260, 0x261); (0x263, 0x263); (0x265, 0x266); (0x268, 0x26C); (0x26F, 0x26F); (0x271, 0x272);
   (0x275, 0x275); (0x27D, 0x27D); (0x280, 0x280); (0x282, 0x283); (0x287, 0x28C); (0x292, 0x292);
   (0x29D, 0x29E); (0x345, 0x345); (0x370, 0x373); (0x376, 0x377); (0x37B, 0x37D); (0x37F, 0x37F);
   (0x386, 0x386); (0x388, 0x38A); (0x38C, 0x38C); (0x38E, 0x3A1); (0x3A3, 0x3D1); (0x3D5, 0x3F5);
   (0x3F7, 0x3FB); (0x3FD, 0x481); (0x48A, 0x52F); (0x531, 0x556); (0x561, 0x587); (0x10A0, 0x10C5);
   (0x10C7, 0x10C7); (0x10CD, 0x10CD); (0x10D0, 0x10FA); (0x10FD, 0x10FF); (0x13A0, 0x13F5); (0x13F8, 0x13FD);
   (0x1C80, 0x1C88); (0x1C90, 0x1CBA); (0x1CBD, 0x1CBF); (0x1D79, 0x1D79); (0x1D7D, 0x1D7D); (0x1D8E, 0x1D8E);
   (0x1E00, 0x1E9B); (0x1E9E, 0x1E9E); (0x1EA0, 0x1F15); (0x1F18, 0x1F1D); (0x1F20, 0x1F45); (0x1F48, 0x1F4D);
   (0x1F50, 0x1F57); (0x1F59, 0x1F59); (0x1F5B, 0x1F5B); (0x1F5D, 0x1F5D); (0x1F5F, 0x1F7D); (0x1F80, 0x1FB4);
   (0x1FB6, 0x1FBC); (0x1FBE, 0x1FBE); (0x1FC2, 0x1FC4); (0x1FC6, 0x1FCC); (0x1FD0, 0x1FD3); (0x1FD6, 0x1FDB);
   (0x1FE0, 0x1FEC); (0x1FF2, 0x1FF4); (0x1FF6, 0x1FFC); (0x2126, 0x2126); (0x212A, 0x212B); (0x2132, 0x2132);
   (0x214E, 0x214E); (0x2160, 0x217F); (0x2183, 0x2184); (0x24B6, 0x24E9); (0x2C00, 0x2C70); (0x2C72, 0x2C73);
   (0x2C75, 0x2C76); (0x2C7E, 0x2CE3); (0x2CEB, 0x2CEE); (0x2CF2, 0x2CF3); (0x2D00, 0x2D25); (0x2D27, 0x2D27);
   (0x2D2D, 0x2D2D); (0xA640, 0xA66D); (0xA680, 0xA69B); (0xA722, 0xA72F); (0xA732, 0xA76F); (0xA779, 0xA787);
   (0xA78B, 0xA78D); (0xA790, 0xA794); (0xA796, 0xA7AE); (0xA7B0, 0xA7CA); (0xA7D0, 0xA7D1); (0xA7D6, 0xA7D9);
   (0xA7F5, 0xA7F6); (0xAB53, 0xAB53); (0xAB70, 0xABBF); (0xFB00, 0xFB06); (0xFB13, 0xFB17); (0xFF21, 0xFF3A);
   (0xFF41, 0xFF5A); (0x10400, 0x1044F); (0x104B0, 0x104D3); (0x104D8, 0x104FB); (0x10570, 0x1057A); (0x1057C, 0x1058A);
   (0x1058C, 0x10592); (0x10594, 0x10595); (0x10597, 0x105A1); (0x105A3, 0x105B1); (0x105B3, 0x105B9); (0x105BB, 0x105BC);
   (0x10C80, 0x10CB2); (0x10CC0, 0x10CF2); (0x118A0, 0x118DF); (0x16E40, 0x16E7F); (0x1E900, 0x1E943)].

Definition sre_extra_cases_table : list (N * list N) :=
  [(0x69, [0x131]); (0x73, [0x17F]); (0xB5, [0x3BC]); (0x131, [0x69]);
   (0x17F, [0x73]); (0x345, [0x3B9; 0x1FBE]); (0x390, [0x1FD3]); (0x3B0, [0x1FE3]);
   (0x3B2, [0x3D0]); (0x3B5, [0x3F5]); (0x3B8, [0x3D1]); (0x3B9, [0x345; 0x1FBE]);
   (0x3BA, [0x3F0]); (0x3BC, [0xB5]); (0x3C0, [0x3D6]); (0x3C1, [0x3F1]);
   (0x3C2, [0x3C3]); (0x3C3, [0x3C2]); (0x3C6, [0x3D5]); (0x3D0, [0x3B2]);
   (0x3D1, [0x3B8]); (0x3D5, [0x3C6]); (0x3D6, [0x3C0]); (0x3F0, [0x3BA]);
   (0x3F1, [0x3C1]); (0x3F5, [0x3B5]); (0x432, [0x1C80]); (0x434, [0x1C81]);
   (0x43E, [0x1C82]); (0x441, [0x1C83]); (0x442, [0x1C84; 0x1C85]); (0x44A, [0x1C86]);
   (0x463, [0x1C87]); (0x1C80, [0x432]); (0x1C81, [0x434]); (0x1C82, [0x43E]);
   (0x1C83, [0x441]); (0x1C84, [0x442; 0x1C85]); (0x1C85, [0x442; 0x1C84]); (0x1C86, [0x44A]);
   (0x1C87, [0x463]); (0x1C88, [0xA64B]); (0x1E61, [0x1E9B]); (0x1E9B, [0x1E61]);
   (0x1FBE, [0x345; 0x3B9]); (0x1FD3, [0x390]); (0x1FE3, [0x3B0]); (0xA64B, [0x1C88]);
   (0xFB05, [0xFB06]); (0xFB06, [0xFB05])].

Definition in_ranges (t : list (N * N)) (c : N) : bool :=
  existsb (fun r => (fst r <=? c) && (c <=? snd r)) t.

Fixpoint run_lookup (t : list (N * N * N * N)) (c : N) : option N :=
  match t with
  | [] => None
  | (lo, hi, step, img) :: t' =>
    if (lo <=? c) && (c <=? hi) && ((c - lo) mod step =? 0)
    then Some (img + (c - lo))
    else run_lookup t' c
  end.

Fixpoint special_lookup (t : list (N * list N)) (c : N) : option (list N) :=
  match t with
  | [] => None
  | (k, v) :: t' => if k =? c then Some v else special_lookup t' c
  end.

(** [str.isspace] on one character; also the class [\s] of [re]. *)
Definition isspace (c : N) : bool := in_ranges space_table c.
(** [str.isalnum] on one character. *)
Definition isalnum (c : N) : bool := in_ranges alnum_table c.
(** The class [\w] of [re] on [str] patterns. *)
Definition is_word (c : N) : bool := isalnum c || (c =? 0x5F).
(** The characters with a decimal digit value. *)
Definition isdecimal (c : N) : bool := in_ranges decimal_table c.
Definition is_cased (c : N) : bool := in_ranges cased_table c.
Definition is_case_ignorable (c : N) : bool := in_ranges case_ignorable_table c.

(** The simple lowercase mapping: [_PyUnicode_ToLowercase], which is also
    SRE's [sre_lower_unicode]. *)
Definition tolower (c : N) : N := default c (run_lookup lower_table c).

(** The full lowercase mapping of one character, outside any context. *)
Definition lower_full (c : N) : list N :=
  if c =? 0x130 then [0x69; 0x307] else [tolower c].

(** The full uppercase mapping of one character. *)
Definition upper_full (c : N) : list N :=
  match special_lookup upper_special_table c with
  | Some v => v
  | None => [default c (run_lookup upper_table c)]
  end.

(** The first character of [s] that is not case-ignorable. *)
Fixpoint skip_ignorable (s : pystr) : option N :=
  match s with
  | [] => None
  | c :: s' => if is_case_ignorable c then skip_ignorable s' else Some c
  end.

(** [handle_capital_sigma]: a capital sigma is in final position when a
    cased letter precedes it and none follows, case-ignorable characters
    skipped on both sides.  [before] is the text before it, reversed. *)
Definition final_sigma (before after : pystr) : bool :=
  match skip_ignorable before with
  | Some c =>
    is_cased c &&
    match skip_ignorable after with
    | None => true
    | Some d => negb (is_cased d)
    end
  | None => false
  end.

Fixpoint do_lower (before s : pystr) : pystr :=
  match s with
  | [] => []
  | c :: s' =>
    (if c =? 0x3A3
     then [if final_sigma before s' then 0x3C2 else 0x3C3]
     else lower_full c) ++ do_lower (c :: before) s'
  end.

(** [str.lower]. *)
Definition str_lower (s : pystr) : pystr := do_lower [] s.

(** [str.upper]. *)
Definition str_upper (s : pystr) : pystr := List.concat (List.map upper_full s).

Fixpoint lstrip (s : pystr) : pystr :=
  match s with
  | [] => []
  | c :: s' => if isspace c then lstrip s' else s
  end.

Definition rstrip (s : pystr) : pystr := rev (lstrip (rev s)).

(** [str.strip] without argument. *)
Definition str_strip (s : pystr) : pystr := rstrip (lstrip s).

(** [s.startswith(p)]. *)
Fixpoint startswith (s p : pystr) : bool :=
  match p, s with
  | [], _ => true
  | _ :: _, [] => false
  | a :: p', b :: s' => (a =? b) && startswith s' p'
  end.

(** [s.replace(old, new)] for a non-empty [old]: occurrences are replaced
    from the left and do not overlap.  [skip] counts the characters of an
    occurrence still to be dropped. *)
Fixpoint replace_from (old new : pystr) (skip : nat) (s : pystr) : pystr :=
  match s with
  | [] => []
  | c :: s' =>
    match skip with
    | S k => replace_from old new k s'
    | O =>
      if startswith s old
      then new ++ replace_from old new (Nat.pred (length old)) s'
      else c :: replace_from old new O s'
    end
  end.

Definition str_replace (old new s : pystr) : pystr := replace_from old new O s.

(** [sep.join(parts)]. *)
Fixpoint str_join (sep : pystr) (parts : list pystr) : pystr :=
  match parts with
  | [] => []
  | [p] => p
  | p :: ps => p ++ sep ++ str_join sep ps
  end.

(** [s.ljust(w)]. *)
Definition ljust (w : nat) (s : pystr) : pystr :=
  s ++ repeat 0x20 (w - length s)%nat.

(** [str(n)] of an [int]. *)
Definition str_of_int (z : Z) : pystr := py (NilZero.string_of_int (Z.to_int z)).

(** ** Regular expressions of the [re] module

    The patterns of the sources use literals, [.], [\s], [\b], sequences,
    an optional group and repetitions of one character class.  A capturing
    group is not represented: the only one of the sources encloses its
    whole pattern, so that [group(1)] is the match itself. *)

Record re_flags := ReFlags { IGNORECASE : bool; DOTALL : bool }.

Inductive atom :=
| ALit (c : N)     (* a literal character *)
| ADot             (* [.] *)
| ASpace.          (* [\s] *)

Inductive regex :=
| REps
| RAtom (a : atom)
| RWordBoundary                                  (* [\b] *)
| RSeq (r1 r2 : regex)
| RMaybe (r : regex)                             (* [(?:r)?] *)
| RRepeat (a : atom) (min : nat) (greedy : bool).  (* [a*], [a+], [a+?] *)

(** The literals of [w] in sequence. *)
Fixpoint rlit (w : pystr) : regex :=
  match w with
  | [] => REps
  | c :: w' => RSeq (RAtom (ALit c)) (rlit w')
  end.

(** [_sre.unicode_iscased]. *)
Definition sre_iscased (c : N) : bool := in_ranges sre_iscased_table c.

(** [re._casefix._EXTRA_CASES]: the lowercase characters that match a
    lowercase character besides itself when case is ignored. *)
Definition sre_extra_cases (lo : N) : list N :=
  default [] (special_lookup sre_extra_cases_table lo).

(** Whether the character [x] of the text matches the atom.  A cased
    literal under IGNORECASE is compiled to a comparison of the lowercased
    character with the lowercased literal and its extra cases. *)
Definition atom_match (fl : re_flags) (a : atom) (x : N) : bool :=
  match a with
  | ALit c =>
    if IGNORECASE fl && sre_iscased c
    then existsb (N.eqb (tolower x)) (tolower c :: sre_extra_cases (tolower c))
    else x =? c
  | ADot => DOTALL fl || negb (x =? 0xA)
  | ASpace => isspace x
  end.

Definition word_before (prev : option N) : bool :=
  match prev with Some c => is_word c | None => false end.

Definition word_here (s : pystr) : bool :=
  match s with c :: _ => is_word c | [] => false end.

(** [\b]: exactly one of the characters before and at the position is a
    word character. *)
Definition at_boundary (prev : option N) (s : pystr) : bool :=
  negb (Bool.eqb (word_before prev) (word_here s)).

Section Matcher.
Context {A : Type} (fl : re_flags).

(** A continuation receives the last character consumed and the rest of
    the text; [None] makes the matcher backtrack. *)
Definition cont : Type := option N -> pystr -> option A.

(** A lazy repetition tries the continuation before one more character. *)
Fixpoint repeat_lazy (a : atom) (k : cont) (min : nat) (prev : option N) (s : pystr)
  : option A :=
  match min with
  | S min' =>
    match s with
    | c :: s' => if atom_match fl a c then repeat_lazy a k min' (Some c) s' else None
    | [] => None
    end
  | O =>
    match k prev s with
    | Some x => Some x
    | None =>
      match s with
      | c :: s' => if atom_match fl a c then repeat_lazy a k O (Some c) s' else None
      | [] => None
      end
    end
  end.

(** A greedy repetition takes one more character first. *)
Fixpoint repeat_greedy (a : atom) (k : cont) (min : nat) (prev : option N) (s : pystr)
  : option A :=
  let stop := match min with O => k prev s | S _ => None end in
  match s with
  | c :: s' =>
    if atom_match fl a c
    then match repeat_greedy a k (Nat.pred min) (Some c) s' with
         | Some x => Some x
         | None => stop
         end
    else stop
  | [] => stop
  end.

Fixpoint rmatch (r : regex) (prev : option N) (s : pystr) (k : cont) : option A :=
  match r with
  | REps => k prev s
  | RAtom a =>
    match s with
    | c :: s' => if atom_match fl a c then k (Some c) s' else None
    | [] => None
    end
  | RWordBoundary => if at_boundary prev s then k prev s else None
  | RSeq r1 r2 => rmatch r1 prev s (fun p s' => rmatch r2 p s' k)
  | RMaybe r1 =>
    match rmatch r1 prev s k with
    | Some x => Some x
    | None => k prev s
    end
  | RRepeat a min greedy =>
    if greedy then repeat_greedy a k min prev s else repeat_lazy a k min prev s
  end.
End Matcher.

(** The match of [r] that starts at the head of [s], as the text left
    after it. *)
Definition match_at (fl : re_flags) (r : regex) (prev : option N) (s : pystr)
  : option pystr :=
  rmatch fl r prev s (fun _ rest => Some rest).

(** The text before the leftmost match, the match, and the text after it.
    [before] is the text already passed, reversed. *)
Fixpoint search_from (fl : re_flags) (r : regex) (before s : pystr)
  : option (pystr * pystr * pystr) :=
  match match_at fl r (head before) s with
  | Some rest => Some (rev before, take (length s - length rest) s, rest)
  | None =>
    match s with
    | [] => None
    | c :: s' => search_from fl r (c :: before) s'
    end
  end.

(** [re.search(r, s, flags)]. *)
Definition re_search (fl : re_flags) (r : regex) (s : pystr)
  : option (pystr * pystr * pystr) :=
  search_from fl r [] s.

(** [re.sub(r, repl, s, flags)] for a pattern that matches no empty text.
    [skip] counts the characters of a match still to be dropped. *)
Fixpoint sub_from (fl : re_flags) (r : regex) (repl : pystr)
    (skip : nat) (prev : option N) (s : pystr) : pystr :=
  match s with
  | [] => []
  | c :: s' =>
    match skip with
    | S k => sub_from fl r repl k (Some c) s'
    | O =>
      match match_at fl r prev s with
      | Some rest =>
        match (length s - length rest)%nat with
        | S k => repl ++ sub_from fl r repl k (Some c) s'
        | O => c :: sub_from fl r repl O (Some c) s'
        end
      | None => c :: sub_from fl r repl O (Some c) s'
      end
    end
  end.

Definition re_sub (fl : re_flags) (r : regex) (repl s : pystr) : pystr :=
  sub_from fl r repl O None s.

(** ** Values, exceptions and the outside world *)

(** The scalar values of a result row.  A value whose class is not modelled
    ([Decimal], [date], [datetime], [float]) is given by what [str] and
    [bool] answer on it. *)
Inductive pyval :=
| PyNone
| PyBool (b : bool)
| PyInt (z : Z)
| PyStr (s : pystr)
| PyOther (text : pystr) (truthy : bool).

(** [str(v)]. *)
Definition py_str (v : pyval) : pystr :=
  match v with
  | PyNone => py "None"
  | PyBool true => py "True"
  | PyBool false => py "False"
  | PyInt z => str_of_int z
  | PyStr s => s
  | PyOther text _ => text
  end.

(** [bool(v)]. *)
Definition py_truthy (v : pyval) : bool :=
  match v with
  | PyNone => false
  | PyBool b => b
  | PyInt z => negb (z =? 0)%Z
  | PyStr s => negb (bool_decide (s = []))
  | PyOther _ t => t
  end.

(** A result row: a [dict] from column names to values, keys in insertion
    order. *)
Definition row : Type := list (pystr * pyval).

(** [r.get(k, d)]. *)
Fixpoint dict_get (r : row) (k : pystr) (d : pyval) : pyval :=
  match r with
  | [] => d
  | (k', v) :: r' => if decide (k' = k) then v else dict_get r' k d
  end.

(** [list(r.keys())]. *)
Definition dict_keys (r : row) : list pystr := List.map fst r.

Inductive exn_class :=
| ValueError | TypeError
| OSError | FileNotFoundError | PermissionError | IsADirectoryError | ConnectionError
| Psycopg2Error       (* [psycopg2.Error] and its subclasses *)
| ProviderError       (* what the completion client raises *)
| SlackApiError
| RuntimeError.       (* what matplotlib raises *)

(** [issubclass(c, OSError)]; [EnvironmentError] is [OSError] itself. *)
Definition is_OSError (c : exn_class) : bool :=
  match c with
  | OSError | FileNotFoundError | PermissionError | IsADirectoryError
  | ConnectionError => true
  | _ => false
  end.

Definition EnvironmentError : exn_class := OSError.

(** An exception: its class and [str(exc)]. *)
Record exn := Exn { exn_class_of : exn_class; exn_str : pystr }.

Inductive result (A : Type) :=
| Ok (a : A)
| Raise (e : exn).
Arguments Ok {A} a.
Arguments Raise {A} e.

Inductive fnode :=
| RegularFile (removable : bool)   (* whether the system lets it be unlinked *)
| Directory.

Inductive log_level := INFO | WARNING | ERROR.

(** A Slack block of the primary response. *)
Inductive block :=
| BSection (mrkdwn : pystr)
| BDivider.

(** What is plotted for one cell: the text handed to [float], or [0.0]. *)
Inductive yvalue :=
| YParsed (text : pystr)
| YZero.

(** The data a chart is drawn from. *)
Record chart_spec := ChartSpec {
  ch_x_col : pystr;
  ch_x_labels : list pystr;
  ch_series : list (pystr * list yvalue);
  ch_title : pystr;
  ch_legend : bool
}.

(** The calls made to the outside world, in the order they are made. *)
Inductive event :=
| EAck
| ERespond (text : pystr)
| ERespondBlocks (blocks : list block)
| ELog (level : log_level) (msg : pystr)
| EThreadStart
| EClientInit
| ECompletion (system user : pystr)
| EPoolInit
| EGetConn
| EExecute (sql : pystr)
| EFetchAll
| ECommit
| ERollback
| EPutConn
| EDraw (spec : chart_spec)
| ETempFile (path : pystr)
| ESaveFig (path : pystr)
| ECloseFig
| EUpload (channel : option pystr) (path title comment : pystr)
| ERemove (path : pystr).

(** What the outside world answers. *)
Record env := Env {
  (** [MATPLOTLIB_AVAILABLE]: whether the import of matplotlib succeeded. *)
  MATPLOTLIB_AVAILABLE : bool;
  (** [os.environ.get("HUGGINGFACE_API_TOKEN")]. *)
  hf_token : option pystr;
  (** [client.chat.completions.create(...)] up to
      [response.choices[0].message.content], which may be [None]. *)
  env_completion : pystr -> pystr -> result (option pystr);
  (** The construction of the connection pool. *)
  env_connect : option exn;
  env_getconn : option exn;
  (** [cur.execute(sql)] followed by [cur.fetchall()]. *)
  env_execute : pystr -> result (list row);
  env_rollback : option exn;
  env_putconn : option exn;
  (** The matplotlib calls from [plt.subplots] to [plt.tight_layout]. *)
  env_draw : chart_spec -> option exn;
  (** [tempfile.NamedTemporaryFile(suffix=".png", delete=False)]: the name
      of the file it creates. *)
  env_tmpfile : result pystr;
  env_savefig : pystr -> option exn;
  (** [client.files_upload_v2(...)]. *)
  env_upload : pystr -> option exn
}.

Record state := State {
  trace : list event;
  fs : gmap pystr fnode;
  (** The module globals [_client] and [_pool]: whether they are set. *)
  client_set : bool;
  pool_set : bool
}.

(** ** The monad of effectful code *)

Definition M (A : Type) : Type := state -> result A * state.

Definition ret {A} (a : A) : M A := fun st => (Ok a, st).

Definition bind {A B} (m : M A) (k : A -> M B) : M B :=
  fun st =>
    match m st with
    | (Ok a, st') => k a st'
    | (Raise e, st') => (Raise e, st')
    end.

Notation "x <- y ;; z" := (bind y (fun x => z))
  (at level 20, y at level 99, z at level 200, only parsing).
Notation "y ;; z" := (bind y (fun _ => z))
  (at level 100, z at level 200, only parsing, right associativity).

Definition raise {A} (e : exn) : M A := fun st => (Raise e, st).

(** The outcome of [m] as a value: nothing propagates. *)
Definition attempt {A} (m : M A) : M (result A) :=
  fun st => let (r, st') := m st in (Ok r, st').

(** [try: m  except C as exc: handler exc], for the classes [C] that
    [catches] accepts. *)
Definition try_except {A} (m : M A) (catches : exn_class -> bool) (handler : exn -> M A)
  : M A :=
  fun st =>
    match m st with
    | (Raise e, st') =>
      if catches (exn_class_of e) then handler e st' else (Raise e, st')
    | ok => ok
    end.

(** [try: m  finally: fin]: [fin] runs on every exit of [m], and what it
    raises replaces the outcome of [m]. *)
Definition try_finally {A} (m : M A) (fin : M unit) : M A :=
  fun st =>
    let (r, st') := m st in
    match fin st' with
    | (Ok _, st'') => (r, st'')
    | (Raise e, st'') => (Raise e, st'')
    end.

(** [except Exception]: every class of [exn_class] derives from it. *)
Definition Exception (c : exn_class) : bool := true.

Definition emit (e : event) : M unit :=
  fun st => (Ok tt, State (trace st ++ [e]) (fs st) (client_set st) (pool_set st)).

(** A call that the world may answer with an exception. *)
Definition answer (o : option exn) : M unit :=
  match o with
  | Some e => raise e
  | None => ret tt
  end.

Definition lift {A} (r : result A) : M A :=
  match r with
  | Ok a => ret a
  | Raise e => raise e
  end.

Definition get_fs : M (gmap pystr fnode) := fun st => (Ok (fs st), st).

Definition set_fs (f : gmap pystr fnode) : M unit :=
  fun st => (Ok tt, State (trace st) f (client_set st) (pool_set st)).

Definition logger (level : log_level) (msg : pystr) : M unit := emit (ELog level msg).
Definition respond (text : pystr) : M unit := emit (ERespond text).

(** [f"{v}"] for a value that may be [None]. *)
Definition fmt_opt (v : option pystr) : pystr :=
  match v with
  | Some s => s
  | None => py "None"
  end.

(** ** [float] on a string: whether it parses *)

Definition ch (a : ascii) : N := N_of_ascii a.

Definition is_digit (c : N) : bool := (0x30 <=? c) && (c <=? 0x39).

(** [Py_ISSPACE]. *)
Definition ascii_isspace (c : N) : bool := ((0x9 <=? c) && (c <=? 0xD)) || (c =? 0x20).

(** [Py_TOLOWER]. *)
Definition ascii_tolower (c : N) : N :=
  if (0x41 <=? c) && (c <=? 0x5A) then c + 0x20 else c.

(** The digit value of a decimal character. *)
Fixpoint decimal_value_in (t : list (N * N)) (c : N) : option N :=
  match t with
  | [] => None
  | (lo, hi) :: t' =>
    if (lo <=? c) && (c <=? hi) then Some ((c - lo) mod 10) else decimal_value_in t' c
  end.

(** [_PyUnicode_TransformDecimalAndSpaceToASCII]: spaces become [' '],
    decimal digits their ASCII digit, and the text is cut at any other
    character that is not ASCII, which becomes ['?']. *)
Fixpoint transform_decimal_and_space (s : pystr) : pystr :=
  match s with
  | [] => []
  | c :: s' =>
    if c <? 127 then c :: transform_decimal_and_space s'
    else if isspace c then 0x20 :: transform_decimal_and_space s'
    else
      match decimal_value_in decimal_table c with
      | Some d => (0x30 + d) :: transform_decimal_and_space s'
      | None => [ch "?"]
      end
  end.

Fixpoint ascii_lstrip (s : pystr) : pystr :=
  match s with
  | [] => []
  | c :: s' => if ascii_isspace c then ascii_lstrip s' else s
  end.

Definition ascii_strip (s : pystr) : pystr := rev (ascii_lstrip (rev (ascii_lstrip s))).

(** [_Py_string_to_number_with_underscores]: an underscore stands between
    two digits; the text without its underscores. *)
Fixpoint strip_underscores (prev : N) (s : pystr) : option pystr :=
  match s with
  | [] => if prev =? ch "_" then None else Some []
  | c :: s' =>
    if c =? ch "_"
    then if is_digit prev then strip_underscores c s' else None
    else if (prev =? ch "_") && negb (is_digit c) then None
    else cons c <$> strip_underscores c s'
  end.

Fixpoint drop_digits (s : pystr) : pystr :=
  match s with
  | [] => []
  | c :: s' => if is_digit c then drop_digits s' else s
  end.

Definition starts_with_digit (s : pystr) : bool :=
  match s with
  | c :: _ => is_digit c
  | [] => false
  end.

Definition drop_sign (s : pystr) : pystr :=
  match s with
  | c :: s' => if (c =? ch "+") || (c =? ch "-") then s' else s
  | [] => []
  end.

(** [_Py_dg_strtod]: the text left after the decimal literal at the head
    of [s] (sign, digits, point, digits, exponent), or [None] when [s]
    starts with none.  An exponent mark that no digit follows is left. *)
Definition strtod_rest (s : pystr) : option pystr :=
  let s1 := drop_sign s in
  let s2 := drop_digits s1 in
  let '(s3, fraction) :=
    match s2 with
    | c :: t => if c =? ch "." then (drop_digits t, starts_with_digit t) else (s2, false)
    | [] => (s2, false)
    end in
  if starts_with_digit s1 || fraction
  then
    Some match s3 with
         | c :: t =>
           if ((c =? ch "e") || (c =? ch "E")) && starts_with_digit (drop_sign t)
           then drop_digits (drop_sign t)
           else s3
         | [] => []
         end
  else None.

(** The text after the word [w] at the head of [s], letter case ignored. *)
Fixpoint after_word (w s : pystr) : option pystr :=
  match w, s with
  | [], _ => Some s
  | _ :: _, [] => None
  | a :: w', b :: s' => if ascii_tolower b =? a then after_word w' s' else None
  end.

(** [_Py_parse_inf_or_nan]. *)
Definition inf_or_nan_rest (s : pystr) : option pystr :=
  let s1 := drop_sign s in
  match after_word (py "inf") s1 with
  | Some r => Some (default r (after_word (py "inity") r))
  | None => after_word (py "nan") s1
  end.

(** [PyOS_string_to_double] consuming the whole of [s]. *)
Definition string_to_double_ok (s : pystr) : bool :=
  match strtod_rest s with
  | Some rest => bool_decide (rest = [])
  | None => bool_decide (inf_or_nan_rest s = Some [])
  end.

(** Whether [float(s)] returns (it raises [ValueError] otherwise). *)
Definition float_ok (s : pystr) : bool :=
  let t := ascii_strip (transform_decimal_and_space s) in
  match t with
  | [] => false
  | _ =>
    match strip_underscores 0 t with
    | Some u => string_to_double_ok u
    | None => false
    end
  end.

(** ** [llm.py]: from a question to SQL *)

Definition HF_MODEL_ID : pystr := py "meta-llama/Meta-Llama-3.1-8B-Instruct".

Definition SYSTEM_PROMPT : pystr := py
"You are a SQL expert. Your only job is to convert a natural language question into a single valid PostgreSQL SELECT statement.

You have access to ONE table only:

Table: public.sales_daily
Columns:
  - date         DATE        (format: YYYY-MM-DD)
  - region       TEXT        (e.g. 'North', 'South', 'East', 'West')
  - category     TEXT        (e.g. 'Electronics', 'Grocery', 'Fashion')
  - revenue      NUMERIC     (sales revenue, decimal)
  - orders       INTEGER     (number of orders)
  - created_at   TIMESTAMPTZ (row creation timestamp, usually not needed)

Rules you MUST follow:
1. Output ONLY the SQL query — no explanation, no markdown, no code fences.
2. Always write a SELECT statement. Never write INSERT, UPDATE, DELETE, DROP, or any DDL.
3. If the question is ambiguous, make a reasonable assumption.
4. End the query with a semicolon.

Examples:
Question: show revenue by region for 2025-09-01
SQL: SELECT region, SUM(revenue) AS total_revenue FROM public.sales_daily WHERE date = '2025-09-01' GROUP BY region ORDER BY total_revenue DESC;

Question: which category had the most orders?
SQL: SELECT category, SUM(orders) AS total_orders FROM public.sales_daily GROUP BY category ORDER BY total_orders DESC LIMIT 1;

Question: total revenue per day
SQL: SELECT date, SUM(revenue) AS total_revenue FROM public.sales_daily GROUP BY date ORDER BY date;
".

(** [HUMAN_TEMPLATE.format(question=question)]. *)
Definition HUMAN_TEMPLATE (question : pystr) : pystr :=
  py "Question: " ++ question ++ NL ++ py "SQL:".

Definition set_client : M unit :=
  fun st => (Ok tt, State (trace st) (fs st) true (pool_set st)).

Definition _get_client (e : env) : M unit :=
  fun st =>
    if client_set st then (Ok tt, st)
    else
      match hf_token e with
      | Some (_ :: _) => (emit EClientInit;; set_client) st
      | _ =>
        (Raise (Exn EnvironmentError
                  (py "HUGGINGFACE_API_TOKEN is not set. Get your free token at https://huggingface.co/settings/tokens")),
         st)
      end.

(** The pattern [```(?:sql)?], used with IGNORECASE. *)
Definition fence_re : regex := RSeq (rlit (py "```")) (RMaybe (rlit (py "sql"))).

(** The pattern [(SELECT\b.+?;)], used with IGNORECASE and DOTALL. *)
Definition select_re : regex :=
  RSeq (rlit (py "SELECT"))
    (RSeq RWordBoundary (RSeq (RRepeat ADot 1 false) (RAtom (ALit (ch ";"))))).

(** The first statement of [_clean_sql]: the text without its fences. *)
Definition strip_fences (raw : pystr) : pystr :=
  str_replace (py "```") [] (re_sub (ReFlags true false) fence_re [] raw).

Definition _clean_sql (raw : pystr) : pystr :=
  let raw := strip_fences raw in
  match re_search (ReFlags true true) select_re raw with
  | Some (_, m, _) => str_strip m
  | None => str_strip raw
  end.

Definition invalid_output (raw_output : pystr) : exn :=
  Exn ValueError
    (py "Model did not return a valid SELECT statement." ++ NL
     ++ py "Raw output:" ++ NL ++ raw_output).

(** The statements of [question_to_sql] after the completion call. *)
Definition check_output (content : option pystr) : result pystr :=
  match content with
  | None => Raise (Exn TypeError (py "expected string or bytes-like object, got 'NoneType'"))
  | Some raw_output =>
    let sql := _clean_sql raw_output in
    if negb (startswith (str_lower sql) (py "select"))
    then Raise (invalid_output raw_output)
    else Ok sql
  end.

Definition question_to_sql (e : env) (question : pystr) : M pystr :=
  _get_client e;;
  emit (ECompletion SYSTEM_PROMPT (HUMAN_TEMPLATE question));;
  content <- lift (env_completion e SYSTEM_PROMPT (HUMAN_TEMPLATE question));;
  lift (check_output content).

(** ** [db.py]: executing a query and formatting its result *)

Definition PREVIEW_ROW_LIMIT : nat := 10.

Definition set_pool : M unit :=
  fun st => (Ok tt, State (trace st) (fs st) (client_set st) true).

Definition is_Psycopg2Error (c : exn_class) : bool :=
  match c with
  | Psycopg2Error => true
  | _ => false
  end.

(** [_get_pool]: the pool is built on first use; a connection failure is
    raised again as a [ConnectionError]. *)
Definition _get_pool (e : env) : M unit :=
  fun st =>
    if pool_set st then (Ok tt, st)
    else
      try_except
        (emit EPoolInit;; answer (env_connect e);; set_pool)
        is_Psycopg2Error
        (fun exc =>
           raise (Exn ConnectionError
                    (py "Could not connect to PostgreSQL: " ++ exn_str exc)))
        st.

Definition execute_query (e : env) (sql : pystr) : M (list pystr * list row * Z) :=
  _get_pool e;;
  emit EGetConn;;
  answer (env_getconn e);;
  try_finally
    (emit (EExecute sql);;
     all_rows <- lift (env_execute e sql);;
     let total_count := Z.of_nat (length all_rows) in
     let preview_rows := take PREVIEW_ROW_LIMIT all_rows in
     let columns :=
       match preview_rows with
       | r :: _ => dict_keys r
       | [] => []
       end in
     emit ERollback;;
     answer (env_rollback e);;
     ret (columns, preview_rows, total_count))
    (_get_pool e;;
     emit EPutConn;;
     answer (env_putconn e)).

(** The text of a cell: [str(row.get(col, ""))]. *)
Definition cell (r : row) (col : pystr) : pystr := py_str (dict_get r col (PyStr [])).

(** [col_widths[col]]; the key is always present where it is read. *)
Definition width_of (col_widths : gmap pystr nat) (col : pystr) : nat :=
  default O (col_widths !! col).

(** The two loops that compute [col_widths]. *)
Definition widen_row (columns : list pystr) (col_widths : gmap pystr nat) (r : row)
  : gmap pystr nat :=
  foldl (fun w col => <[col := Nat.max (width_of w col) (length (cell r col))]> w)
        col_widths columns.

Definition compute_widths (columns : list pystr) (rows : list row) : gmap pystr nat :=
  foldl (widen_row columns)
        (foldl (fun w col => <[col := length col]> w) ∅ columns)
        rows.

(** [fmt_row(values)]; [zip] stops at the shorter of its arguments. *)
Definition fmt_row (columns : list pystr) (col_widths : gmap pystr nat)
    (values : list pystr) : pystr :=
  py "| "
  ++ str_join (py " | ")
       (List.map (fun cv => ljust (width_of col_widths (fst cv)) (snd cv))
                 (zip columns values))
  ++ py " |".

Definition separator_line (columns : list pystr) (col_widths : gmap pystr nat) : pystr :=
  py "+-"
  ++ str_join (py "-+-")
       (List.map (fun col => repeat (ch "-") (width_of col_widths col)) columns)
  ++ py "-+".

Definition table_lines (columns : list pystr) (rows : list row) : list pystr :=
  let col_widths := compute_widths columns rows in
  let separator := separator_line columns col_widths in
  let header := fmt_row columns col_widths columns in
  let data_rows :=
    List.map (fun r => fmt_row columns col_widths (List.map (cell r) columns)) rows in
  [separator; header; separator] ++ data_rows ++ [separator].

Definition footer_line (rows : list row) (total : Z) : pystr :=
  if (Z.of_nat (length rows) <? total)%Z
  then NL ++ py "_Showing " ++ str_of_int (Z.of_nat (length rows))
       ++ py " of " ++ str_of_int total ++ py " rows._"
  else [].

Definition format_slack_table (columns : list pystr) (rows : list row) (total : Z)
  : pystr :=
  match rows with
  | [] => py "_No rows returned._"
  | _ => str_join NL (table_lines columns rows) ++ footer_line rows total
  end.

(** ** [chart.py]: the classifier, the renderer and the cleanup *)

Definition rseq (rs : list regex) : regex := foldr RSeq REps rs.

(** The seven patterns of [is_date_range_query], in their order. *)
Definition date_patterns : list regex :=
  [ rseq [RWordBoundary; rlit (py "BETWEEN"); RWordBoundary];
    rseq [rlit (py "date"); RRepeat ASpace 0 true; rlit (py ">=")];
    rseq [rlit (py "date"); RRepeat ASpace 0 true; rlit (py "<=")];
    rseq [rlit (py "date"); RRepeat ASpace 0 true; rlit (py ">")];
    rseq [rlit (py "date"); RRepeat ASpace 0 true; rlit (py "<")];
    rseq [rlit (py "GROUP"); RRepeat ASpace 1 true; rlit (py "BY");
          RRepeat ASpace 1 true; rlit (py "date")];
    rseq [rlit (py "ORDER"); RRepeat ASpace 1 true; rlit (py "BY");
          RRepeat ASpace 1 true; rlit (py "date")] ].

Definition is_date_range_query (sql : pystr) : bool :=
  let sql_upper := str_upper sql in
  existsb (fun p => bool_decide (is_Some (re_search (ReFlags true false) p sql_upper)))
          date_patterns.

(** The columns after the first whose value in the first row parses. *)
Definition plottable (columns : list pystr) (row0 : row) : list pystr :=
  List.filter (fun col => float_ok (cell row0 col)) (tl columns).

(** [float(str(row.get(y_col, 0) or 0))], [0.0] when it does not parse. *)
Definition y_value (r : row) (y_col : pystr) : yvalue :=
  let v := dict_get r y_col (PyInt 0) in
  let text := py_str (if py_truthy v then v else PyInt 0) in
  if float_ok text then YParsed text else YZero.

Definition chart_title (question : pystr) : pystr :=
  if (60 <? length question)%nat then take 60 question ++ py "..." else question.

Definition chart_of (columns : list pystr) (rows : list row) (y_cols : list pystr)
    (question : pystr) : chart_spec :=
  let x_col := List.hd [] columns in
  {| ch_x_col := x_col;
     ch_x_labels := List.map (fun r => cell r x_col) rows;
     ch_series := List.map (fun y => (y, List.map (fun r => y_value r y) rows)) y_cols;
     ch_title := chart_title question;
     ch_legend := (1 <? length y_cols)%nat |}.

(** [tempfile.NamedTemporaryFile(suffix=".png", delete=False)] creates its
    file. *)
Definition NamedTemporaryFile (e : env) : M pystr :=
  path <- lift (env_tmpfile e);;
  emit (ETempFile path);;
  f <- get_fs;;
  set_fs (<[path := RegularFile true]> f);;
  ret path.

Definition generate_chart (e : env) (columns : list pystr) (rows : list row)
    (question : pystr) : M (option pystr) :=
  if negb (MATPLOTLIB_AVAILABLE e) then ret None
  else
    match rows with
    | [] => ret None
    | row0 :: _ =>
      if (length columns <? 2)%nat then ret None
      else
        match plottable columns row0 with
        | [] => ret None
        | y_cols =>
          let spec := chart_of columns rows y_cols question in
          emit (EDraw spec);;
          answer (env_draw e spec);;
          tmp <- NamedTemporaryFile e;;
          emit (ESaveFig tmp);;
          answer (env_savefig e tmp);;
          emit ECloseFig;;
          ret (Some tmp)
        end
    end.

(** A path the system can be asked about: no NUL and no surrogate other
    than those that stand for undecodable bytes. *)
Definition path_ok (path : pystr) : bool :=
  forallb (fun c => negb (c =? 0)
                    && negb ((0xD800 <=? c) && (c <=? 0xDFFF)
                             && negb ((0xDC80 <=? c) && (c <=? 0xDCFF)))) path.

(** [os.path.exists]: false as well when the path cannot be asked about. *)
Definition os_path_exists (path : pystr) : M bool :=
  f <- get_fs;;
  ret (path_ok path && bool_decide (is_Some (f !! path))).

(** [os.remove]. *)
Definition os_remove (path : pystr) : M unit :=
  emit (ERemove path);;
  if negb (path_ok path) then raise (Exn ValueError (py "embedded null byte"))
  else
    f <- get_fs;;
    match f !! path with
    | None => raise (Exn FileNotFoundError (py "No such file or directory"))
    | Some Directory => raise (Exn IsADirectoryError (py "Is a directory"))
    | Some (RegularFile false) => raise (Exn PermissionError (py "Permission denied"))
    | Some (RegularFile true) => set_fs (delete path f)
    end.

Definition cleanup_chart (path : pystr) : M unit :=
  try_except
    (match path with
     | [] => ret tt
     | _ =>
       found <- os_path_exists path;;
       if found then os_remove path else ret tt
     end)
    is_OSError
    (fun _ => ret tt).

(** ** [app.py]: the command handler and the pipeline *)

(** The fields of the command payload that the handler reads. *)
Record payload := Payload {
  body_text : option pystr;
  body_user_id : option pystr;
  body_channel_id : option pystr
}.

(** The closure handed to the worker thread. *)
Record job := Job {
  job_question : pystr;
  job_user_id : option pystr;
  job_channel_id : option pystr
}.

Definition usage_hint : pystr :=
  py ":warning: Please provide a question." ++ NL
  ++ py "Usage: `/ask-data show revenue by region for 2025-09-01`".

(** [handle_ask_data] up to the start of the worker thread; the thread's
    closure is returned. *)
Definition handle_ask_data (body : payload) : M (option job) :=
  emit EAck;;
  let question := str_strip (default [] (body_text body)) in
  let user_id := body_user_id body in
  let channel_id := body_channel_id body in
  match question with
  | [] => respond usage_hint;; ret None
  | _ =>
    respond (py ":hourglass_flowing_sand: Working on it, <@" ++ fmt_opt user_id
             ++ py ">... _(first request may take ~15s due to model cold start)_");;
    logger INFO (py "User " ++ fmt_opt user_id ++ py " asked: " ++ question);;
    emit EThreadStart;;
    ret (Some (Job question user_id channel_id))
  end.

Definition result_blocks (user_id : option pystr) (question sql table : pystr)
  : list block :=
  [ BSection (py ":mag: *Query from <@" ++ fmt_opt user_id ++ py ">*" ++ NL
              ++ py ">" ++ question);
    BDivider;
    BSection (py "*Generated SQL:*" ++ NL ++ py "```" ++ sql ++ py "```");
    BSection (py "*Results:*" ++ NL ++ py "```" ++ table ++ py "```") ].

Definition files_upload_v2 (e : env) (channel : option pystr)
    (file title initial_comment : pystr) : M unit :=
  emit (EUpload channel file title initial_comment);;
  answer (env_upload e file).

(** The chart stage of [process].  [chart_path] is still [None] when
    [generate_chart] raises, so that the [finally] clause has nothing to
    clean up then. *)
Definition chart_stage (e : env) (j : job) (columns : list pystr) (rows : list row)
  : M unit :=
  let question := job_question j in
  let user_id := job_user_id j in
  generated <- attempt (generate_chart e columns rows question);;
  match generated with
  | Raise exc =>
    logger WARNING (py "Chart upload failed (non-critical): " ++ exn_str exc)
  | Ok chart_path =>
    try_finally
      (try_except
         (match chart_path with
          | Some (c :: p) =>
            files_upload_v2 e (job_channel_id j) (c :: p)
              (py "Chart: " ++ take 50 question)
              (py ":bar_chart: Here's a chart for your query, <@" ++ fmt_opt user_id
               ++ py ">!");;
            logger INFO (py "Chart uploaded successfully.")
          | _ => logger INFO (py "Chart skipped — not enough numeric data.")
          end)
         Exception
         (fun exc =>
            logger WARNING (py "Chart upload failed (non-critical): " ++ exn_str exc)))
      (match chart_path with
       | Some (c :: p) => cleanup_chart (c :: p)
       | _ => ret tt
       end)
  end.

(** The worker thread's [process]. *)
Definition process (e : env) (j : job) : M unit :=
  let question := job_question j in
  let user_id := job_user_id j in
  generated <- attempt (sql <- question_to_sql e question;;
                       logger INFO (py "Generated SQL: " ++ sql);;
                       ret sql);;
  match generated with
  | Raise exc =>
    logger ERROR (py "LLM error: " ++ exn_str exc);;
    respond (py ":x: *Failed to generate SQL.*" ++ NL
             ++ py "```" ++ exn_str exc ++ py "```")
  | Ok sql =>
    executed <- attempt (execute_query e sql);;
    match executed with
    | Raise exc =>
      logger ERROR (py "DB error: " ++ exn_str exc);;
      respond (py ":x: *Query execution failed.*" ++ NL
               ++ py "```" ++ exn_str exc ++ py "```" ++ NL ++ NL
               ++ py "*Generated SQL was:*" ++ NL ++ py "```" ++ sql ++ py "```")
    | Ok (columns, rows, total) =>
      let table := format_slack_table columns rows total in
      emit (ERespondBlocks (result_blocks user_id question sql table));;
      logger INFO (py "Replied to " ++ fmt_opt user_id ++ py " with "
                   ++ str_of_int total ++ py " rows.");;
      if is_date_range_query sql && negb (bool_decide (rows = []))
      then chart_stage e j columns rows
      else ret tt
    end
  end.

(** ** Scenarios *)

(** A world in which the completion answers [output], the store answers
    every statement with [answer], and the other calls succeed except as
    [mpl] (matplotlib importable), [savefig] and [upload] say. *)
Definition world (mpl : bool) (output : pystr) (answer : result (list row))
    (savefig upload : option exn) : env :=
  {| MATPLOTLIB_AVAILABLE := mpl;
     hf_token := Some (py "hf_xxx");
     env_completion := fun _ _ => Ok (Some output);
     env_connect := None;
     env_getconn := None;
     env_execute := fun _ => answer;
     env_rollback := None;
     env_putconn := None;
     env_draw := fun _ => None;
     env_tmpfile := Ok (py "/tmp/tmpk3v9.png");
     env_savefig := fun _ => savefig;
     env_upload := fun _ => upload |}.

Definition initial : state := State [] ∅ false false.

Definition north_row : row :=
  [(py "region", PyStr (py "North")); (py "revenue", PyStr (py "100"))].

(** The events of the first use of the pool. *)
Definition pool_events (st : state) : list event :=
  if pool_set st then [] else [EPoolInit].

Ltac run :=
  unfold try_finally, try_except, attempt, bind, ret, raise, answer, lift, emit,
    logger, respond, get_fs, set_fs, set_pool, set_client;
  cbn [fst snd trace fs client_set pool_set].

(** ** What a pattern matches *)

(** The last character of the text [m] that follows [prev]. *)
Definition last_char (prev : option N) (m : pystr) : option N :=
  match last m with
  | Some c => Some c
  | None => prev
  end.

(** [matches fl r prev m rest]: the pattern [r] matches the text [m] when the
    character before it is [prev] and the text after it is [rest]. *)
Fixpoint matches (fl : re_flags) (r : regex) (prev : option N) (m rest : pystr) : Prop :=
  match r with
  | REps => m = []
  | RAtom a => exists c, m = [c] /\ atom_match fl a c = true
  | RWordBoundary => m = [] /\ at_boundary prev rest = true
  | RSeq r1 r2 =>
    exists m1 m2, m = m1 ++ m2 /\ matches fl r1 prev m1 (m2 ++ rest)
                  /\ matches fl r2 (last_char prev m1) m2 rest
  | RMaybe r1 => m = [] \/ matches fl r1 prev m rest
  | RRepeat a min _ =>
    (min <= length m)%nat /\ Forall (fun c => atom_match fl a c = true) m
  end.

(** [m] is an occurrence of the pattern in [t], between [pre] and [post]. *)
Definition occurs (fl : re_flags) (r : regex) (t pre m post : pystr) : Prop :=
  t = pre ++ m ++ post /\ matches fl r (last pre) m post.

(** ** Reading the case tables backwards *)

Definition is_ascii_lower (c : N) : bool := (0x61 <=? c) && (c <=? 0x7A).

(** The code points that a table of runs maps to [y]. *)
Fixpoint run_preimages (t : list (N * N * N * N)) (y : N) : list N :=
  match t with
  | [] => []
  | (lo, hi, step, img) :: t' =>
    (if (img <=? y) && (y <=? img + (hi - lo)) && ((y - img) mod step =? 0)
     then [lo + (y - img)]
     else [])
    ++ run_preimages t' y
  end.

(** The images of a run lie outside the lowercase ASCII letters. *)
Definition run_avoids_lower (r : N * N * N * N) : bool :=
  let '(lo, hi, step, img) := r in
  (img + (hi - lo) <? 0x61) || (0x7A <? img).

(** The text that a literal of a pattern matches in an upper-cased text
    when case is ignored. *)
Definition upper_form (a : N) : N := if sre_iscased a then tolower a - 0x20 else a.

(** A literal without extra cases: when cased, it is an ASCII letter that
    besides itself only its capital lowers to. *)
Definition plain_literal (a : N) : bool :=
  if sre_iscased a
  then is_ascii_lower (tolower a)
       && bool_decide (sre_extra_cases (tolower a) = [])
       && bool_decide (run_preimages lower_table (tolower a) = [tolower a - 0x20])
       && (tolower (tolower a - 0x20) =? tolower a)
  else true.

(** ** The classifier's rule in the words of the specification

    The rule is read on the upper-cased statement, which is how the
    classifier ignores case. *)

(** The keyword BETWEEN: the word, with no word character next to it. *)
Definition has_between_keyword (t : pystr) : Prop :=
  exists pre post,
    t = pre ++ py "BETWEEN" ++ post
    /\ word_before (last pre) = false /\ word_here post = false.

Definition comparison_ops : list pystr := [py ">="; py "<="; py ">"; py "<"].

(** A comparison operator that follows [date], white space apart. *)
Definition has_date_comparison (t : pystr) : Prop :=
  exists pre ws op post,
    t = pre ++ py "DATE" ++ ws ++ op ++ post
    /\ Forall (fun c => isspace c = true) ws /\ In op comparison_ops.

(** [kw BY date], the words separated by white space. *)
Definition has_by_date (kw t : pystr) : Prop :=
  exists pre ws1 ws2 post,
    t = pre ++ kw ++ ws1 ++ py "BY" ++ ws2 ++ py "DATE" ++ post
    /\ ws1 <> [] /\ Forall (fun c => isspace c = true) ws1
    /\ ws2 <> [] /\ Forall (fun c => isspace c = true) ws2.

Definition date_range_rule (sql : pystr) : Prop :=
  let t := str_upper sql in
  has_between_keyword t \/ has_date_comparison t
  \/ has_by_date (py "GROUP") t \/ has_by_date (py "ORDER") t.

(** ** The first occurrence of a pattern *)

(** No occurrence starts before [m], and none that starts where [m] does
    is shorter. *)
Definition first_occurrence (fl : re_flags) (r : regex) (t pre m post : pystr) : Prop :=
  occurs fl r t pre m post
  /\ forall pre' m' post',
       occurs fl r t pre' m' post' ->
       (length pre <= length pre')%nat
       /\ (length pre' = length pre -> length m <= length m')%nat.

(** The flags of the search for the statement: IGNORECASE and DOTALL. *)
Definition select_flags : re_flags := ReFlags true true.

(** The characters that match a cased literal when case is ignored. *)
Definition ci_class (a : N) : list N :=
  flat_map (fun l => l :: run_preimages lower_table l)
           (tolower a :: sre_extra_cases (tolower a)).

(** ** Reading a trace *)

(** The event is a removal of [path]. *)
Definition removes (path : pystr) (ev : event) : bool :=
  match ev with
  | ERemove q => bool_decide (q = path)
  | _ => false
  end.

(** The event is a message sent to the user. *)
Definition is_response (ev : event) : bool :=
  match ev with
  | ERespond _ | ERespondBlocks _ => true
  | _ => false
  end.

(** ** Reading the effects of a computation *)

(** [m] keeps the relation [R] between the state it starts from and the
    state it leaves. *)
Definition respects {A} (R : state -> state -> Prop) (m : M A) : Prop :=
  forall st, R st (snd (m st)).

(** A relation between states that composes along a computation. *)
Definition steady (R : state -> state -> Prop) : Prop :=
  (forall st, R st st) /\ (forall a b c, R a b -> R b c -> R a c).

(** The calls made between two states are all accepted by [P]. *)
Definition adds_only (P : event -> bool) (st st' : state) : Prop :=
  exists evs, trace st' = trace st ++ evs /\ forallb P evs = true.

(** The file system is the same in both states. *)
Definition same_files (st st' : state) : Prop := fs st' = fs st.

(** The files other than the temporary file of the chart are the same in
    both states. *)
Definition same_files_but_tmp (e : env) (st st' : state) : Prop :=
  forall q, env_tmpfile e <> Ok q -> fs st' !! q = fs st !! q.

(** [m] raises nothing. *)
Definition never_raises {A} (m : M A) : Prop :=
  forall st, exists a, fst (m st) = Ok a.

(** The calls of [question_to_sql]. *)
Definition is_llm_call (ev : event) : bool :=
  match ev with
  | EClientInit | ECompletion _ _ => true
  | _ => false
  end.

(** The calls of [execute_query] on the statement [sql]. *)
Definition is_store_call (sql : pystr) (ev : event) : bool :=
  match ev with
  | EPoolInit | EGetConn | ERollback | EPutConn => true
  | EExecute s => bool_decide (s = sql)
  | _ => false
  end.

(** The calls of the chart stage. *)
Definition is_chart_call (ev : event) : bool :=
  match ev with
  | EDraw _ | ETempFile _ | ESaveFig _ | ECloseFig | EUpload _ _ _ _ | ERemove _
  | ELog _ _ => true
  | _ => false
  end.


Definition is_execute (ev : event) : bool :=
  match ev with
  | EExecute _ => true
  | _ => false
  end.

Definition is_thread_start (ev : event) : bool :=
  match ev with
  | EThreadStart => true
  | _ => false
  end.

(** ** Texts inside texts *)

(** [t in s]. *)
Definition contains (t s : pystr) : Prop := exists pre post, s = pre ++ t ++ post.

(** The number of characters [c] at the head of [s]. *)
Fixpoint lead (c : N) (s : pystr) : nat :=
  match s with
  | x :: s' => if x =? c then S (lead c s') else O
  | [] => O
  end.

(** ** [db.py]: the connection string *)

(** [os.environ.get(k)]. *)
Definition os_environ_get (environ : gmap pystr pystr) (k : pystr) : option pystr :=
  environ !! k.

(** [os.environ.get(k, d)]. *)
Definition environ_get (environ : gmap pystr pystr) (k d : pystr) : pystr :=
  default d (environ !! k).

Definition _get_dsn (environ : gmap pystr pystr) : pystr :=
  match os_environ_get environ (py "DATABASE_URL") with
  | Some (c :: url) => c :: url
  | _ =>
    let host := environ_get environ (py "DB_HOST") (py "localhost") in
    let port := environ_get environ (py "DB_PORT") (py "5432") in
    let dbname := environ_get environ (py "DB_NAME") (py "analytics") in
    let user := environ_get environ (py "DB_USER") (py "postgres") in
    let password := environ_get environ (py "DB_PASSWORD") [] in
    py "postgresql://" ++ user ++ py ":" ++ password ++ py "@" ++ host
    ++ py ":" ++ port ++ py "/" ++ dbname
  end.

(** ** The calls of [process] around its stages *)

(** What [process] calls when the synthesis of the statement has raised. *)
Definition generation_failure_calls (exc : exn) : list event :=
  [ ELog ERROR (py "LLM error: " ++ exn_str exc);
    ERespond (py ":x: *Failed to generate SQL.*" ++ NL
              ++ py "```" ++ exn_str exc ++ py "```") ].

(** What [process] calls when the execution of [sql] has raised. *)
Definition execution_failure_calls (sql : pystr) (exc : exn) : list event :=
  [ ELog ERROR (py "DB error: " ++ exn_str exc);
    ERespond (py ":x: *Query execution failed.*" ++ NL
              ++ py "```" ++ exn_str exc ++ py "```" ++ NL ++ NL
              ++ py "*Generated SQL was:*" ++ NL ++ py "```" ++ sql ++ py "```") ].

(** The delivery of the result: the response and the log line after it. *)
Definition delivery_calls (j : job) (sql : pystr) (columns : list pystr)
    (rows : list row) (total : Z) : list event :=
  [ ERespondBlocks (result_blocks (job_user_id j) (job_question j) sql
                      (format_slack_table columns rows total));
    ELog INFO (py "Replied to " ++ fmt_opt (job_user_id j) ++ py " with "
               ++ str_of_int total ++ py " rows.") ].

(** The state after the calls [evs]. *)
Definition after (st : state) (evs : list event) : state :=
  State (trace st ++ evs) (fs st) (client_set st) (pool_set st).

(** What the command handler itself may call: Slack, the logger and the
    start of the worker thread. *)
Definition is_handler_call (ev : event) : bool :=
  match ev with
  | EAck | ERespond _ | ELog _ _ | EThreadStart => true
  | _ => false
  end.

(** ** The width of the table *)

(** The width of a column: that of its widest text, the header included. *)
Definition column_width (rows : list row) (col : pystr) : nat :=
  Nat.max (length col) (list_max (List.map (fun r => length (cell r col)) rows)).

(** The width of a line: the columns, three characters between two of
    them, and two at each end. *)
Definition table_width (columns : list pystr) (rows : list row) : nat :=
  (4 + list_sum (List.map (column_width rows) columns) + 3 * (length columns - 1))%nat.

(** A world as [world], except for the token that the environment holds
    and for what the construction of the pool answers. *)
Definition world_with (token : option pystr) (connect : option exn) : env :=
  {| MATPLOTLIB_AVAILABLE := true;
     hf_token := token;
     env_completion := fun _ _ => Ok (Some (py "SELECT 1;"));
     env_connect := connect;
     env_getconn := None;
     env_execute := fun _ => Ok [];
     env_rollback := None;
     env_putconn := None;
     env_draw := fun _ => None;
     env_tmpfile := Ok (py "/tmp/tmpk3v9.png");
     env_savefig := fun _ => None;
     env_upload := fun _ => None |}.

(** A world as [world], with matplotlib importable, except for what the
    drawing calls and the creation of the temporary file answer. *)
Definition world_drawing (draw : option exn) (tmpfile : result pystr) : env :=
  {| MATPLOTLIB_AVAILABLE := true;
     hf_token := Some (py "hf_xxx");
     env_completion := fun _ _ => Ok (Some (py "SELECT 1;"));
     env_connect := None;
     env_getconn := None;
     env_execute := fun _ => Ok [];
     env_rollback := None;
     env_putconn := None;
     env_draw := fun _ => draw;
     env_tmpfile := tmpfile;
     env_savefig := fun _ => None;
     env_upload := fun _ => None |}.

(** ** Letter case of ASCII text *)

(** On the character [c], upper-casing undoes lower-casing and is
    idempotent. *)
Definition case_stable (c : N) : bool :=
  negb (c =? 0x3A3)
  && bool_decide (str_upper (lower_full c) = upper_full c)
  && bool_decide (str_upper (upper_full c) = upper_full c).

(** The ASCII characters. *)
Definition ascii_chars : list N := List.map N.of_nat (seq 0 128).

(** ** [int] on a string *)





(** ** [app.py]: the start of the application *)





(** A world as [world], except for what the store answers to the
    statement, to the rollback and to the release of the connection. *)
Definition world_store (answer : result (list row)) (rollback putconn : option exn)
  : env :=
  {| MATPLOTLIB_AVAILABLE := true;
     hf_token := Some (py "hf_xxx");
     env_completion := fun _ _ => Ok (Some (py "SELECT 1;"));
     env_connect := None;
     env_getconn := None;
     env_execute := fun _ => answer;
     env_rollback := rollback;
     env_putconn := putconn;
     env_draw := fun _ => None;
     env_tmpfile := Ok (py "/tmp/tmpk3v9.png");
     env_savefig := fun _ => None;
     env_upload := fun _ => None |}.

(** The calls of the first use of the client. *)
Definition client_events (st : state) : list event :=
  if client_set st then [] else [EClientInit].

(** * Properties *)

(** ** Stripping *)

Lemma lstrip_nil_iff (s : pystr) : lstrip s = [] <-> forallb isspace s = true.
Proof.
  induction s as [|c s IH]; simpl; [tauto|].
  destruct (isspace c); simpl; [exact IH|]. split; discriminate.
Qed.

Lemma lstrip_head (s : pystr) (c : N) (t : pystr) :
  lstrip s = c :: t -> isspace c = false.
Proof.
  induction s as [|d s IH]; simpl; [discriminate|].
  destruct (isspace d) eqn:E; [exact IH|].
  intros [= <- _]. exact E.
Qed.

Lemma lstrip_id (c : N) (s : pystr) : isspace c = false -> lstrip (c :: s) = c :: s.
Proof. intros H. simpl. now rewrite H. Qed.

Lemma forallb_rev {A} (f : A -> bool) (l : list A) : forallb f (rev l) = forallb f l.
Proof.
  induction l as [|a l IH]; [reflexivity|].
  simpl. rewrite forallb_app, IH. simpl. rewrite andb_true_r. apply andb_comm.
Qed.

Lemma str_strip_nil_iff (s : pystr) : str_strip s = [] <-> forallb isspace s = true.
Proof.
  unfold str_strip, rstrip. split.
  - intros H.
    assert (H1 : lstrip (rev (lstrip s)) = []).
    { destruct (lstrip (rev (lstrip s))) as [|x l]; [reflexivity|].
      simpl in H. now destruct (rev l). }
    apply lstrip_nil_iff in H1. rewrite forallb_rev in H1.
    destruct (lstrip s) as [|c t] eqn:E.
    + now apply lstrip_nil_iff.
    + apply lstrip_head in E. simpl in H1. now rewrite E in H1.
  - intros H. apply lstrip_nil_iff in H. now rewrite H.
Qed.

(** A text that starts and ends with characters other than spaces is left
    as it is. *)
Lemma str_strip_id (c d : N) (s : pystr) :
  isspace c = false -> isspace d = false ->
  str_strip (c :: s ++ [d]) = c :: s ++ [d].
Proof.
  intros Hc Hd. unfold str_strip, rstrip. rewrite (lstrip_id c _ Hc).
  change (c :: s ++ [d]) with ((c :: s) ++ [d]).
  rewrite rev_unit, (lstrip_id d _ Hd).
  change (rev (d :: rev (c :: s))) with (rev (rev (c :: s)) ++ [d]).
  now rewrite rev_involutive.
Qed.

(** ** The command handler *)

(** C9. A command whose text is missing, empty or made of white space only
    is acknowledged and answered with the usage hint, and nothing else
    happens: no other call is made and no worker thread is started. *)
Theorem handle_ask_data_blank (body : payload) (st : state) :
  forallb isspace (default [] (body_text body)) = true ->
  handle_ask_data body st
  = (Ok None,
     State (trace st ++ [EAck; ERespond usage_hint]) (fs st) (client_set st) (pool_set st)).
Proof.
  intros H. apply str_strip_nil_iff in H.
  unfold handle_ask_data. rewrite H.
  unfold bind, respond, emit, ret. simpl.
  now rewrite <- app_assoc.
Qed.

Lemma handle_ask_data_blank_witness :
  handle_ask_data (Payload (Some (py "   ")) (Some (py "U1")) (Some (py "C1")))
                  (State [] ∅ false false)
  = (Ok None, State [EAck; ERespond usage_hint] ∅ false false).
Proof. apply (handle_ask_data_blank _ (State [] ∅ false false)). reflexivity. Defined.

(** ** The connection pool *)

Lemma get_pool_ok (e : env) (st : state) :
  pool_set st = true \/ env_connect e = None ->
  _get_pool e st
  = (Ok tt, State (trace st ++ pool_events st) (fs st) (client_set st) true).
Proof.
  intros H. unfold _get_pool, pool_events.
  destruct (pool_set st) eqn:Hp.
  - rewrite app_nil_r. now destruct st; simpl in *; subst.
  - destruct H as [H|H]; [discriminate|]. run. now rewrite H.
Qed.

Lemma take_min {A} (n : nat) (l : list A) : take n l = take (Nat.min (length l) n) l.
Proof.
  destruct (Nat.le_ge_cases n (length l)) as [H|H].
  - now rewrite Nat.min_r.
  - rewrite Nat.min_l by exact H. rewrite !firstn_all2; auto.
Qed.

(** ** The query executor *)

Lemma execute_query_ok (e : env) (sql : pystr) (all_rows : list row) (st : state) :
  pool_set st = true \/ env_connect e = None ->
  env_getconn e = None ->
  env_execute e sql = Ok all_rows ->
  env_rollback e = None ->
  env_putconn e = None ->
  execute_query e sql st
  = (Ok (match take PREVIEW_ROW_LIMIT all_rows with r :: _ => dict_keys r | [] => [] end,
         take PREVIEW_ROW_LIMIT all_rows, Z.of_nat (length all_rows)),
     State (trace st ++ pool_events st ++ [EGetConn; EExecute sql; ERollback; EPutConn])
           (fs st) (client_set st) true).
Proof.
  intros Hp Hg He Hr Hc.
  unfold execute_query. unfold bind at 1. rewrite (get_pool_ok e st Hp).
  run. rewrite Hg, He, Hr. run.
  unfold _get_pool. run. rewrite Hc. run.
  now rewrite <- !app_assoc.
Qed.

Lemma footer_10_of_37 (rows : list row) :
  length rows = 10%nat ->
  footer_line rows 37 = NL ++ py "_Showing 10 of 37 rows._".
Proof. intros H. unfold footer_line. rewrite H. reflexivity. Qed.

(** C2. When the store answers a query with [all_rows], [execute_query]
    returns as preview the first [min (length all_rows) 10] of them in the
    store's order and as total their exact number.  For 37 rows the preview
    has 10 rows, the total is 37, and the formatted table ends with the
    footer "Showing 10 of 37 rows." *)
Theorem execute_query_preview (e : env) (sql : pystr) (all_rows : list row) (st : state) :
  pool_set st = true \/ env_connect e = None ->
  env_getconn e = None ->
  env_execute e sql = Ok all_rows ->
  env_rollback e = None ->
  env_putconn e = None ->
  exists columns preview_rows total_count,
    fst (execute_query e sql st) = Ok (columns, preview_rows, total_count)
    /\ preview_rows = take (Nat.min (length all_rows) 10) all_rows
    /\ total_count = Z.of_nat (length all_rows)
    /\ (length all_rows = 37%nat ->
        length preview_rows = 10%nat /\ total_count = 37%Z
        /\ exists table,
             format_slack_table columns preview_rows total_count
             = table ++ NL ++ py "_Showing 10 of 37 rows._").
Proof.
  intros Hp Hg He Hr Hc.
  rewrite (execute_query_ok e sql all_rows st Hp Hg He Hr Hc).
  eexists _, _, _. split; [reflexivity|].
  split; [apply take_min|]. split; [reflexivity|].
  intros H37.
  assert (Hlen : length (take PREVIEW_ROW_LIMIT all_rows) = 10%nat).
  { rewrite length_take, H37. reflexivity. }
  split; [exact Hlen|]. split; [now rewrite H37|].
  rewrite H37. change (Z.of_nat 37) with 37%Z.
  unfold format_slack_table.
  destruct (take PREVIEW_ROW_LIMIT all_rows) as [|r rs] eqn:E; [discriminate|].
  rewrite (footer_10_of_37 _ Hlen). eexists. reflexivity.
Qed.

Lemma execute_query_preview_witness :
  exists columns preview_rows total_count,
    fst (execute_query (world true (py "SELECT 1;") (Ok (repeat north_row 37)) None None)
           (py "SELECT region, revenue FROM public.sales_daily;") initial)
    = Ok (columns, preview_rows, total_count)
    /\ preview_rows
       = take (Nat.min (length (repeat north_row 37)) 10) (repeat north_row 37)
    /\ total_count = Z.of_nat (length (repeat north_row 37))
    /\ (length (repeat north_row 37) = 37%nat ->
        length preview_rows = 10%nat /\ total_count = 37%Z
        /\ exists table,
             format_slack_table columns preview_rows total_count
             = table ++ NL ++ py "_Showing 10 of 37 rows._").
Proof.
  apply (execute_query_preview
           (world true (py "SELECT 1;") (Ok (repeat north_row 37)) None None)
           _ _ initial);
    solve [reflexivity | now right].
Defined.

(** C3. When the statement fails, [execute_query] releases the connection
    without rolling back: between [getconn] and [putconn] the only call is
    the failed [execute]. *)
Theorem execute_query_error_path (e : env) (sql : pystr) (exc : exn) (st : state) :
  pool_set st = true \/ env_connect e = None ->
  env_getconn e = None ->
  env_execute e sql = Raise exc ->
  env_putconn e = None ->
  execute_query e sql st
  = (Raise exc,
     State (trace st ++ pool_events st ++ [EGetConn; EExecute sql; EPutConn])
           (fs st) (client_set st) true).
Proof.
  intros Hp Hg He Hc.
  unfold execute_query. unfold bind at 1. rewrite (get_pool_ok e st Hp).
  run. rewrite Hg, He. run.
  unfold _get_pool. run. rewrite Hc. run.
  now rewrite <- !app_assoc.
Qed.

Lemma execute_query_error_path_witness :
  execute_query
    (world true (py "SELEC 1;")
           (Raise (Exn Psycopg2Error (py "syntax error at or near SELEC"))) None None)
    (py "SELEC 1;") initial
  = (Raise (Exn Psycopg2Error (py "syntax error at or near SELEC")),
     State [EPoolInit; EGetConn; EExecute (py "SELEC 1;"); EPutConn] ∅ false true).
Proof.
  apply (execute_query_error_path
           (world true (py "SELEC 1;")
                  (Raise (Exn Psycopg2Error (py "syntax error at or near SELEC")))
                  None None)
           _ _ initial);
    solve [reflexivity | now right].
Defined.

(** X1. Whatever the store and the pool answer, [execute_query] never commits,
    and once [getconn] has returned a connection the last call it makes is
    the [putconn] that gives it back. *)
Theorem execute_query_releases (e : env) (sql : pystr) (st : state) :
  exists evs,
    trace (snd (execute_query e sql st)) = trace st ++ evs
    /\ ~ In ECommit evs
    /\ (In EGetConn evs -> env_getconn e = None -> last evs = Some EPutConn).
Proof.
  unfold execute_query, _get_pool. run.
  destruct (pool_set st) eqn:Hp; run;
    [|destruct (env_connect e) as [exc|]; run;
      [destruct (is_Psycopg2Error (exn_class_of exc)); run|]];
    (destruct (env_getconn e) as [exg|]; run;
     [|destruct (env_execute e sql) as [all_rows|exe]; run;
       [destruct (env_rollback e) as [exr|]; run|];
       rewrite ?Hp; run;
       destruct (env_putconn e) as [exp|]; run]);
    eexists; (split; [rewrite <- ?app_assoc; cbn [app]; reflexivity|]);
    (split; [cbn [In]; intuition discriminate|]);
    intros Hin Hg; try discriminate; try reflexivity;
    cbn [In] in Hin; intuition discriminate.
Qed.

(** ** The chart renderer *)

Lemma generate_chart_off (e : env) (columns : list pystr) (rows : list row)
    (question : pystr) (st : state) :
  MATPLOTLIB_AVAILABLE e = false ->
  generate_chart e columns rows question st = (Ok None, st).
Proof. intros H. unfold generate_chart. now rewrite H. Qed.

(** C10. Without matplotlib [generate_chart] returns [None] on every input
    and changes nothing; the chart stage then only logs that the chart was
    skipped: it raises nothing, sends nothing and touches no file. *)
Theorem generate_chart_unavailable (e : env) (j : job) (columns : list pystr)
    (rows : list row) (question : pystr) (st : state) :
  MATPLOTLIB_AVAILABLE e = false ->
  generate_chart e columns rows question st = (Ok None, st)
  /\ chart_stage e j columns rows st
     = (Ok tt,
        State (trace st ++ [ELog INFO (py "Chart skipped — not enough numeric data.")])
              (fs st) (client_set st) (pool_set st)).
Proof.
  intros H. split; [now apply generate_chart_off|].
  unfold chart_stage. unfold bind at 1, attempt.
  rewrite (generate_chart_off e columns rows (job_question j) st H).
  run. reflexivity.
Qed.

Lemma generate_chart_unavailable_witness :
  generate_chart (world false (py "SELECT 1;") (Ok [north_row]) None None)
    [py "region"; py "revenue"] [north_row] (py "revenue by region") initial
  = (Ok None, initial)
  /\ chart_stage (world false (py "SELECT 1;") (Ok [north_row]) None None)
       (Job (py "revenue by region") (Some (py "U1")) (Some (py "C1")))
       [py "region"; py "revenue"] [north_row] initial
     = (Ok tt,
        State [ELog INFO (py "Chart skipped — not enough numeric data.")] ∅ false false).
Proof.
  apply (generate_chart_unavailable
           (world false (py "SELECT 1;") (Ok [north_row]) None None)
           (Job (py "revenue by region") (Some (py "U1")) (Some (py "C1")))
           [py "region"; py "revenue"] [north_row] (py "revenue by region") initial).
  reflexivity.
Defined.

(** The chart of the eligible columns. *)
Lemma generate_chart_run (e : env) (columns : list pystr) (row0 : row) (rows : list row)
    (question : pystr) (st : state) :
  MATPLOTLIB_AVAILABLE e = true ->
  (2 <= length columns)%nat ->
  plottable columns row0 <> [] ->
  generate_chart e columns (row0 :: rows) question st
  = let spec := chart_of columns (row0 :: rows) (plottable columns row0) question in
    (emit (EDraw spec);;
     answer (env_draw e spec);;
     tmp <- NamedTemporaryFile e;;
     emit (ESaveFig tmp);;
     answer (env_savefig e tmp);;
     emit ECloseFig;;
     ret (Some tmp)) st.
Proof.
  intros Ha Hc Hp. unfold generate_chart. rewrite Ha. cbn [negb].
  destruct (length columns <? 2)%nat eqn:E.
  - apply Nat.ltb_lt in E. lia.
  - destruct (plottable columns row0); [contradiction|reflexivity].
Qed.

Lemma generate_chart_ineligible (e : env) (columns : list pystr) (rows : list row)
    (question : pystr) (st : state) :
  (length columns < 2)%nat \/ rows = []
  \/ (forall row0, head rows = Some row0 -> plottable columns row0 = []) ->
  generate_chart e columns rows question st = (Ok None, st).
Proof.
  intros H. unfold generate_chart.
  destruct (MATPLOTLIB_AVAILABLE e); [|reflexivity]. cbn [negb].
  destruct rows as [|row0 rows]; [reflexivity|].
  destruct (length columns <? 2)%nat eqn:E; [reflexivity|].
  apply Nat.ltb_ge in E.
  destruct H as [H|[H|H]]; [lia|discriminate|].
  now rewrite (H row0 eq_refl).
Qed.

Lemma plottable_nil_iff (columns : list pystr) (row0 : row) :
  plottable columns row0 = []
  <-> forall col, In col (tl columns) -> float_ok (cell row0 col) = false.
Proof.
  unfold plottable. induction (tl columns) as [|c l IH]; simpl.
  - split; [intros _ col []|reflexivity].
  - destruct (float_ok (cell row0 c)) eqn:E.
    + split; [discriminate|]. intros H. rewrite (H c) in E by now left. discriminate.
    + rewrite IH. split.
      * intros H col [<-|Hin]; [exact E|now apply H].
      * intros H col Hin. apply H. now right.
Qed.


Lemma generate_chart_rendered (e : env) (columns : list pystr) (row0 : row)
    (rows : list row) (question path : pystr) (st : state) :
  MATPLOTLIB_AVAILABLE e = true ->
  (2 <= length columns)%nat ->
  plottable columns row0 <> [] ->
  let spec := chart_of columns (row0 :: rows) (plottable columns row0) question in
  env_draw e spec = None ->
  env_tmpfile e = Ok path ->
  env_savefig e path = None ->
  generate_chart e columns (row0 :: rows) question st
  = (Ok (Some path),
     State (trace st ++ [EDraw spec; ETempFile path; ESaveFig path; ECloseFig])
           (<[path := RegularFile true]> (fs st)) (client_set st) (pool_set st)).
Proof.
  intros Ha Hc Hp spec Hd Ht Hs.
  rewrite (generate_chart_run e columns row0 rows question st Ha Hc Hp).
  fold spec. cbv zeta. unfold NamedTemporaryFile. run.
  rewrite Hd, Ht. run. rewrite Hs. run.
  now rewrite <- !app_assoc.
Qed.

(** C7, as amended.  With matplotlib available: [generate_chart] returns
    [None], and does nothing else, when there are fewer than two columns,
    no row, or no column after the first whose value in the first row
    parses as a float.  Otherwise the series of the chart are the columns
    after the first whose first-row value parses, in their order, and,
    when drawing and saving raise nothing, the path of the temporary file
    is returned. *)
Theorem generate_chart_eligibility (e : env) (columns : list pystr) (rows : list row)
    (question : pystr) (st : state) :
  MATPLOTLIB_AVAILABLE e = true ->
  (((length columns < 2)%nat \/ rows = []
    \/ (forall row0, head rows = Some row0 ->
        forall col, In col (tl columns) -> float_ok (cell row0 col) = false)) ->
   generate_chart e columns rows question st = (Ok None, st))
  /\ (forall row0 path,
        (2 <= length columns)%nat ->
        head rows = Some row0 ->
        (exists col, In col (tl columns) /\ float_ok (cell row0 col) = true) ->
        let spec := chart_of columns rows (plottable columns row0) question in
        (List.map fst (ch_series spec)
         = List.filter (fun col => float_ok (cell row0 col)) (tl columns))
        /\ (env_draw e spec = None ->
            env_tmpfile e = Ok path ->
            env_savefig e path = None ->
            generate_chart e columns rows question st
            = (Ok (Some path),
               State (trace st ++ [EDraw spec; ETempFile path; ESaveFig path; ECloseFig])
                     (<[path := RegularFile true]> (fs st))
                     (client_set st) (pool_set st)))).
Proof.
  intros Ha. split.
  - intros H. apply generate_chart_ineligible.
    destruct H as [H|[H|H]]; [now left|now right; left|].
    right; right. intros row0 Hr. apply plottable_nil_iff. now apply H.
  - intros row0 path Hc Hr [col Hcol] spec.
    destruct rows as [|r rows]; [discriminate|]. injection Hr as ->.
    split.
    + subst spec. unfold chart_of. cbn [ch_series].
      rewrite map_map. cbn [fst]. now rewrite map_id.
    + intros Hd Ht Hs.
      assert (Hp : plottable columns row0 <> []).
      { intros Hn. rewrite plottable_nil_iff in Hn.
        destruct Hcol as [Hin Hf]. rewrite (Hn col Hin) in Hf. discriminate. }
      exact (generate_chart_rendered e columns row0 rows question path st
               Ha Hc Hp Hd Ht Hs).
Qed.

Lemma generate_chart_eligibility_witness :
  generate_chart (world true (py "SELECT 1;") (Ok [north_row]) None None)
    [py "region"; py "revenue"] [north_row] (py "revenue by region") initial
  = (Ok (Some (py "/tmp/tmpk3v9.png")),
     State [EDraw (chart_of [py "region"; py "revenue"] [north_row] [py "revenue"]
                            (py "revenue by region"));
            ETempFile (py "/tmp/tmpk3v9.png"); ESaveFig (py "/tmp/tmpk3v9.png");
            ECloseFig]
           (<[py "/tmp/tmpk3v9.png" := RegularFile true]> ∅) false false).
Proof.
  refine (proj2 (proj2 (generate_chart_eligibility
                   (world true (py "SELECT 1;") (Ok [north_row]) None None)
                   [py "region"; py "revenue"] [north_row] (py "revenue by region")
                   initial eq_refl)
                 north_row (py "/tmp/tmpk3v9.png") _ eq_refl _) eq_refl eq_refl eq_refl).
  - simpl. lia.
  - exists (py "revenue"). split; [now left|reflexivity].
Defined.

(** C7, as stated, fails when matplotlib is missing: two columns, one row
    and a numeric second column, and still no chart. *)
Lemma generate_chart_counterexample :
  (2 <= length [py "region"; py "revenue"])%nat
  /\ [north_row] <> []
  /\ (exists col, In col (tl [py "region"; py "revenue"])
                  /\ float_ok (cell north_row col) = true)
  /\ generate_chart (world false (py "SELECT 1;") (Ok [north_row]) None None)
       [py "region"; py "revenue"] [north_row] (py "revenue by region") initial
     = (Ok None, initial).
Proof.
  split; [simpl; lia|]. split; [discriminate|]. split.
  - exists (py "revenue"). split; [now left|reflexivity].
  - reflexivity.
Qed.

(** ** Disposal of the chart file *)

Lemma cleanup_chart_empty (st : state) : cleanup_chart [] st = (Ok tt, st).
Proof. reflexivity. Qed.

Lemma cleanup_chart_absent (path : pystr) (st : state) :
  fs st !! path = None -> cleanup_chart path st = (Ok tt, st).
Proof.
  intros H. destruct path as [|c p]; [reflexivity|].
  unfold cleanup_chart, os_path_exists. run. rewrite H.
  rewrite bool_decide_eq_false_2 by (intros [x Hx]; discriminate).
  rewrite andb_false_r. reflexivity.
Qed.

Lemma cleanup_chart_unencodable (path : pystr) (st : state) :
  path_ok path = false -> cleanup_chart path st = (Ok tt, st).
Proof.
  intros H. destruct path as [|c p]; [reflexivity|].
  unfold cleanup_chart, os_path_exists. run. now rewrite H.
Qed.

Lemma cleanup_chart_present (path : pystr) (node : fnode) (st : state) :
  path <> [] -> path_ok path = true -> fs st !! path = Some node ->
  cleanup_chart path st
  = (Ok tt,
     State (trace st ++ [ERemove path])
           (match node with RegularFile true => delete path (fs st) | _ => fs st end)
           (client_set st) (pool_set st)).
Proof.
  intros Hne Hok H. destruct path as [|c p]; [contradiction|].
  unfold cleanup_chart, os_path_exists, os_remove. run. rewrite H, Hok.
  rewrite bool_decide_eq_true_2 by eauto. cbn [andb negb]. run.
  rewrite H. destruct node as [[|]|]; reflexivity.
Qed.

(** C8, as amended.  [cleanup_chart] never raises.  On a file that the
    system lets be removed it removes the file; on a path that does not
    exist (never created, or removed before) it does nothing at all; and
    when the removal is refused, or the path is a directory, the error is
    swallowed and the file system is left as it was. *)
Theorem cleanup_chart_safe (path : pystr) (st : state) :
  fst (cleanup_chart path st) = Ok tt
  /\ (path <> [] -> path_ok path = true ->
      fs st !! path = Some (RegularFile true) ->
      fs (snd (cleanup_chart path st)) = delete path (fs st)
      /\ fs (snd (cleanup_chart path st)) !! path = None)
  /\ (fs st !! path = None -> snd (cleanup_chart path st) = st)
  /\ (fs st !! path = Some (RegularFile false) \/ fs st !! path = Some Directory ->
      fs (snd (cleanup_chart path st)) = fs st).
Proof.
  split; [|split; [|split]].
  - destruct path as [|c p]; [reflexivity|].
    destruct (path_ok (c :: p)) eqn:Hok.
    + destruct (fs st !! (c :: p)) as [node|] eqn:H.
      * now rewrite (cleanup_chart_present _ node st).
      * now rewrite cleanup_chart_absent.
    + now rewrite cleanup_chart_unencodable.
  - intros Hne Hok H. rewrite (cleanup_chart_present _ _ st Hne Hok H). cbn [snd fs].
    split; [reflexivity|apply lookup_delete_eq].
  - intros H. now rewrite cleanup_chart_absent.
  - intros H. destruct path as [|c p]; [reflexivity|].
    destruct (path_ok (c :: p)) eqn:Hok.
    + assert (Hne : c :: p <> []) by discriminate.
      destruct H as [H|H]; now rewrite (cleanup_chart_present _ _ st Hne Hok H).
    + now rewrite cleanup_chart_unencodable.
Qed.

(** C8, as stated, fails on a file that the system refuses to remove: the
    file exists before the call and after it. *)
Lemma cleanup_chart_counterexample :
  let st := State [] {[py "/tmp/tmpk3v9.png" := RegularFile false]} false false in
  fs st !! py "/tmp/tmpk3v9.png" = Some (RegularFile false)
  /\ fst (cleanup_chart (py "/tmp/tmpk3v9.png") st) = Ok tt
  /\ fs (snd (cleanup_chart (py "/tmp/tmpk3v9.png") st)) !! py "/tmp/tmpk3v9.png"
     = Some (RegularFile false).
Proof.
  cbv zeta.
  assert (E : fs (State [] {[py "/tmp/tmpk3v9.png" := RegularFile false]} false false)
              !! py "/tmp/tmpk3v9.png" = Some (RegularFile false))
    by apply lookup_singleton_eq.
  assert (Hne : py "/tmp/tmpk3v9.png" <> []) by discriminate.
  rewrite (cleanup_chart_present _ _ _ Hne eq_refl E).
  cbn [fst snd fs]. repeat split; apply lookup_singleton_eq.
Qed.

(** ** The chart stage of the pipeline *)

(** C4.  When saving the figure fails after the temporary file was made,
    the chart stage only logs a warning: the user is sent nothing, but the
    file is never removed and is still there when the stage ends. *)
Theorem chart_stage_partial_artifact (e : env) (j : job) (columns : list pystr)
    (row0 : row) (rows : list row) (path : pystr) (exc : exn) (st : state) :
  MATPLOTLIB_AVAILABLE e = true ->
  (2 <= length columns)%nat ->
  plottable columns row0 <> [] ->
  let spec := chart_of columns (row0 :: rows) (plottable columns row0) (job_question j) in
  env_draw e spec = None ->
  env_tmpfile e = Ok path ->
  env_savefig e path = Some exc ->
  chart_stage e j columns (row0 :: rows) st
  = (Ok tt,
     State (trace st
            ++ [EDraw spec; ETempFile path; ESaveFig path;
                ELog WARNING (py "Chart upload failed (non-critical): " ++ exn_str exc)])
           (<[path := RegularFile true]> (fs st)) (client_set st) (pool_set st)).
Proof.
  intros Ha Hc Hp spec Hd Ht Hs.
  unfold chart_stage. unfold bind at 1, attempt.
  rewrite (generate_chart_run e columns row0 rows (job_question j) st Ha Hc Hp).
  fold spec. cbv zeta. unfold NamedTemporaryFile. run.
  rewrite Hd, Ht. run. rewrite Hs. run.
  now rewrite <- !app_assoc.
Qed.

Lemma chart_stage_partial_artifact_witness :
  chart_stage
    (world true (py "SELECT 1;") (Ok [north_row])
           (Some (Exn OSError (py "No space left on device"))) None)
    (Job (py "revenue by region") (Some (py "U1")) (Some (py "C1")))
    [py "region"; py "revenue"] [north_row] initial
  = (Ok tt,
     State [EDraw (chart_of [py "region"; py "revenue"] [north_row] [py "revenue"]
                            (py "revenue by region"));
            ETempFile (py "/tmp/tmpk3v9.png"); ESaveFig (py "/tmp/tmpk3v9.png");
            ELog WARNING (py "Chart upload failed (non-critical): "
                          ++ py "No space left on device")]
           (<[py "/tmp/tmpk3v9.png" := RegularFile true]> ∅) false false).
Proof.
  refine (chart_stage_partial_artifact
            (world true (py "SELECT 1;") (Ok [north_row])
                   (Some (Exn OSError (py "No space left on device"))) None)
            (Job (py "revenue by region") (Some (py "U1")) (Some (py "C1")))
            [py "region"; py "revenue"] north_row [] (py "/tmp/tmpk3v9.png")
            (Exn OSError (py "No space left on device")) initial
            eq_refl _ _ eq_refl eq_refl eq_refl).
  - simpl. lia.
  - discriminate.
Defined.

(** X2. When the chart was rendered, the chart stage removes its file exactly
    once whether the upload succeeds or fails, and sends the user no
    message: a failed upload is only logged. *)
Theorem chart_stage_disposes (e : env) (j : job) (columns : list pystr)
    (row0 : row) (rows : list row) (c : N) (p : pystr) (st : state) :
  MATPLOTLIB_AVAILABLE e = true ->
  (2 <= length columns)%nat ->
  plottable columns row0 <> [] ->
  env_draw e (chart_of columns (row0 :: rows) (plottable columns row0) (job_question j))
  = None ->
  env_tmpfile e = Ok (c :: p) ->
  env_savefig e (c :: p) = None ->
  path_ok (c :: p) = true ->
  exists evs,
    chart_stage e j columns (row0 :: rows) st
    = (Ok tt, State (trace st ++ evs) (delete (c :: p) (fs st))
                    (client_set st) (pool_set st))
    /\ length (List.filter (removes (c :: p)) evs) = 1%nat
    /\ List.filter is_response evs = [].
Proof.
  intros Ha Hc Hp Hd Ht Hs Hok.
  unfold chart_stage. unfold bind at 1, attempt.
  rewrite (generate_chart_rendered e columns row0 rows (job_question j) (c :: p) st
             Ha Hc Hp Hd Ht Hs).
  assert (Hne : c :: p <> []) by discriminate.
  unfold files_upload_v2, Exception. run.
  destruct (env_upload e (c :: p)) as [exc|]; run;
    (rewrite (cleanup_chart_present (c :: p) (RegularFile true) _ Hne Hok)
      by (cbn [fs]; apply lookup_insert_eq));
    cbn [trace fs client_set pool_set]; rewrite delete_insert_eq;
    eexists; (split; [rewrite <- !app_assoc; cbn [app]; reflexivity|]);
    (split; [|reflexivity]);
    cbn [List.filter removes];
    rewrite bool_decide_eq_true_2 by reflexivity; reflexivity.
Qed.

Lemma chart_stage_disposes_witness :
  exists evs,
    chart_stage (world true (py "SELECT 1;") (Ok [north_row]) None
                       (Some (Exn SlackApiError (py "channel_not_found"))))
      (Job (py "revenue by region") (Some (py "U1")) (Some (py "C1")))
      [py "region"; py "revenue"] [north_row] initial
    = (Ok tt, State ([] ++ evs) (delete (py "/tmp/tmpk3v9.png") ∅) false false)
    /\ length (List.filter (removes (py "/tmp/tmpk3v9.png")) evs) = 1%nat
    /\ List.filter is_response evs = [].
Proof.
  refine (chart_stage_disposes
            (world true (py "SELECT 1;") (Ok [north_row]) None
                   (Some (Exn SlackApiError (py "channel_not_found"))))
            (Job (py "revenue by region") (Some (py "U1")) (Some (py "C1")))
            [py "region"; py "revenue"] north_row [] 0x2F (py "tmp/tmpk3v9.png") initial
            eq_refl _ _ eq_refl eq_refl eq_refl eq_refl).
  - simpl. lia.
  - discriminate.
Defined.

(** ** The pipeline before delivery *)

(** X3. When the synthesis of the statement fails, the user is sent one message
    with the failure, and the store is not asked anything. *)
Theorem process_generation_failure (e : env) (j : job) (exc : exn) (st st1 : state) :
  question_to_sql e (job_question j) st = (Raise exc, st1) ->
  process e j st
  = (Ok tt,
     State (trace st1
            ++ [ELog ERROR (py "LLM error: " ++ exn_str exc);
                ERespond (py ":x: *Failed to generate SQL.*" ++ NL
                          ++ py "```" ++ exn_str exc ++ py "```")])
           (fs st1) (client_set st1) (pool_set st1)).
Proof.
  intros H. unfold process. run. rewrite H. run.
  now rewrite <- !app_assoc.
Qed.

(** X4. When the execution of the statement fails, the user is sent one message
    with the failure and the statement that was tried, and no chart is
    attempted. *)
Theorem process_execution_failure (e : env) (j : job) (sql : pystr) (exc : exn)
    (st st1 st2 : state) :
  question_to_sql e (job_question j) st = (Ok sql, st1) ->
  execute_query e sql
    (State (trace st1 ++ [ELog INFO (py "Generated SQL: " ++ sql)])
           (fs st1) (client_set st1) (pool_set st1))
  = (Raise exc, st2) ->
  process e j st
  = (Ok tt,
     State (trace st2
            ++ [ELog ERROR (py "DB error: " ++ exn_str exc);
                ERespond (py ":x: *Query execution failed.*" ++ NL
                          ++ py "```" ++ exn_str exc ++ py "```" ++ NL ++ NL
                          ++ py "*Generated SQL was:*" ++ NL
                          ++ py "```" ++ sql ++ py "```")])
           (fs st2) (client_set st2) (pool_set st2)).
Proof.
  intros H1 H2. unfold process. run. rewrite H1. run. rewrite H2. run.
  now rewrite <- !app_assoc.
Qed.

Lemma process_generation_failure_witness :
  process (world true (py "Sorry, I cannot help with that.") (Ok []) None None)
    (Job (py "tell me a joke") (Some (py "U1")) (Some (py "C1"))) initial
  = (Ok tt,
     State ([EClientInit; ECompletion SYSTEM_PROMPT (HUMAN_TEMPLATE (py "tell me a joke"))]
            ++ [ELog ERROR
                  (py "LLM error: "
                   ++ exn_str (invalid_output (py "Sorry, I cannot help with that.")));
                ERespond
                  (py ":x: *Failed to generate SQL.*" ++ NL ++ py "```"
                   ++ exn_str (invalid_output (py "Sorry, I cannot help with that."))
                   ++ py "```")])
           ∅ true false).
Proof.
  apply (process_generation_failure
           (world true (py "Sorry, I cannot help with that.") (Ok []) None None)
           (Job (py "tell me a joke") (Some (py "U1")) (Some (py "C1")))
           (invalid_output (py "Sorry, I cannot help with that.")) initial
           (State [EClientInit;
                   ECompletion SYSTEM_PROMPT (HUMAN_TEMPLATE (py "tell me a joke"))]
                  ∅ true false)).
  vm_compute. reflexivity.
Defined.

Lemma process_execution_failure_witness :
  fst (process (world true (py "SELECT nope FROM public.sales_daily;")
                      (Raise (Exn Psycopg2Error (py "column nope does not exist")))
                      None None)
         (Job (py "show nope") (Some (py "U1")) (Some (py "C1"))) initial)
  = Ok tt.
Proof.
  rewrite (process_execution_failure
             (world true (py "SELECT nope FROM public.sales_daily;")
                    (Raise (Exn Psycopg2Error (py "column nope does not exist")))
                    None None)
             (Job (py "show nope") (Some (py "U1")) (Some (py "C1")))
             (py "SELECT nope FROM public.sales_daily;")
             (Exn Psycopg2Error (py "column nope does not exist"))
             initial
             (State [EClientInit;
                     ECompletion SYSTEM_PROMPT (HUMAN_TEMPLATE (py "show nope"))]
                    ∅ true false)
             (State [EClientInit;
                     ECompletion SYSTEM_PROMPT (HUMAN_TEMPLATE (py "show nope"));
                     ELog INFO (py "Generated SQL: "
                                ++ py "SELECT nope FROM public.sales_daily;");
                     EPoolInit; EGetConn;
                     EExecute (py "SELECT nope FROM public.sales_daily;"); EPutConn]
                    ∅ true true)).
  - reflexivity.
  - vm_compute. reflexivity.
  - vm_compute. reflexivity.
Defined.

(** ** The table formatter *)

Lemma width_of_insert (w : gmap pystr nat) (c col : pystr) (v : nat) :
  width_of (<[c := v]> w) col = if decide (c = col) then v else width_of w col.
Proof.
  unfold width_of. destruct (decide (c = col)) as [->|Hne].
  - now rewrite lookup_insert_eq.
  - now rewrite lookup_insert_ne.
Qed.

Lemma width_of_init (columns : list pystr) (w : gmap pystr nat) (col : pystr) :
  width_of (foldl (fun w col => <[col := length col]> w) w columns) col
  = if decide (col ∈ columns) then length col else width_of w col.
Proof.
  revert w. induction columns as [|c cols IH]; intros w; cbn [foldl].
  - destruct (decide (col ∈ [])) as [H|_]; [|reflexivity]. now apply elem_of_nil in H.
  - rewrite IH, width_of_insert.
    destruct (decide (col ∈ cols)) as [Hin|Hnin].
    + rewrite decide_True; [reflexivity|]. now apply elem_of_cons; right.
    + destruct (decide (c = col)) as [->|Hne].
      * rewrite decide_True; [reflexivity|]. apply elem_of_cons; now left.
      * rewrite decide_False; [reflexivity|].
        intros [->|H]%elem_of_cons; [now apply Hne|now apply Hnin].
Qed.

Lemma width_of_widen_row (r : row) (columns : list pystr) (w : gmap pystr nat)
    (col : pystr) :
  width_of (widen_row columns w r) col
  = if decide (col ∈ columns)
    then Nat.max (width_of w col) (length (cell r col))
    else width_of w col.
Proof.
  unfold widen_row. revert w. induction columns as [|c cols IH]; intros w; cbn [foldl].
  - destruct (decide (col ∈ [])) as [H|_]; [|reflexivity]. now apply elem_of_nil in H.
  - rewrite IH, width_of_insert.
    destruct (decide (col ∈ cols)) as [Hin|Hnin].
    + rewrite (decide_True (P := col ∈ c :: cols)) by (apply elem_of_cons; now right).
      destruct (decide (c = col)) as [->|Hne]; lia.
    + destruct (decide (c = col)) as [->|Hne].
      * rewrite decide_True; [reflexivity|]. apply elem_of_cons; now left.
      * rewrite decide_False; [reflexivity|].
        intros [->|H]%elem_of_cons; [now apply Hne|now apply Hnin].
Qed.

Lemma width_of_rows (columns : list pystr) (rows : list row) (w : gmap pystr nat)
    (col : pystr) :
  col ∈ columns ->
  width_of (foldl (widen_row columns) w rows) col
  = Nat.max (width_of w col) (list_max (List.map (fun r => length (cell r col)) rows)).
Proof.
  intros Hin. revert w. induction rows as [|r rows IH]; intros w; cbn [foldl List.map].
  - simpl. lia.
  - rewrite IH, width_of_widen_row, decide_True by exact Hin.
    change (list_max (?a :: ?l)) with (Nat.max a (list_max l)). lia.
Qed.

(** The width of a column: the longest of its header and its cells. *)
Lemma compute_widths_max (columns : list pystr) (rows : list row) (col : pystr) :
  col ∈ columns ->
  width_of (compute_widths columns rows) col
  = Nat.max (length col) (list_max (List.map (fun r => length (cell r col)) rows)).
Proof.
  intros Hin. unfold compute_widths.
  now rewrite width_of_rows, width_of_init, decide_True.
Qed.

Lemma map_zip_map {A B C} (f : A * B -> C) (g : A -> B) (l : list A) :
  List.map f (zip l (List.map g l)) = List.map (fun a => f (a, g a)) l.
Proof. induction l as [|a l IH]; [reflexivity|]. cbn. now rewrite <- IH. Qed.

Lemma fmt_row_cells (columns : list pystr) (w : gmap pystr nat) (g : pystr -> pystr) :
  fmt_row columns w (List.map g columns)
  = py "| "
    ++ str_join (py " | ") (List.map (fun col => ljust (width_of w col) (g col)) columns)
    ++ py " |".
Proof. unfold fmt_row. now rewrite map_zip_map. Qed.

(** C6. For a non-empty list of preview rows: the width of every column is
    the maximum of the length of its header and of the lengths of its cells
    over all the rows; the table is a rule, the header, a rule, one line
    per row in the order of the rows and a rule, every line holding the
    cells in the order of the columns, each padded to the width of its
    column; and the footer "Showing K of N rows." is appended exactly when
    the total exceeds the number of preview rows. *)
Theorem format_slack_table_layout (columns : list pystr) (rows : list row) (total : Z) :
  rows <> [] ->
  let width := fun col =>
    Nat.max (length col) (list_max (List.map (fun r => length (cell r col)) rows)) in
  let line := fun (text : pystr -> pystr) =>
    py "| "
    ++ str_join (py " | ") (List.map (fun col => ljust (width col) (text col)) columns)
    ++ py " |" in
  let rule :=
    py "+-"
    ++ str_join (py "-+-") (List.map (fun col => repeat (ch "-") (width col)) columns)
    ++ py "-+" in
  let table :=
    str_join NL ([rule; line (fun col => col); rule]
                 ++ List.map (fun r => line (cell r)) rows ++ [rule]) in
  (forall col, col ∈ columns -> width_of (compute_widths columns rows) col = width col)
  /\ ((Z.of_nat (length rows) < total)%Z ->
      format_slack_table columns rows total
      = table ++ NL ++ py "_Showing " ++ str_of_int (Z.of_nat (length rows))
        ++ py " of " ++ str_of_int total ++ py " rows._")
  /\ ((total <= Z.of_nat (length rows))%Z ->
      format_slack_table columns rows total = table).
Proof.
  intros Hne width line rule table.
  assert (Hw : forall col, col ∈ columns ->
                 width_of (compute_widths columns rows) col = width col)
    by (intros col Hin; now apply compute_widths_max).
  assert (Hcells : forall g : pystr -> pystr,
            List.map (fun col => ljust (width_of (compute_widths columns rows) col) (g col))
                     columns
            = List.map (fun col => ljust (width col) (g col)) columns).
  { intros g. apply map_ext_in. intros col Hin. rewrite Hw; [reflexivity|].
    now apply list_elem_of_In. }
  assert (Hline : forall g, fmt_row columns (compute_widths columns rows)
                              (List.map g columns) = line g).
  { intros g. rewrite fmt_row_cells, Hcells. reflexivity. }
  assert (Hrule : separator_line columns (compute_widths columns rows) = rule).
  { unfold separator_line.
    replace (List.map (fun col => repeat (ch "-")
                                    (width_of (compute_widths columns rows) col)) columns)
      with (List.map (fun col => repeat (ch "-") (width col)) columns); [reflexivity|].
    apply map_ext_in. intros col Hin. rewrite Hw; [reflexivity|].
    now apply list_elem_of_In. }
  assert (Htable : str_join NL (table_lines columns rows) = table).
  { unfold table_lines. cbv zeta. rewrite Hrule.
    rewrite <- (map_id columns) at 3. rewrite (Hline (fun col => col)).
    replace (List.map (fun r => fmt_row columns (compute_widths columns rows)
                                  (List.map (cell r) columns)) rows)
      with (List.map (fun r => line (cell r)) rows); [reflexivity|].
    apply map_ext. intros r. symmetry. apply Hline. }
  split; [exact Hw|].
  unfold format_slack_table, footer_line.
  destruct rows as [|r rs]; [contradiction|]. rewrite Htable.
  split; intros H.
  - apply Z.ltb_lt in H. now rewrite H.
  - apply Z.ltb_ge in H. rewrite H. apply app_nil_r.
Qed.

Lemma format_slack_table_layout_witness :
  format_slack_table [py "region"; py "revenue"] [north_row] 4
  = str_join NL
      [py "+--------+---------+"; py "| region | revenue |"; py "+--------+---------+";
       py "| North  | 100     |"; py "+--------+---------+"]
    ++ NL ++ py "_Showing 1 of 4 rows._".
Proof.
  destruct (format_slack_table_layout [py "region"; py "revenue"] [north_row] 4)
    as (_ & H & _); [discriminate|].
  rewrite H by reflexivity. vm_compute. reflexivity.
Defined.

(** ** The matcher and what a pattern matches *)

Lemma last_char_nil (prev : option N) : last_char prev [] = prev.
Proof. reflexivity. Qed.

Lemma last_char_cons (prev : option N) (c : N) (m : pystr) :
  last_char prev (c :: m) = last_char (Some c) m.
Proof.
  unfold last_char. destruct m as [|d m]; [reflexivity|].
  rewrite last_cons. now destruct (last (d :: m)).
Qed.

Lemma last_char_app (prev : option N) (m1 m2 : pystr) :
  last_char (last_char prev m1) m2 = last_char prev (m1 ++ m2).
Proof.
  revert prev. induction m1 as [|c m1 IH]; intros prev; [reflexivity|].
  cbn [app]. now rewrite !last_char_cons, IH.
Qed.

Lemma last_char_last (pre m : pystr) : last_char (last pre) m = last (pre ++ m).
Proof.
  unfold last_char. rewrite last_app. now destruct (last m).
Qed.

Lemma last_rev_head {A} (l : list A) : last (rev l) = head l.
Proof. destruct l as [|a l]; [reflexivity|]. cbn [rev]. apply last_snoc. Qed.

Section MatcherFacts.
Context {A : Type} (fl : re_flags).

Lemma repeat_lazy_sound (a : atom) (k : @cont A) (s : pystr) :
  forall min prev x,
    repeat_lazy fl a k min prev s = Some x ->
    exists m rest, s = m ++ rest
                   /\ (min <= length m)%nat
                   /\ Forall (fun c => atom_match fl a c = true) m
                   /\ k (last_char prev m) rest = Some x.
Proof.
  induction s as [|c s IH]; intros min prev x H.
  - destruct min as [|min]; cbn in H; [|discriminate].
    destruct (k prev []) eqn:E; [|discriminate]. injection H as <-.
    exists [], []. repeat split; auto.
  - destruct min as [|min]; cbn in H.
    + destruct (k prev (c :: s)) eqn:E.
      * injection H as <-. exists [], (c :: s). repeat split; auto.
      * destruct (atom_match fl a c) eqn:Ec; [|discriminate].
        destruct (IH _ _ _ H) as (m & rest & -> & Hl & Hf & Hk).
        exists (c :: m), rest. rewrite last_char_cons.
        repeat split; auto. cbn. lia.
    + destruct (atom_match fl a c) eqn:Ec; [|discriminate].
      destruct (IH _ _ _ H) as (m & rest & -> & Hl & Hf & Hk).
      exists (c :: m), rest. rewrite last_char_cons.
      repeat split; auto. cbn. lia.
Qed.

Lemma repeat_lazy_complete (a : atom) (k : @cont A) (m rest : pystr) :
  forall min prev x,
    (min <= length m)%nat ->
    Forall (fun c => atom_match fl a c = true) m ->
    k (last_char prev m) rest = Some x ->
    is_Some (repeat_lazy fl a k min prev (m ++ rest)).
Proof.
  induction m as [|c m IH]; intros min prev x Hl Hf Hk.
  - destruct min; [|cbn in Hl; lia]. cbn [app].
    rewrite last_char_nil in Hk.
    destruct rest; cbn; rewrite Hk; eauto.
  - inversion Hf as [|? ? Hc Hf']; subst.
    rewrite last_char_cons in Hk. cbn [app].
    destruct min as [|min]; cbn.
    + destruct (k prev (c :: m ++ rest)); [eauto|].
      rewrite Hc. apply (IH _ _ x); auto. lia.
    + rewrite Hc. apply (IH _ _ x); auto. cbn in Hl. lia.
Qed.

Lemma repeat_greedy_sound (a : atom) (k : @cont A) (s : pystr) :
  forall min prev x,
    repeat_greedy fl a k min prev s = Some x ->
    exists m rest, s = m ++ rest
                   /\ (min <= length m)%nat
                   /\ Forall (fun c => atom_match fl a c = true) m
                   /\ k (last_char prev m) rest = Some x.
Proof.
  assert (Hstop : forall min prev s x,
             match min with O => k prev s | S _ => None end = Some x ->
             exists m rest, s = m ++ rest
                   /\ (min <= length m)%nat
                   /\ Forall (fun c => atom_match fl a c = true) m
                   /\ k (last_char prev m) rest = Some x).
  { intros [|min] prev s0 x H; [|discriminate].
    exists [], s0. repeat split; auto. }
  induction s as [|c s IH]; intros min prev x H.
  - cbn in H. now apply Hstop.
  - cbn in H. destruct (atom_match fl a c) eqn:Ec; [|now apply Hstop].
    destruct (repeat_greedy fl a k (Nat.pred min) (Some c) s) eqn:E;
      [|now apply Hstop].
    injection H as <-.
    destruct (IH _ _ _ E) as (m & rest & -> & Hl & Hf & Hk).
    exists (c :: m), rest. rewrite last_char_cons.
    repeat split; auto. cbn. lia.
Qed.

Lemma repeat_greedy_complete (a : atom) (k : @cont A) (m rest : pystr) :
  forall min prev x,
    (min <= length m)%nat ->
    Forall (fun c => atom_match fl a c = true) m ->
    k (last_char prev m) rest = Some x ->
    is_Some (repeat_greedy fl a k min prev (m ++ rest)).
Proof.
  induction m as [|c m IH]; intros min prev x Hl Hf Hk.
  - destruct min; [|cbn in Hl; lia]. cbn [app].
    rewrite last_char_nil in Hk.
    destruct rest as [|d rest]; cbn; [rewrite Hk; eauto|].
    destruct (atom_match fl a d); [|rewrite Hk; eauto].
    destruct (repeat_greedy fl a k O (Some d) rest); [eauto|rewrite Hk; eauto].
  - inversion Hf as [|? ? Hc Hf']; subst.
    rewrite last_char_cons in Hk. cbn [app]. cbn. rewrite Hc.
    destruct (IH (Nat.pred min) (Some c) x) as [y Hy]; auto; [cbn in Hl; lia|].
    rewrite Hy. eauto.
Qed.

(** Whatever the matcher finds is a match of the pattern. *)
Lemma rmatch_sound (r : regex) :
  forall prev s (k : @cont A) x,
    rmatch fl r prev s k = Some x ->
    exists m rest, s = m ++ rest /\ matches fl r prev m rest
                   /\ k (last_char prev m) rest = Some x.
Proof.
  induction r as [| a | | r1 IH1 r2 IH2 | r1 IH1 | a min greedy];
    intros prev s k x H; cbn in H.
  - exists [], s. split; [reflexivity|]. split; [reflexivity|exact H].
  - destruct s as [|c s]; [discriminate|].
    destruct (atom_match fl a c) eqn:Ec; [|discriminate].
    exists [c], s. split; [reflexivity|]. split; [|exact H].
    exists c. auto.
  - destruct (at_boundary prev s) eqn:Eb; [|discriminate].
    exists [], s. split; [reflexivity|]. split; [|exact H]. cbn. auto.
  - destruct (IH1 _ _ _ _ H) as (m1 & rest1 & -> & Hm1 & H2).
    destruct (IH2 _ _ _ _ H2) as (m2 & rest & -> & Hm2 & Hk).
    exists (m1 ++ m2), rest. rewrite app_assoc. split; [reflexivity|].
    split; [|now rewrite <- last_char_app].
    cbn. eauto.
  - destruct (rmatch fl r1 prev s k) eqn:E.
    + injection H as <-. destruct (IH1 _ _ _ _ E) as (m & rest & -> & Hm & Hk).
      exists m, rest. cbn. auto.
    + exists [], s. cbn. auto.
  - destruct greedy.
    + destruct (repeat_greedy_sound _ _ _ _ _ _ H) as (m & rest & -> & Hl & Hf & Hk).
      exists m, rest. cbn. auto.
    + destruct (repeat_lazy_sound _ _ _ _ _ _ H) as (m & rest & -> & Hl & Hf & Hk).
      exists m, rest. cbn. auto.
Qed.

(** The matcher finds a match whenever the pattern has one that the
    continuation accepts. *)
Lemma rmatch_complete (r : regex) :
  forall prev m rest (k : @cont A) x,
    matches fl r prev m rest ->
    k (last_char prev m) rest = Some x ->
    is_Some (rmatch fl r prev (m ++ rest) k).
Proof.
  induction r as [| a | | r1 IH1 r2 IH2 | r1 IH1 | a min greedy];
    intros prev m rest k x Hm Hk; cbn in Hm; cbn [rmatch].
  - subst m. cbn in *. eauto.
  - destruct Hm as (c & -> & Hc). cbn. rewrite Hc. eauto.
  - destruct Hm as [-> Hb]. cbn in *. rewrite Hb. eauto.
  - destruct Hm as (m1 & m2 & -> & Hm1 & Hm2).
    rewrite <- last_char_app in Hk.
    destruct (IH2 _ _ _ _ _ Hm2 Hk) as [y Hy].
    rewrite <- app_assoc.
    apply (IH1 prev m1 (m2 ++ rest) (fun p s' => rmatch fl r2 p s' k) y Hm1 Hy).
  - destruct (rmatch fl r1 prev (m ++ rest) k) eqn:E; [eauto|].
    destruct Hm as [->|Hm]; [cbn in *; eauto|].
    destruct (IH1 _ _ _ _ _ Hm Hk) as [y Hy]. rewrite Hy in E. discriminate.
  - destruct Hm as [Hl Hf]. destruct greedy.
    + now apply (repeat_greedy_complete a k m rest min prev x).
    + now apply (repeat_lazy_complete a k m rest min prev x).
Qed.
End MatcherFacts.

Lemma match_at_sound (fl : re_flags) (r : regex) (prev : option N) (s rest : pystr) :
  match_at fl r prev s = Some rest ->
  exists m, s = m ++ rest /\ matches fl r prev m rest.
Proof.
  intros H. destruct (rmatch_sound fl r _ _ _ _ H) as (m & rest' & -> & Hm & [= ->]).
  eauto.
Qed.

Lemma match_at_complete (fl : re_flags) (r : regex) (prev : option N) (m rest : pystr) :
  matches fl r prev m rest -> is_Some (match_at fl r prev (m ++ rest)).
Proof.
  intros H. now apply (rmatch_complete fl r prev m rest (fun _ rest => Some rest) rest).
Qed.

Lemma length_app_minus {A} (m rest : list A) :
  (length (m ++ rest) - length rest)%nat = length m.
Proof. rewrite length_app. lia. Qed.

Lemma search_from_unfold (fl : re_flags) (r : regex) (before s : pystr) :
  search_from fl r before s
  = match match_at fl r (head before) s with
    | Some rest => Some (rev before, take (length s - length rest) s, rest)
    | None =>
      match s with
      | [] => None
      | c :: s' => search_from fl r (c :: before) s'
      end
    end.
Proof. destruct s; reflexivity. Qed.

Lemma search_from_sound (fl : re_flags) (r : regex) (s : pystr) :
  forall before pre m post,
    search_from fl r before s = Some (pre, m, post) ->
    exists b, pre = rev before ++ b /\ s = b ++ m ++ post
              /\ matches fl r (last pre) m post
              /\ forall b1 b2, b = b1 ++ b2 -> b2 <> [] ->
                   match_at fl r (last (rev before ++ b1)) (b2 ++ m ++ post) = None.
Proof.
  induction s as [|c s IH]; intros before pre m post H;
    rewrite search_from_unfold in H;
    destruct (match_at fl r (head before) _) as [rest|] eqn:E.
  - injection H as <- <- <-.
    destruct (match_at_sound _ _ _ _ _ E) as (m & Hs & Hm).
    symmetry in Hs. apply app_eq_nil in Hs as [-> ->].
    exists []. rewrite app_nil_r, last_rev_head. repeat split; auto.
    intros b1 b2 Hb Hne. symmetry in Hb. apply app_eq_nil in Hb as [_ ->]. contradiction.
  - discriminate.
  - injection H as <- <- <-.
    destruct (match_at_sound _ _ _ _ _ E) as (m & Hs & Hm).
    assert (Ht : take (length (c :: s) - length rest) (c :: s) = m)
      by (rewrite Hs, length_app_minus; apply take_app_length).
    change (S (length s)) with (length (c :: s)). rewrite Ht.
    exists []. rewrite app_nil_r, last_rev_head.
    repeat split; auto.
    intros b1 b2 Hb Hne. symmetry in Hb. apply app_eq_nil in Hb as [_ ->]. contradiction.
  - destruct (IH _ _ _ _ H) as (b & -> & -> & Hm & Hno).
    exists (c :: b). cbn [rev]. rewrite <- app_assoc. cbn [app].
    split; [reflexivity|]. split; [reflexivity|].
    split; [cbn [rev] in Hm; now rewrite <- app_assoc in Hm|].
    intros b1 b2 Hb Hne. destruct b1 as [|d b1].
    + cbn in Hb. subst b2. rewrite app_nil_r, last_rev_head. exact E.
    + injection Hb as <- ->.
      specialize (Hno b1 b2 eq_refl Hne). cbn [rev] in Hno.
      rewrite <- !app_assoc in Hno. cbn [app] in *. exact Hno.
Qed.

Lemma search_from_complete (fl : re_flags) (r : regex) (b m post : pystr) :
  forall before,
    matches fl r (last (rev before ++ b)) m post ->
    is_Some (search_from fl r before (b ++ m ++ post)).
Proof.
  induction b as [|c b IH]; intros before Hm; rewrite search_from_unfold.
  - rewrite app_nil_r, last_rev_head in Hm. cbn [app].
    destruct (match_at_complete _ _ _ _ _ Hm) as [rest Hr].
    rewrite Hr. eauto.
  - cbn [app].
    destruct (match_at fl r (head before) (c :: b ++ m ++ post)); [eauto|].
    apply IH. cbn [rev]. now rewrite <- app_assoc.
Qed.

(** [re.search] finds a match exactly when the pattern occurs in the text. *)
Lemma re_search_is_Some (fl : re_flags) (r : regex) (t : pystr) :
  is_Some (re_search fl r t) <-> exists pre m post, occurs fl r t pre m post.
Proof.
  unfold re_search, occurs. split.
  - intros [[[pre m] post] H].
    destruct (search_from_sound _ _ _ _ _ _ _ H) as (b & -> & -> & Hm & _).
    exists b, m, post. auto.
  - intros (pre & m & post & -> & Hm). now apply search_from_complete.
Qed.

(** The match that [re.search] returns is the leftmost one. *)
Lemma re_search_leftmost (fl : re_flags) (r : regex) (t pre m post : pystr) :
  re_search fl r t = Some (pre, m, post) ->
  occurs fl r t pre m post
  /\ forall pre' m' post', occurs fl r t pre' m' post' -> (length pre <= length pre')%nat.
Proof.
  unfold re_search, occurs. intros H.
  destruct (search_from_sound _ _ _ _ _ _ _ H) as (b & -> & -> & Hm & Hno).
  cbn [rev app] in *. split; [auto|].
  intros pre' m' post' [Ht Hm'].
  destruct (Nat.le_gt_cases (length b) (length pre')) as [Hle|Hgt]; [exact Hle|].
  exfalso.
  assert (Hsplit : exists b2, b = pre' ++ b2 /\ b2 <> []).
  { exists (drop (length pre') b). split.
    - rewrite <- (take_drop (length pre') b) at 1. f_equal.
      apply (f_equal (take (length pre'))) in Ht.
      rewrite take_app_le in Ht by lia. rewrite take_app_length in Ht. exact Ht.
    - intros Hd. apply (f_equal (@length N)) in Hd. rewrite length_drop in Hd.
      cbn in Hd. lia. }
  destruct Hsplit as (b2 & -> & Hne).
  specialize (Hno pre' b2 eq_refl Hne).
  rewrite <- app_assoc in Ht. apply app_inv_head in Ht.
  rewrite Ht in Hno.
  destruct (match_at_complete _ _ _ _ _ Hm') as [y Hy]. rewrite Hy in Hno. discriminate.
Qed.

(** ** Facts read off the case tables *)

Lemma run_lookup_preimage (t : list (N * N * N * N)) (x y : N) :
  run_lookup t x = Some y -> In x (run_preimages t y).
Proof.
  induction t as [|[[[lo hi] step] img] t IH]; cbn [run_lookup run_preimages];
    [discriminate|].
  destruct ((lo <=? x) && (x <=? hi) && ((x - lo) mod step =? 0)) eqn:E.
  - intros [= <-]. apply in_or_app. left.
    apply andb_prop in E as [E E3]. apply andb_prop in E as [E1 E2].
    apply N.leb_le in E1, E2.
    replace (img + (x - lo) - img) with (x - lo) by lia.
    rewrite E3.
    replace (img <=? img + (x - lo)) with true by (symmetry; apply N.leb_le; lia).
    replace (img + (x - lo) <=? img + (hi - lo)) with true
      by (symmetry; apply N.leb_le; lia).
    cbn. left. lia.
  - intros H. apply in_or_app. right. now apply IH.
Qed.

Lemma run_lookup_bounds (t : list (N * N * N * N)) (x y : N) :
  run_lookup t x = Some y ->
  exists lo hi step img, In (lo, hi, step, img) t /\ img <= y <= img + (hi - lo).
Proof.
  induction t as [|[[[lo hi] step] img] t IH]; cbn [run_lookup]; [discriminate|].
  destruct ((lo <=? x) && (x <=? hi) && ((x - lo) mod step =? 0)) eqn:E.
  - intros [= <-]. exists lo, hi, step, img. split; [now left|].
    apply andb_prop in E as [E E3]. apply andb_prop in E as [E1 E2].
    apply N.leb_le in E1, E2. lia.
  - intros H. destruct (IH H) as (lo' & hi' & step' & img' & Hin & Hb).
    exists lo', hi', step', img'. split; [now right|exact Hb].
Qed.

Lemma special_lookup_in (t : list (N * list N)) (x : N) (v : list N) :
  special_lookup t x = Some v -> In (x, v) t.
Proof.
  induction t as [|[k w] t IH]; cbn [special_lookup]; [discriminate|].
  destruct (k =? x) eqn:E.
  - intros [= <-]. apply N.eqb_eq in E. subst. now left.
  - intros H. right. now apply IH.
Qed.

Lemma ascii_lower_has_upper (x : N) :
  is_ascii_lower x = true -> is_Some (run_lookup upper_table x).
Proof.
  intros H. apply andb_prop in H as [H1 H2]. apply N.leb_le in H1, H2.
  assert (Hall : forallb (fun n => bool_decide (is_Some (run_lookup upper_table (N.of_nat n))))
                   (seq 97 26) = true) by (vm_compute; reflexivity).
  rewrite forallb_forall in Hall.
  assert (Hin : In (N.to_nat x) (seq 97 26)) by (apply in_seq; lia).
  specialize (Hall _ Hin). rewrite N2Nat.id in Hall.
  now apply bool_decide_eq_true_1 in Hall.
Qed.

(** [str.upper] leaves no lowercase ASCII letter. *)
Lemma upper_full_not_lower (x c : N) :
  In c (upper_full x) -> is_ascii_lower c = false.
Proof.
  unfold upper_full.
  destruct (special_lookup upper_special_table x) as [v|] eqn:Es.
  - intros Hin. apply special_lookup_in in Es.
    assert (Hall : forallb (fun kv => forallb (fun c => negb (is_ascii_lower c)) (snd kv))
                     upper_special_table = true) by (vm_compute; reflexivity).
    rewrite forallb_forall in Hall. specialize (Hall _ Es). cbn [snd] in Hall.
    rewrite forallb_forall in Hall. specialize (Hall _ Hin).
    now apply negb_true_iff in Hall.
  - destruct (run_lookup upper_table x) as [y|] eqn:Er; cbn [default].
    + unfold id. intros [<-|[]].
      destruct (run_lookup_bounds _ _ _ Er) as (lo & hi & step & img & Hin & Hb).
      assert (Hall : forallb run_avoids_lower upper_table = true)
        by (vm_compute; reflexivity).
      rewrite forallb_forall in Hall. specialize (Hall _ Hin). cbn in Hall.
      unfold is_ascii_lower. apply andb_false_iff.
      apply orb_prop in Hall as [H|H]; apply N.ltb_lt in H.
      * left. apply N.leb_gt. lia.
      * right. apply N.leb_gt. lia.
    + intros [<-|[]].
      destruct (is_ascii_lower x) eqn:E; [|reflexivity].
      apply ascii_lower_has_upper in E as [y Hy]. rewrite Hy in Er. discriminate.
Qed.

Lemma str_upper_not_lower (s : pystr) :
  Forall (fun c => is_ascii_lower c = false) (str_upper s).
Proof.
  unfold str_upper. induction s as [|x s IH]; cbn [List.map List.concat].
  - constructor.
  - apply Forall_app. split; [|exact IH].
    apply List.Forall_forall. intros c. apply upper_full_not_lower.
Qed.

Lemma str_upper_app (s1 s2 : pystr) : str_upper (s1 ++ s2) = str_upper s1 ++ str_upper s2.
Proof. unfold str_upper. now rewrite List.map_app, List.concat_app. Qed.

(** In a text without lowercase ASCII letters a plain literal matches its
    upper form only. *)
Lemma plain_literal_match (a c : N) (dotall : bool) :
  plain_literal a = true ->
  is_ascii_lower c = false ->
  atom_match (ReFlags true dotall) (ALit a) c = true <-> c = upper_form a.
Proof.
  unfold plain_literal, upper_form, atom_match. cbn [IGNORECASE andb].
  destruct (sre_iscased a).
  - generalize (tolower a) as l. intros l Hp Hc.
    apply andb_prop in Hp as [Hp H4]. apply andb_prop in Hp as [Hp H3].
    apply andb_prop in Hp as [H1 H2].
    apply bool_decide_eq_true_1 in H2, H3. apply N.eqb_eq in H4.
    rewrite H2. cbn [existsb]. rewrite orb_false_r, N.eqb_eq.
    split.
    + intros Ht. unfold tolower in Ht.
      destruct (run_lookup lower_table c) as [y|] eqn:Er; cbn [default] in Ht;
        unfold id in Ht.
      * subst y. apply run_lookup_preimage in Er. rewrite H3 in Er.
        destruct Er as [<-|[]]. reflexivity.
      * subst c. rewrite H1 in Hc. discriminate.
    + intros ->. exact H4.
  - intros _ _. apply N.eqb_eq.
Qed.

Lemma matches_rlit (fl : re_flags) (w : pystr) :
  forall prev m rest,
    matches fl (rlit w) prev m rest
    <-> Forall2 (fun a c => atom_match fl (ALit a) c = true) w m.
Proof.
  induction w as [|a w IH]; intros prev m rest; cbn [rlit matches].
  - split; [intros ->; constructor|intros H; now inversion H].
  - split.
    + intros (m1 & m2 & -> & (c & -> & Hc) & Hm). constructor; [exact Hc|].
      now apply IH in Hm.
    + intros H. inversion H as [|? c ? m2 Hc Hm]; subst.
      exists [c], m2. split; [reflexivity|]. split; [eauto|]. now apply IH.
Qed.

(** In a text without lowercase ASCII letters a word of plain literals
    matches its upper form only. *)
Lemma matches_plain_word (dotall : bool) (w : pystr) :
  forall prev m rest,
    forallb plain_literal w = true ->
    Forall (fun c => is_ascii_lower c = false) m ->
    matches (ReFlags true dotall) (rlit w) prev m rest <-> m = List.map upper_form w.
Proof.
  intros prev m rest Hw Hm. rewrite matches_rlit. clear prev rest.
  revert m Hm. induction w as [|a w IH]; intros m Hm.
  - split; [intros H; now inversion H|intros ->; constructor].
  - cbn [forallb] in Hw. apply andb_prop in Hw as [Ha Hw]. split.
    + intros H. inversion H as [|? c ? m2 Hc Hm2]; subst.
      inversion Hm as [|? ? Hlc Hlm]; subst.
      apply (plain_literal_match a c dotall Ha Hlc) in Hc. subst c.
      cbn [List.map]. f_equal. now apply IH.
    + intros ->. cbn [List.map]. cbn [List.map] in Hm.
      inversion Hm as [|? ? Hlc Hlm]; subst.
      constructor; [now apply (plain_literal_match a _ dotall Ha Hlc)|].
      now apply IH.
Qed.

(** ** The date-range classifier *)

Section SequencePatterns.
Variable dotall : bool.

Lemma matches_seq_word (w : pystr) (rs : list regex) (prev : option N) (m post : pystr) :
  forallb plain_literal w = true ->
  Forall (fun c => is_ascii_lower c = false) m ->
  matches (ReFlags true dotall) (rseq (rlit w :: rs)) prev m post
  <-> exists m2, m = List.map upper_form w ++ m2
                 /\ matches (ReFlags true dotall) (rseq rs) (last_char prev (List.map upper_form w)) m2 post.
Proof.
  intros Hw Hm. cbn [rseq foldr matches]. split.
  - intros (m1 & m2 & -> & H1 & H2).
    apply Forall_app in Hm as [Hm1 Hm2].
    apply (matches_plain_word dotall w _ _ _ Hw Hm1) in H1. subst m1. eauto.
  - intros (m2 & -> & H2).
    apply Forall_app in Hm as [Hm1 Hm2].
    exists (List.map upper_form w), m2. split; [reflexivity|]. split; [|exact H2].
    now apply (matches_plain_word dotall w _ _ _ Hw Hm1).
Qed.

Lemma matches_seq_spaces (n : nat) (g : bool) (rs : list regex) (prev : option N)
    (m post : pystr) :
  matches (ReFlags true dotall) (rseq (RRepeat ASpace n g :: rs)) prev m post
  <-> exists ws m2, m = ws ++ m2 /\ (n <= length ws)%nat
                    /\ Forall (fun c => isspace c = true) ws
                    /\ matches (ReFlags true dotall) (rseq rs) (last_char prev ws) m2 post.
Proof.
  cbn [rseq foldr matches atom_match]. split.
  - intros (ws & m2 & -> & [Hn Hf] & H2). eauto 10.
  - intros (ws & m2 & -> & Hn & Hf & H2). eauto 10.
Qed.

Lemma matches_seq_boundary (rs : list regex) (prev : option N) (m post : pystr) :
  matches (ReFlags true dotall) (rseq (RWordBoundary :: rs)) prev m post
  <-> at_boundary prev (m ++ post) = true /\ matches (ReFlags true dotall) (rseq rs) prev m post.
Proof.
  cbn [rseq foldr matches]. split.
  - intros (m1 & m2 & -> & [-> Hb] & H2). auto.
  - intros [Hb H2]. exists [], m. auto.
Qed.

Lemma matches_seq_nil (prev : option N) (m post : pystr) :
  matches (ReFlags true dotall) (rseq []) prev m post <-> m = [].
Proof. reflexivity. Qed.
End SequencePatterns.

Lemma Forall_not_lower_tail (a b : pystr) :
  Forall (fun c => is_ascii_lower c = false) (a ++ b) ->
  Forall (fun c => is_ascii_lower c = false) b.
Proof. intros H. now apply Forall_app in H. Qed.

Lemma spaces_not_lower (ws : pystr) :
  Forall (fun c => isspace c = true) ws -> Forall (fun c => is_ascii_lower c = false) ws.
Proof.
  intros H. induction H as [|c ws Hc _ IH]; constructor; [|exact IH].
  unfold is_ascii_lower. destruct ((97 <=? c) && (c <=? 122)) eqn:E; [|reflexivity].
  apply andb_prop in E as [E1 E2]. apply N.leb_le in E1, E2.
  assert (Hall : forallb (fun n => negb (isspace (N.of_nat n))) (seq 97 26) = true)
    by (vm_compute; reflexivity).
  rewrite forallb_forall in Hall.
  assert (Hin : In (N.to_nat c) (seq 97 26)) by (apply in_seq; lia).
  specialize (Hall _ Hin). rewrite N2Nat.id, Hc in Hall. discriminate.
Qed.

(** What the pattern [\bBETWEEN\b] matches in an upper-cased text. *)
Lemma between_pattern (prev : option N) (m post : pystr) :
  Forall (fun c => is_ascii_lower c = false) m ->
  matches (ReFlags true false)
          (rseq [RWordBoundary; rlit (py "BETWEEN"); RWordBoundary]) prev m post
  <-> m = py "BETWEEN" /\ word_before prev = false /\ word_here post = false.
Proof.
  intros Hm.
  rewrite matches_seq_boundary, matches_seq_word by (auto; vm_compute; reflexivity).
  change (List.map upper_form (py "BETWEEN")) with (py "BETWEEN").
  assert (HB : word_here (py "BETWEEN" ++ post) = true) by (vm_compute; reflexivity).
  assert (HN : word_before (last_char prev (py "BETWEEN")) = true)
    by (vm_compute; reflexivity).
  split.
  - intros (Hb & m2 & -> & H2).
    apply matches_seq_boundary in H2 as [Hb2 H2]. apply matches_seq_nil in H2. subst m2.
    rewrite app_nil_r in *. split; [reflexivity|].
    unfold at_boundary in Hb, Hb2. cbn [app] in Hb2. rewrite HB in Hb. rewrite HN in Hb2.
    split.
    + now destruct (word_before prev).
    + now destruct (word_here post).
  - intros (-> & H1 & H2). unfold at_boundary. rewrite HB, H1. split; [reflexivity|].
    exists []. rewrite app_nil_r. split; [reflexivity|].
    apply matches_seq_boundary. split; [|reflexivity].
    unfold at_boundary. cbn [app]. now rewrite HN, H2.
Qed.

(** What the patterns [date\s*op] match in an upper-cased text. *)
Lemma date_comparison_pattern (op : pystr) (prev : option N) (m post : pystr) :
  forallb plain_literal op = true ->
  List.map upper_form op = op ->
  Forall (fun c => is_ascii_lower c = false) m ->
  matches (ReFlags true false)
          (rseq [rlit (py "date"); RRepeat ASpace 0 true; rlit op]) prev m post
  <-> exists ws, m = py "DATE" ++ ws ++ op /\ Forall (fun c => isspace c = true) ws.
Proof.
  intros Hop Hup Hm.
  rewrite matches_seq_word by (auto; vm_compute; reflexivity).
  change (List.map upper_form (py "date")) with (py "DATE").
  split.
  - intros (m2 & -> & H2). apply Forall_not_lower_tail in Hm.
    apply matches_seq_spaces in H2 as (ws & m3 & -> & _ & Hws & H3).
    apply Forall_not_lower_tail in Hm.
    apply matches_seq_word in H3 as (m4 & -> & H4); auto.
    apply matches_seq_nil in H4. subst m4. rewrite Hup, app_nil_r. eauto.
  - intros (ws & -> & Hws). exists (ws ++ op). split; [reflexivity|].
    apply matches_seq_spaces. exists ws, op. split; [reflexivity|].
    split; [lia|]. split; [exact Hws|].
    apply matches_seq_word; auto.
    + now do 2 apply Forall_not_lower_tail in Hm.
    + exists []. rewrite Hup, app_nil_r. split; reflexivity.
Qed.

(** What the patterns [kw\s+BY\s+date] match in an upper-cased text. *)
Lemma by_date_pattern (kw : pystr) (prev : option N) (m post : pystr) :
  forallb plain_literal kw = true ->
  List.map upper_form kw = kw ->
  Forall (fun c => is_ascii_lower c = false) m ->
  matches (ReFlags true false)
          (rseq [rlit kw; RRepeat ASpace 1 true; rlit (py "BY");
                 RRepeat ASpace 1 true; rlit (py "date")]) prev m post
  <-> exists ws1 ws2,
        m = kw ++ ws1 ++ py "BY" ++ ws2 ++ py "DATE"
        /\ ws1 <> [] /\ Forall (fun c => isspace c = true) ws1
        /\ ws2 <> [] /\ Forall (fun c => isspace c = true) ws2.
Proof.
  intros Hkw Hup Hm.
  rewrite matches_seq_word by auto. rewrite Hup.
  assert (Hne : forall ws : pystr, (1 <= length ws)%nat <-> ws <> []).
  { intros ws. destruct ws as [|c ws]; cbn [length]; split; intros H;
      try lia; try discriminate; congruence. }
  split.
  - intros (m2 & -> & H2). apply Forall_not_lower_tail in Hm.
    apply matches_seq_spaces in H2 as (ws1 & m3 & -> & Hn1 & Hws1 & H3).
    apply Forall_not_lower_tail in Hm.
    apply matches_seq_word in H3 as (m4 & -> & H4); [|vm_compute; reflexivity|exact Hm].
    change (List.map upper_form (py "BY")) with (py "BY") in *.
    apply Forall_not_lower_tail in Hm.
    apply matches_seq_spaces in H4 as (ws2 & m5 & -> & Hn2 & Hws2 & H5).
    apply Forall_not_lower_tail in Hm.
    apply matches_seq_word in H5 as (m6 & -> & H6); [|vm_compute; reflexivity|exact Hm].
    change (List.map upper_form (py "date")) with (py "DATE") in *.
    apply matches_seq_nil in H6. subst m6. rewrite app_nil_r.
    exists ws1, ws2. rewrite <- !Hne. auto.
  - intros (ws1 & ws2 & -> & Hn1 & Hws1 & Hn2 & Hws2).
    exists (ws1 ++ py "BY" ++ ws2 ++ py "DATE"). split; [reflexivity|].
    apply Forall_not_lower_tail in Hm.
    apply matches_seq_spaces. exists ws1, (py "BY" ++ ws2 ++ py "DATE").
    split; [reflexivity|]. split; [now apply Hne|]. split; [exact Hws1|].
    apply Forall_not_lower_tail in Hm.
    apply matches_seq_word; [vm_compute; reflexivity|exact Hm|].
    change (List.map upper_form (py "BY")) with (py "BY").
    exists (ws2 ++ py "DATE"). split; [reflexivity|].
    apply Forall_not_lower_tail in Hm.
    apply matches_seq_spaces. exists ws2, (py "DATE").
    split; [reflexivity|]. split; [now apply Hne|]. split; [exact Hws2|].
    apply Forall_not_lower_tail in Hm.
    apply matches_seq_word; [vm_compute; reflexivity|exact Hm|].
    change (List.map upper_form (py "date")) with (py "DATE").
    exists []. split; [now rewrite app_nil_r|reflexivity].
Qed.

Lemma occurs_not_lower (fl : re_flags) (r : regex) (sql pre m post : pystr) :
  occurs fl r (str_upper sql) pre m post ->
  Forall (fun c => is_ascii_lower c = false) m.
Proof.
  intros [Ht _]. pose proof (str_upper_not_lower sql) as H. rewrite Ht in H.
  apply Forall_app in H as [_ H]. now apply Forall_app in H as [H _].
Qed.

Lemma searched_iff (p : regex) (t : pystr) :
  bool_decide (is_Some (re_search (ReFlags true false) p t)) = true
  <-> exists pre m post, occurs (ReFlags true false) p t pre m post.
Proof. rewrite bool_decide_eq_true. apply re_search_is_Some. Qed.

Lemma is_date_range_query_iff (sql : pystr) :
  is_date_range_query sql = true
  <-> exists p pre m post,
        In p date_patterns /\ occurs (ReFlags true false) p (str_upper sql) pre m post.
Proof.
  unfold is_date_range_query. cbv zeta. rewrite existsb_exists. split.
  - intros (p & Hin & H). apply searched_iff in H as (pre & m & post & H). eauto 10.
  - intros (p & pre & m & post & Hin & H). exists p. split; [exact Hin|].
    apply searched_iff. eauto.
Qed.

Lemma date_comparison_occurs (op : pystr) (sql pre m post : pystr) :
  forallb plain_literal op = true ->
  List.map upper_form op = op ->
  In op comparison_ops ->
  occurs (ReFlags true false) (rseq [rlit (py "date"); RRepeat ASpace 0 true; rlit op])
         (str_upper sql) pre m post ->
  has_date_comparison (str_upper sql).
Proof.
  intros Hop Hup Hin H. pose proof (occurs_not_lower _ _ _ _ _ _ H) as Hm.
  destruct H as [Ht H].
  apply (date_comparison_pattern op _ _ _ Hop Hup Hm) in H as (ws & -> & Hws).
  exists pre, ws, op, post. rewrite Ht, <- !app_assoc. auto.
Qed.

Lemma by_date_occurs (kw : pystr) (sql pre m post : pystr) :
  forallb plain_literal kw = true ->
  List.map upper_form kw = kw ->
  occurs (ReFlags true false)
         (rseq [rlit kw; RRepeat ASpace 1 true; rlit (py "BY");
                RRepeat ASpace 1 true; rlit (py "date")])
         (str_upper sql) pre m post ->
  has_by_date kw (str_upper sql).
Proof.
  intros Hkw Hup H. pose proof (occurs_not_lower _ _ _ _ _ _ H) as Hm.
  destruct H as [Ht H].
  apply (by_date_pattern kw _ _ _ Hkw Hup Hm) in H
    as (ws1 & ws2 & -> & Hn1 & Hws1 & Hn2 & Hws2).
  exists pre, ws1, ws2, post. rewrite Ht, <- !app_assoc. auto 10.
Qed.

Lemma not_lower_segment (sql pre m post : pystr) :
  str_upper sql = pre ++ m ++ post -> Forall (fun c => is_ascii_lower c = false) m.
Proof.
  intros Ht. pose proof (str_upper_not_lower sql) as H. rewrite Ht in H.
  apply Forall_app in H as [_ H]. now apply Forall_app in H as [H _].
Qed.

Lemma date_range_rule_sound (sql : pystr) :
  is_date_range_query sql = true -> date_range_rule sql.
Proof.
  rewrite is_date_range_query_iff. intros (p & pre & m & post & Hin & H).
  unfold date_range_rule. cbv zeta.
  cbn [date_patterns In] in Hin.
  destruct Hin as [<-|[<-|[<-|[<-|[<-|[<-|[<-|[]]]]]]]].
  - left. pose proof (occurs_not_lower _ _ _ _ _ _ H) as Hm. destruct H as [Ht H].
    apply (between_pattern _ _ _ Hm) in H as (-> & H1 & H2).
    exists pre, post. auto.
  - right; left. apply (date_comparison_occurs (py ">=") sql pre m post);
      [vm_compute; reflexivity|vm_compute; reflexivity|now left|exact H].
  - right; left. apply (date_comparison_occurs (py "<=") sql pre m post);
      [vm_compute; reflexivity|vm_compute; reflexivity|right; now left|exact H].
  - right; left. apply (date_comparison_occurs (py ">") sql pre m post);
      [vm_compute; reflexivity|vm_compute; reflexivity|right; right; now left|exact H].
  - right; left. apply (date_comparison_occurs (py "<") sql pre m post);
      [vm_compute; reflexivity|vm_compute; reflexivity|right; right; right; now left|exact H].
  - right; right; left. apply (by_date_occurs (py "GROUP") sql pre m post);
      [vm_compute; reflexivity|vm_compute; reflexivity|exact H].
  - right; right; right. apply (by_date_occurs (py "ORDER") sql pre m post);
      [vm_compute; reflexivity|vm_compute; reflexivity|exact H].
Qed.

Lemma date_range_rule_complete (sql : pystr) :
  date_range_rule sql -> is_date_range_query sql = true.
Proof.
  unfold date_range_rule. cbv zeta. rewrite is_date_range_query_iff.
  intros [H|[H|[H|H]]].
  - destruct H as (pre & post & Ht & H1 & H2).
    exists (rseq [RWordBoundary; rlit (py "BETWEEN"); RWordBoundary]), pre, (py "BETWEEN"), post.
    split; [now left|]. split; [exact Ht|].
    apply between_pattern; [|auto]. now apply (not_lower_segment sql pre _ post).
  - destruct H as (pre & ws & op & post & Ht & Hws & Hop).
    assert (Ht' : str_upper sql = pre ++ (py "DATE" ++ ws ++ op) ++ post)
      by (rewrite Ht, <- !app_assoc; reflexivity).
    assert (Hm := not_lower_segment sql pre _ post Ht').
    exists (rseq [rlit (py "date"); RRepeat ASpace 0 true; rlit op]), pre,
           (py "DATE" ++ ws ++ op), post.
    cbn [comparison_ops In] in Hop.
    split.
    + cbn [date_patterns In].
      destruct Hop as [<-|[<-|[<-|[<-|[]]]]]; auto 10.
    + split; [exact Ht'|].
      apply date_comparison_pattern; [| |exact Hm|eauto];
        destruct Hop as [<-|[<-|[<-|[<-|[]]]]]; vm_compute; reflexivity.
  - destruct H as (pre & ws1 & ws2 & post & Ht & Hn1 & Hws1 & Hn2 & Hws2).
    assert (Ht' : str_upper sql
                  = pre ++ (py "GROUP" ++ ws1 ++ py "BY" ++ ws2 ++ py "DATE") ++ post)
      by (rewrite Ht, <- !app_assoc; reflexivity).
    assert (Hm := not_lower_segment sql pre _ post Ht').
    eexists _, pre, _, post. split; [do 5 right; now left|]. split; [exact Ht'|].
    apply by_date_pattern; [vm_compute; reflexivity|vm_compute; reflexivity|exact Hm|].
    eauto 10.
  - destruct H as (pre & ws1 & ws2 & post & Ht & Hn1 & Hws1 & Hn2 & Hws2).
    assert (Ht' : str_upper sql
                  = pre ++ (py "ORDER" ++ ws1 ++ py "BY" ++ ws2 ++ py "DATE") ++ post)
      by (rewrite Ht, <- !app_assoc; reflexivity).
    assert (Hm := not_lower_segment sql pre _ post Ht').
    eexists _, pre, _, post. split; [do 6 right; now left|]. split; [exact Ht'|].
    apply by_date_pattern; [vm_compute; reflexivity|vm_compute; reflexivity|exact Hm|].
    eauto 10.
Qed.

(** C5. [is_date_range_query] answers [True] exactly when the statement,
    letter case ignored, contains the keyword BETWEEN, or a comparison
    operator ([>=], [<=], [>], [<]) that follows [date], or [GROUP BY date]
    or [ORDER BY date].  It does so for every statement that ends with
    [WHERE date BETWEEN '2025-01-01' AND '2025-01-31'] or with
    [GROUP BY date], and not for
    [SELECT region, SUM(revenue) FROM t GROUP BY region]. *)
Theorem is_date_range_query_rule :
  (forall sql, is_date_range_query sql = true <-> date_range_rule sql)
  /\ (forall sql,
        is_date_range_query
          (sql ++ py " WHERE date BETWEEN '2025-01-01' AND '2025-01-31'") = true)
  /\ (forall sql, is_date_range_query (sql ++ py " GROUP BY date") = true)
  /\ is_date_range_query (py "SELECT region, SUM(revenue) FROM t GROUP BY region")
     = false.
Proof.
  split; [|split; [|split]].
  - intros sql. split; [apply date_range_rule_sound|apply date_range_rule_complete].
  - intros sql. apply date_range_rule_complete. left.
    exists (str_upper sql ++ py " WHERE DATE "), (py " '2025-01-01' AND '2025-01-31'").
    rewrite str_upper_app. split; [|split].
    + rewrite <- app_assoc. f_equal; vm_compute; reflexivity.
    + rewrite last_app. vm_compute. reflexivity.
    + vm_compute. reflexivity.
  - intros sql. apply date_range_rule_complete. right; right; left.
    exists (str_upper sql ++ py " "), (py " "), (py " "), [].
    rewrite str_upper_app. split; [|repeat split].
    + rewrite <- app_assoc. f_equal; vm_compute; reflexivity.
    + discriminate.
    + repeat constructor.
    + discriminate.
    + repeat constructor.
  - vm_compute. reflexivity.
Qed.

(** ** The search for the SELECT statement *)

Lemma search_from_found (fl : re_flags) (r : regex) (s : pystr) :
  forall before pre m post,
    search_from fl r before s = Some (pre, m, post) ->
    match_at fl r (last pre) (m ++ post) = Some post.
Proof.
  induction s as [|c s IH]; intros before pre m post H;
    rewrite search_from_unfold in H;
    destruct (match_at fl r (head before) _) as [rest|] eqn:E.
  - injection H as <- <- <-.
    destruct (match_at_sound _ _ _ _ _ E) as (m & Hs & Hm).
    symmetry in Hs. apply app_eq_nil in Hs as [-> ->].
    now rewrite last_rev_head.
  - discriminate.
  - injection H as <- <- <-.
    destruct (match_at_sound _ _ _ _ _ E) as (m & Hs & Hm).
    assert (Ht : take (length (c :: s) - length rest) (c :: s) = m)
      by (rewrite Hs, length_app_minus; apply take_app_length).
    change (S (length s)) with (length (c :: s)). rewrite Ht.
    now rewrite last_rev_head, <- Hs.
  - now apply (IH (c :: before)).
Qed.

Lemma ci_class_sound (a c : N) (dotall : bool) :
  sre_iscased a = true ->
  atom_match (ReFlags true dotall) (ALit a) c = true ->
  In c (ci_class a).
Proof.
  unfold atom_match, ci_class. cbn [IGNORECASE andb]. intros -> H.
  apply existsb_exists in H as (l & Hin & Hl). apply N.eqb_eq in Hl.
  apply in_flat_map. exists l. split; [exact Hin|].
  unfold tolower in Hl.
  destruct (run_lookup lower_table c) as [y|] eqn:Er; cbn [default] in Hl; unfold id in Hl.
  - subst y. right. now apply run_lookup_preimage.
  - now left.
Qed.

(** The semicolon that ends a lazy repetition of [.] is the first one
    that leaves it long enough. *)
Lemma lazy_dot_semicolon (s : pystr) :
  forall n prev rest,
    repeat_lazy select_flags ADot
      (fun p s' => rmatch select_flags (RAtom (ALit (ch ";"))) p s' (fun _ r => Some r))
      n prev s = Some rest ->
    exists body,
      s = body ++ ch ";" :: rest /\ (n <= length body)%nat
      /\ forall body' rest',
           s = body' ++ ch ";" :: rest' -> (n <= length body')%nat ->
           (length body <= length body')%nat.
Proof.
  assert (Hsemi : forall c, atom_match select_flags (ALit (ch ";")) c = true <-> c = ch ";").
  { intros c. unfold atom_match.
    replace (IGNORECASE select_flags && sre_iscased (ch ";")) with false
      by (vm_compute; reflexivity).
    apply N.eqb_eq. }
  induction s as [|c s IH]; intros n prev rest H.
  - destruct n; cbn in H; discriminate.
  - destruct n as [|n].
    + cbn [repeat_lazy rmatch] in H.
      destruct (atom_match select_flags (ALit (ch ";")) c) eqn:Ec.
      * injection H as <-. apply Hsemi in Ec. subst c.
        exists []. split; [reflexivity|]. split; [cbn; lia|]. intros; cbn; lia.
      * cbn [atom_match select_flags DOTALL orb] in H.
        destruct (IH _ _ _ H) as (body & -> & _ & Hmin).
        exists (c :: body). split; [reflexivity|]. split; [lia|].
        intros body' rest' Hs _. destruct body' as [|d body'].
        -- assert (Hc : c = ch ";") by (cbn [app] in Hs; congruence).
           apply Hsemi in Hc. congruence.
        -- injection Hs as _ Hs. cbn [length].
           apply le_n_S. apply (Hmin body' rest' Hs). lia.
    + cbn [repeat_lazy atom_match select_flags DOTALL orb] in H.
      destruct (IH _ _ _ H) as (body & -> & Hn & Hmin).
      exists (c :: body). split; [reflexivity|]. split; [cbn; lia|].
      intros body' rest' Hs Hl. destruct body' as [|d body']; [cbn in Hl; lia|].
      injection Hs as _ Hs. cbn [length]. cbn [length] in Hl.
      apply le_n_S. apply (Hmin body' rest' Hs). lia.
Qed.

(** The shape of a match of the pattern: the letters of SELECT in any
    case, a character that is no word character, any text, a semicolon. *)
Lemma select_shape (prev : option N) (m rest : pystr) :
  matches select_flags select_re prev m rest
  <-> exists w x body,
        m = w ++ x :: body ++ [ch ";"]
        /\ Forall2 (fun a c => atom_match select_flags (ALit a) c = true) (py "SELECT") w
        /\ at_boundary (last_char prev w) (x :: body ++ ch ";" :: rest) = true.
Proof.
  unfold select_re. cbn [matches]. split.
  - intros (w & m2 & -> & Hw & m3 & m4 & -> & [-> Hb] & m5 & m6 & -> & [Hl Hf] & c & -> & Hc).
    apply matches_rlit in Hw.
    assert (c = ch ";") as ->.
    { unfold atom_match in Hc.
      replace (IGNORECASE select_flags && sre_iscased (ch ";")) with false in Hc
        by (vm_compute; reflexivity).
      now apply N.eqb_eq in Hc. }
    destruct m5 as [|x body]; [cbn in Hl; lia|].
    exists w, x, body. cbn [app] in *. rewrite <- !app_assoc in Hb. cbn [app] in Hb.
    split; [reflexivity|]. split; [exact Hw|exact Hb].
  - intros (w & x & body & -> & Hw & Hb).
    exists w, (x :: body ++ [ch ";"]). split; [reflexivity|].
    split; [now apply matches_rlit|].
    exists [], (x :: body ++ [ch ";"]). split; [reflexivity|]. split.
    + split; [reflexivity|]. cbn [app]. rewrite <- app_assoc. exact Hb.
    + exists (x :: body), [ch ";"]. split; [reflexivity|]. split.
      * split; [cbn; lia|]. apply List.Forall_forall. intros; reflexivity.
      * exists (ch ";"). split; [reflexivity|]. vm_compute. reflexivity.
Qed.

Lemma Forall2_same_length_prefix {A B} (P : A -> B -> Prop) (l : list A)
    (w w' r r' : list B) :
  Forall2 P l w -> Forall2 P l w' -> w ++ r = w' ++ r' -> w = w' /\ r = r'.
Proof.
  intros H H' E. apply Forall2_length in H, H'.
  apply app_inj_1 in E; [exact E|congruence].
Qed.

(** The match found at a position is the shortest one there. *)
Lemma select_shortest (prev : option N) (s rest : pystr) :
  match_at select_flags select_re prev s = Some rest ->
  forall m' rest',
    s = m' ++ rest' -> matches select_flags select_re prev m' rest' ->
    (length rest' <= length rest)%nat.
Proof.
  unfold match_at, select_re. cbn [rmatch]. intros H m' rest' Hs Hm'.
  destruct (rmatch_sound select_flags (rlit (py "SELECT")) _ _ _ _ H)
    as (w & rest1 & -> & Hw & Hk).
  apply matches_rlit in Hw.
  destruct (at_boundary (last_char prev w) rest1); [|discriminate].
  apply lazy_dot_semicolon in Hk as (body & -> & Hn & Hmin).
  apply select_shape in Hm' as (w' & x' & body' & -> & Hw' & _).
  rewrite <- app_assoc in Hs. cbn [app] in Hs. rewrite <- app_assoc in Hs. cbn [app] in Hs.
  change (x' :: body' ++ ch ";" :: rest') with ((x' :: body') ++ ch ";" :: rest') in Hs.
  destruct (Forall2_same_length_prefix _ _ _ _ _ _ Hw Hw' Hs) as [_ Hr].
  specialize (Hmin (x' :: body') rest' Hr). cbn [length] in Hmin.
  apply (f_equal (@length N)) in Hr. rewrite !length_app in Hr. cbn [length] in Hr.
  assert (length body <= S (length body'))%nat by (apply Hmin; lia). lia.
Qed.

Lemma prefix_same_length {A} (a b c d : list A) :
  a ++ b = c ++ d -> length a = length c -> a = c /\ b = d.
Proof. intros E L. now apply app_inj_1. Qed.

(** [re.search] returns the first occurrence of the statement pattern. *)
Lemma re_search_select (t pre m post : pystr) :
  re_search select_flags select_re t = Some (pre, m, post)
  <-> first_occurrence select_flags select_re t pre m post.
Proof.
  split.
  - intros H. destruct (re_search_leftmost _ _ _ _ _ _ H) as [Ho Hleft].
    split; [exact Ho|]. intros pre' m' post' Ho'. split; [now apply (Hleft pre' m' post')|].
    intros Hlen. destruct Ho as [Ht Hm], Ho' as [Ht' Hm'].
    assert (E : pre ++ m ++ post = pre' ++ m' ++ post') by congruence.
    apply prefix_same_length in E as [<- E]; [|congruence].
    apply search_from_found in H.
    pose proof (select_shortest _ _ _ H m' post' E Hm') as Hs.
    apply (f_equal (@length N)) in E. rewrite !length_app in E. lia.
  - intros [Ho Hmin].
    assert (Hsome : is_Some (re_search select_flags select_re t))
      by (apply re_search_is_Some; eauto).
    destruct Hsome as [[[pre0 m0] post0] H0]. rewrite H0.
    destruct (re_search_leftmost _ _ _ _ _ _ H0) as [Ho0 Hleft].
    destruct (Hmin _ _ _ Ho0) as [Hle Hlen]. specialize (Hleft _ _ _ Ho).
    assert (Hpre : length pre0 = length pre) by lia.
    destruct Ho as [Ht Hm], Ho0 as [Ht0 Hm0].
    assert (E : pre0 ++ m0 ++ post0 = pre ++ m ++ post) by congruence.
    apply prefix_same_length in E as [-> E]; [|exact Hpre].
    apply search_from_found in H0.
    pose proof (select_shortest _ _ _ H0 m post E Hm) as Hs.
    specialize (Hlen eq_refl).
    assert (Hl : length m0 = length m).
    { apply (f_equal (@length N)) in E. rewrite !length_app in E. lia. }
    apply prefix_same_length in E as [-> ->]; [reflexivity|exact Hl].
Qed.

(** ** From the completion to the statement *)

Lemma get_client_ok (e : env) (st : state) :
  client_set st = true \/ (exists c tok, hf_token e = Some (c :: tok)) ->
  exists st', _get_client e st = (Ok tt, st').
Proof.
  intros H. unfold _get_client. destruct (client_set st); [eauto|].
  destruct H as [H|(c & tok & H)]; [discriminate|]. rewrite H. run. eauto.
Qed.

Lemma question_to_sql_result (e : env) (question raw : pystr) (st : state) :
  client_set st = true \/ (exists c tok, hf_token e = Some (c :: tok)) ->
  env_completion e SYSTEM_PROMPT (HUMAN_TEMPLATE question) = Ok (Some raw) ->
  fst (question_to_sql e question st) = check_output (Some raw).
Proof.
  intros Hc He. unfold question_to_sql. unfold bind at 1.
  destruct (get_client_ok e st Hc) as [st' ->].
  run. rewrite He. run. now destruct (check_output (Some raw)).
Qed.

Lemma clean_sql_found (raw pre m post : pystr) :
  re_search select_flags select_re (strip_fences raw) = Some (pre, m, post) ->
  _clean_sql raw = str_strip m.
Proof. intros H. unfold _clean_sql. cbv zeta. fold select_flags. now rewrite H. Qed.

Lemma clean_sql_not_found (raw : pystr) :
  re_search select_flags select_re (strip_fences raw) = None ->
  _clean_sql raw = str_strip (strip_fences raw).
Proof. intros H. unfold _clean_sql. cbv zeta. fold select_flags. now rewrite H. Qed.

(** The characters that the letters of SELECT match when case is ignored:
    the letter in either case and, for S, the long s (U+017F). *)
Lemma select_word_classes (w : pystr) :
  Forall2 (fun a c => atom_match select_flags (ALit a) c = true) (py "SELECT") w ->
  exists c0 c1 c2 c3 c4 c5,
    w = [c0; c1; c2; c3; c4; c5]
    /\ In c0 [0x73; 0x53; 0x17F] /\ In c1 [0x65; 0x45] /\ In c2 [0x6C; 0x4C]
    /\ In c3 [0x65; 0x45] /\ In c4 [0x63; 0x43] /\ In c5 [0x74; 0x54].
Proof.
  change (py "SELECT") with [0x53; 0x45; 0x4C; 0x45; 0x43; 0x54].
  intros H.
  inversion H as [|? c0 ? w0 H0 Hw0]; subst; clear H.
  inversion Hw0 as [|? c1 ? w1 H1 Hw1]; subst; clear Hw0.
  inversion Hw1 as [|? c2 ? w2 H2 Hw2]; subst; clear Hw1.
  inversion Hw2 as [|? c3 ? w3 H3 Hw3]; subst; clear Hw2.
  inversion Hw3 as [|? c4 ? w4 H4 Hw4]; subst; clear Hw3.
  inversion Hw4 as [|? c5 ? w5 H5 Hw5]; subst; clear Hw4.
  inversion Hw5; subst; clear Hw5.
  exists c0, c1, c2, c3, c4, c5. split; [reflexivity|].
  apply ci_class_sound in H0, H1, H2, H3, H4, H5; try (vm_compute; reflexivity).
  repeat split; assumption.
Qed.

Lemma do_lower_letters (w ls : pystr) :
  Forall2 (fun c l => (c =? 0x3A3) = false /\ lower_full c = [l]) w ls ->
  forall before tail, startswith (do_lower before (w ++ tail)) ls = true.
Proof.
  induction 1 as [|c l w ls [Hs Hl] _ IH]; intros before tail;
    [now destruct (do_lower before ([] ++ tail))|].
  cbn [app do_lower]. rewrite Hs, Hl. cbn [app startswith].
  now rewrite N.eqb_refl, IH.
Qed.

Lemma lowers_to_sigma (c l u : N) :
  (l =? 0x3A3) = false -> (u =? 0x3A3) = false -> In c [l; u] -> (c =? 0x3A3) = false.
Proof. intros Hl Hu [<-|[<-|[]]]; assumption. Qed.

Lemma lowers_to_full (c l u : N) :
  lower_full l = [l] -> lower_full u = [l] -> In c [l; u] -> lower_full c = [l].
Proof. intros Hl Hu [<-|[<-|[]]]; assumption. Qed.

Lemma lower_select_prefix (c0 c1 c2 c3 c4 c5 : N) (tail : pystr) :
  In c0 [0x73; 0x53] -> In c1 [0x65; 0x45] -> In c2 [0x6C; 0x4C] ->
  In c3 [0x65; 0x45] -> In c4 [0x63; 0x43] -> In c5 [0x74; 0x54] ->
  startswith (str_lower (c0 :: c1 :: c2 :: c3 :: c4 :: c5 :: tail)) (py "select") = true.
Proof.
  intros H0 H1 H2 H3 H4 H5.
  change (py "select") with [0x73; 0x65; 0x6C; 0x65; 0x63; 0x74].
  apply (do_lower_letters [c0; c1; c2; c3; c4; c5]).
  repeat constructor;
    match goal with
    | H : In ?c _ |- (?c =? _) = false => revert H; apply lowers_to_sigma
    | H : In ?c _ |- lower_full ?c = _ => revert H; apply lowers_to_full
    end; vm_compute; reflexivity.
Qed.

Lemma long_s_prefix (tail : pystr) :
  startswith (str_lower (0x17F :: tail)) (py "select") = false.
Proof.
  unfold str_lower. cbn [do_lower].
  replace (0x17F =? 0x3A3) with false by (vm_compute; reflexivity).
  replace (lower_full 0x17F) with [0x17F] by (vm_compute; reflexivity).
  change (py "select") with [0x73; 0x65; 0x6C; 0x65; 0x63; 0x74].
  reflexivity.
Qed.

(** A match of the pattern has no white space at its ends. *)
Lemma select_match_stripped (prev : option N) (m rest : pystr) :
  matches select_flags select_re prev m rest -> str_strip m = m.
Proof.
  intros H. apply select_shape in H as (w & x & body & -> & Hw & _).
  apply select_word_classes in Hw
    as (c0 & c1 & c2 & c3 & c4 & c5 & -> & H0 & _).
  change ([c0; c1; c2; c3; c4; c5] ++ x :: body ++ [ch ";"])
    with (c0 :: (c1 :: c2 :: c3 :: c4 :: c5 :: x :: body) ++ [ch ";"]).
  apply str_strip_id; [|vm_compute; reflexivity].
  destruct H0 as [<-|[<-|[<-|[]]]]; vm_compute; reflexivity.
Qed.

Lemma select_match_validated (prev : option N) (m rest : pystr) :
  matches select_flags select_re prev m rest ->
  startswith (str_lower m) (py "select") = negb (bool_decide (head m = Some 0x17F)).
Proof.
  intros H. apply select_shape in H as (w & x & body & -> & Hw & _).
  apply select_word_classes in Hw
    as (c0 & c1 & c2 & c3 & c4 & c5 & -> & H0 & H1 & H2 & H3 & H4 & H5).
  cbn [app head].
  destruct H0 as [<-|[<-|[<-|[]]]].
  - rewrite (lower_select_prefix 0x73 c1 c2 c3 c4 c5 _ ltac:(now left) H1 H2 H3 H4 H5).
    reflexivity.
  - rewrite (lower_select_prefix 0x53 c1 c2 c3 c4 c5 _
               ltac:(right; now left) H1 H2 H3 H4 H5).
    reflexivity.
  - now rewrite long_s_prefix.
Qed.

(** C1, as amended.  Let [t] be the completion without its code fences.
    When [t] contains a match of [SELECT ... ;], [question_to_sql] returns
    the first match, trimmed, unless that match starts with the long s
    (U+017F), which the pattern takes for an S and lowercasing does not
    turn into [s]: then it raises the error that carries the raw
    completion.  When [t] contains no match and, trimmed, does not start
    with [select] in any letter case, it raises that error too. *)
Theorem question_to_sql_extracts (e : env) (question raw : pystr) (st : state) :
  client_set st = true \/ (exists c tok, hf_token e = Some (c :: tok)) ->
  env_completion e SYSTEM_PROMPT (HUMAN_TEMPLATE question) = Ok (Some raw) ->
  (forall pre m post,
     first_occurrence select_flags select_re (strip_fences raw) pre m post ->
     (head m <> Some 0x17F -> fst (question_to_sql e question st) = Ok (str_strip m))
     /\ (head m = Some 0x17F ->
         fst (question_to_sql e question st) = Raise (invalid_output raw)))
  /\ ((forall pre m post, ~ occurs select_flags select_re (strip_fences raw) pre m post) ->
      startswith (str_lower (str_strip (strip_fences raw))) (py "select") = false ->
      fst (question_to_sql e question st) = Raise (invalid_output raw)).
Proof.
  intros Hc He. rewrite (question_to_sql_result e question raw st Hc He).
  unfold check_output. split.
  - intros pre m post Hfirst.
    pose proof Hfirst as [[_ Hm] _].
    apply re_search_select in Hfirst. rewrite (clean_sql_found _ _ _ _ Hfirst).
    rewrite (select_match_stripped _ _ _ Hm), (select_match_validated _ _ _ Hm).
    split; intros Hh.
    + now rewrite bool_decide_eq_false_2.
    + now rewrite bool_decide_eq_true_2.
  - intros Hnone Hstart.
    assert (Hs : re_search select_flags select_re (strip_fences raw) = None).
    { destruct (re_search select_flags select_re (strip_fences raw))
        as [[[pre m] post]|] eqn:E; [|reflexivity].
      exfalso. assert (Hsome : is_Some (re_search select_flags select_re (strip_fences raw)))
        by (rewrite E; eauto).
      apply re_search_is_Some in Hsome as (pre' & m' & post' & Ho).
      exact (Hnone _ _ _ Ho). }
    rewrite (clean_sql_not_found _ Hs), Hstart. reflexivity.
Qed.

Lemma question_to_sql_extracts_witness :
  fst (question_to_sql
         (world true (py "```sql" ++ NL ++ py "SELECT region FROM public.sales_daily;"
                      ++ NL ++ py "```") (Ok []) None None)
         (py "list the regions") initial)
  = Ok (py "SELECT region FROM public.sales_daily;").
Proof.
  refine (proj1 (proj1 (question_to_sql_extracts
                   (world true (py "```sql" ++ NL
                                ++ py "SELECT region FROM public.sales_daily;"
                                ++ NL ++ py "```") (Ok []) None None)
                   (py "list the regions") _ initial _ eq_refl)
                 NL (py "SELECT region FROM public.sales_daily;") NL _) _).
  - right. vm_compute. eauto.
  - apply re_search_select. vm_compute. reflexivity.
  - vm_compute. discriminate.
Defined.

(** C1, as stated, fails on a completion that spells SELECT with a long s:
    it is the first match of the pattern, and it is rejected. *)
Lemma question_to_sql_counterexample :
  first_occurrence select_flags select_re (strip_fences (py "ſELECT 1;"))
                   [] (py "ſELECT 1;") []
  /\ fst (question_to_sql (world true (py "ſELECT 1;") (Ok []) None None)
            (py "how many rows") initial)
     = Raise (invalid_output (py "ſELECT 1;")).
Proof.
  split.
  - apply re_search_select. vm_compute. reflexivity.
  - vm_compute. reflexivity.
Qed.

(** ** Relations kept along a computation *)

Section Respects.
Variable R : state -> state -> Prop.
Hypothesis R_steady : steady R.

Lemma respects_ret {A} (a : A) : respects R (ret a).
Proof. intros st. apply R_steady. Qed.

Lemma respects_raise {A} (e : exn) : respects R (@raise A e).
Proof. intros st. apply R_steady. Qed.

Lemma respects_bind {A B} (m : M A) (k : A -> M B) :
  respects R m -> (forall a, respects R (k a)) -> respects R (bind m k).
Proof.
  intros Hm Hk st. unfold bind. specialize (Hm st).
  destruct (m st) as [[a|e] st1]; cbn [snd] in *; [|exact Hm].
  eapply R_steady; [exact Hm|apply Hk].
Qed.

Lemma respects_try_except {A} (m : M A) (catches : exn_class -> bool)
    (handler : exn -> M A) :
  respects R m -> (forall e, respects R (handler e)) ->
  respects R (try_except m catches handler).
Proof.
  intros Hm Hh st. unfold try_except. specialize (Hm st).
  destruct (m st) as [[a|e] st1]; cbn [snd] in *; [exact Hm|].
  destruct (catches _); [|exact Hm]. eapply R_steady; [exact Hm|apply Hh].
Qed.

Lemma respects_try_finally {A} (m : M A) (fin : M unit) :
  respects R m -> respects R fin -> respects R (try_finally m fin).
Proof.
  intros Hm Hf st. unfold try_finally. specialize (Hm st).
  destruct (m st) as [r st1]. specialize (Hf st1). cbn [snd] in *.
  destruct (fin st1) as [[u|e] st2]; cbn [snd] in *;
    (eapply R_steady; [exact Hm|exact Hf]).
Qed.

Lemma respects_lift {A} (r : result A) : respects R (lift r).
Proof. destruct r; [apply respects_ret|apply respects_raise]. Qed.

Lemma respects_answer (o : option exn) : respects R (answer o).
Proof. destruct o; [apply respects_raise|apply respects_ret]. Qed.

Lemma respects_get_fs : respects R get_fs.
Proof. intros st. apply R_steady. Qed.
End Respects.

Lemma respects_attempt {A} (R : state -> state -> Prop) (m : M A) :
  respects R m -> respects R (attempt m).
Proof. intros Hm st. unfold attempt. specialize (Hm st). now destruct (m st). Qed.

Lemma adds_only_steady (P : event -> bool) : steady (adds_only P).
Proof.
  split.
  - intros st. exists []. now rewrite app_nil_r.
  - intros a b c (e1 & H1 & F1) (e2 & H2 & F2). exists (e1 ++ e2).
    rewrite H2, H1, <- app_assoc, forallb_app, F1, F2. now split.
Qed.

Lemma adds_only_weaken (P Q : event -> bool) (st st' : state) :
  (forall ev, P ev = true -> Q ev = true) -> adds_only P st st' -> adds_only Q st st'.
Proof.
  intros H (evs & Ht & F). exists evs. split; [exact Ht|].
  rewrite forallb_forall in *. auto.
Qed.

Lemma adds_only_emit (P : event -> bool) (ev : event) :
  P ev = true -> respects (adds_only P) (emit ev).
Proof.
  intros H st. exists [ev]. split; [reflexivity|].
  cbn [forallb]. now rewrite H.
Qed.

Lemma adds_only_silent {A} (P : event -> bool) (m : M A) :
  (forall st, trace (snd (m st)) = trace st) -> respects (adds_only P) m.
Proof. intros H st. exists []. now rewrite H, app_nil_r. Qed.

Lemma same_files_steady : steady same_files.
Proof.
  split; [reflexivity|]. unfold same_files. intros a b c H1 H2. now rewrite H2.
Qed.

Lemma same_files_but_tmp_steady (e : env) : steady (same_files_but_tmp e).
Proof.
  split; [now intros st q _|].
  intros a b c H1 H2 q Hq. rewrite (H2 q Hq). now apply H1.
Qed.

Lemma same_files_emit (ev : event) : respects same_files (emit ev).
Proof. now intros st. Qed.

Lemma same_files_but_tmp_emit (e : env) (ev : event) :
  respects (same_files_but_tmp e) (emit ev).
Proof. now intros st q _. Qed.

Lemma same_files_weaken (e : env) (st st' : state) :
  same_files st st' -> same_files_but_tmp e st st'.
Proof. intros H q _. now rewrite H. Qed.

(** The rules that follow the shape of a computation. *)
Ltac by_shape steadiness :=
  repeat
    (intros;
     lazymatch goal with
     | |- respects _ (ret _) => apply respects_ret, steadiness
     | |- respects _ (raise _) => apply respects_raise, steadiness
     | |- respects _ (lift _) => apply respects_lift, steadiness
     | |- respects _ (answer _) => apply respects_answer, steadiness
     | |- respects _ get_fs => apply respects_get_fs, steadiness
     | |- respects _ (bind _ _) => apply respects_bind; [apply steadiness| |]
     | |- respects _ (attempt _) => apply respects_attempt
     | |- respects _ (try_except _ _ _) =>
       apply respects_try_except; [apply steadiness| |]
     | |- respects _ (try_finally _ _) =>
       apply respects_try_finally; [apply steadiness| |]
     | |- respects _ (logger _ _) => unfold logger
     | |- respects _ (respond _) => unfold respond
     | |- respects (adds_only _) (emit _) => apply adds_only_emit; reflexivity
     | |- respects same_files (emit _) => apply same_files_emit
     | |- respects (same_files_but_tmp _) (emit _) => apply same_files_but_tmp_emit
     | |- respects _ (match ?x with _ => _ end) => destruct x
     | |- respects _ (let _ := _ in _) => cbv zeta
     end);
  intros.

(** ** What each stage calls *)

Lemma get_client_calls (e : env) : respects (adds_only is_llm_call) (_get_client e).
Proof.
  intros st. unfold _get_client.
  destruct (client_set st); [apply adds_only_steady|].
  destruct (hf_token e) as [[|c tok]|]; try apply adds_only_steady.
  now exists [EClientInit].
Qed.

Lemma question_to_sql_calls (e : env) (question : pystr) :
  respects (adds_only is_llm_call) (question_to_sql e question).
Proof.
  unfold question_to_sql. by_shape (adds_only_steady is_llm_call).
  apply get_client_calls.
Qed.

Lemma get_pool_calls (e : env) (sql : pystr) :
  respects (adds_only (is_store_call sql)) (_get_pool e).
Proof.
  intros st. unfold _get_pool.
  destruct (pool_set st); [apply adds_only_steady|].
  revert st. change (respects (adds_only (is_store_call sql))
    (try_except (emit EPoolInit;; answer (env_connect e);; set_pool) is_Psycopg2Error
       (fun exc => raise (Exn ConnectionError
                            (py "Could not connect to PostgreSQL: " ++ exn_str exc))))).
  by_shape (adds_only_steady (is_store_call sql)).
  now apply adds_only_silent.
Qed.

Lemma is_store_call_execute (sql : pystr) : is_store_call sql (EExecute sql) = true.
Proof. now apply bool_decide_eq_true_2. Qed.

Lemma execute_query_calls (e : env) (sql : pystr) :
  respects (adds_only (is_store_call sql)) (execute_query e sql).
Proof.
  unfold execute_query. by_shape (adds_only_steady (is_store_call sql));
    try apply get_pool_calls.
  apply adds_only_emit, is_store_call_execute.
Qed.

Lemma named_temporary_file_calls (e : env) :
  respects (adds_only is_chart_call) (NamedTemporaryFile e).
Proof.
  unfold NamedTemporaryFile. by_shape (adds_only_steady is_chart_call).
  now apply adds_only_silent.
Qed.

Lemma generate_chart_calls (e : env) (columns : list pystr) (rows : list row)
    (question : pystr) :
  respects (adds_only is_chart_call) (generate_chart e columns rows question).
Proof.
  unfold generate_chart. by_shape (adds_only_steady is_chart_call).
  apply named_temporary_file_calls.
Qed.

Lemma cleanup_chart_calls (path : pystr) :
  respects (adds_only is_chart_call) (cleanup_chart path).
Proof.
  unfold cleanup_chart, os_path_exists, os_remove.
  by_shape (adds_only_steady is_chart_call); now apply adds_only_silent.
Qed.

Lemma chart_stage_calls (e : env) (j : job) (columns : list pystr) (rows : list row) :
  respects (adds_only is_chart_call) (chart_stage e j columns rows).
Proof.
  unfold chart_stage, files_upload_v2. by_shape (adds_only_steady is_chart_call);
    solve [apply generate_chart_calls | apply cleanup_chart_calls].
Qed.

(** ** What each stage leaves of the file system *)

Lemma question_to_sql_files (e : env) (question : pystr) :
  respects same_files (question_to_sql e question).
Proof.
  unfold question_to_sql. by_shape same_files_steady.
  intros st. unfold _get_client.
  destruct (client_set st); [reflexivity|].
  now destruct (hf_token e) as [[|c tok]|].
Qed.

Lemma get_pool_files (e : env) : respects same_files (_get_pool e).
Proof.
  intros st. unfold _get_pool.
  destruct (pool_set st); [reflexivity|]. run.
  destruct (env_connect e) as [exc|]; [|reflexivity]. run.
  now destruct (is_Psycopg2Error _).
Qed.

Lemma execute_query_files (e : env) (sql : pystr) :
  respects same_files (execute_query e sql).
Proof. unfold execute_query. by_shape same_files_steady; apply get_pool_files. Qed.

(** ** Computations that raise nothing *)

Lemma never_raises_ret {A} (a : A) : never_raises (ret a).
Proof. intros st. now exists a. Qed.

Lemma never_raises_emit (ev : event) : never_raises (emit ev).
Proof. intros st. now exists tt. Qed.

Lemma never_raises_bind {A B} (m : M A) (k : A -> M B) :
  never_raises m -> (forall a, never_raises (k a)) -> never_raises (bind m k).
Proof.
  intros Hm Hk st. unfold bind. destruct (Hm st) as [a Ha].
  destruct (m st) as [r st1]. cbn [fst] in Ha. subst r. apply Hk.
Qed.

Lemma never_raises_attempt {A} (m : M A) : never_raises (attempt m).
Proof. intros st. unfold attempt. destruct (m st) as [r st1]. now exists r. Qed.

Lemma never_raises_try_except {A} (m : M A) (handler : exn -> M A) :
  (forall e, never_raises (handler e)) -> never_raises (try_except m Exception handler).
Proof.
  intros Hh st. unfold try_except. destruct (m st) as [[a|e] st1]; [now exists a|].
  apply Hh.
Qed.

Lemma never_raises_try_finally {A} (m : M A) (fin : M unit) :
  never_raises m -> never_raises fin -> never_raises (try_finally m fin).
Proof.
  intros Hm Hf st. unfold try_finally. destruct (Hm st) as [a Ha].
  destruct (m st) as [r st1]. cbn [fst] in Ha. subst r.
  destruct (Hf st1) as [u Hu]. destruct (fin st1) as [r2 st2].
  cbn [fst] in Hu. subst r2. now exists a.
Qed.

Lemma cleanup_chart_never_raises (path : pystr) : never_raises (cleanup_chart path).
Proof.
  intros st. exists tt. destruct path as [|c p]; [reflexivity|].
  destruct (path_ok (c :: p)) eqn:Hok.
  - destruct (fs st !! (c :: p)) as [node|] eqn:H.
    + now rewrite (cleanup_chart_present _ node st).
    + now rewrite cleanup_chart_absent.
  - now rewrite cleanup_chart_unencodable.
Qed.

Ltac raises_nothing :=
  repeat
    (intros;
     lazymatch goal with
     | |- never_raises (ret _) => apply never_raises_ret
     | |- never_raises (emit _) => apply never_raises_emit
     | |- never_raises (logger _ _) => apply never_raises_emit
     | |- never_raises (respond _) => apply never_raises_emit
     | |- never_raises (bind _ _) => apply never_raises_bind
     | |- never_raises (attempt _) => apply never_raises_attempt
     | |- never_raises (try_except _ Exception _) => apply never_raises_try_except
     | |- never_raises (try_finally _ _) => apply never_raises_try_finally
     | |- never_raises (cleanup_chart _) => apply cleanup_chart_never_raises
     | |- never_raises (match ?x with _ => _ end) => destruct x
     | |- never_raises (let _ := _ in _) => cbv zeta
     end);
  intros.

Lemma chart_stage_never_raises (e : env) (j : job) (columns : list pystr)
    (rows : list row) :
  never_raises (chart_stage e j columns rows).
Proof. unfold chart_stage. raises_nothing. Qed.

(** X5. [process] raises nothing, whatever the completion provider, the
    store, matplotlib, the file system and the upload answer: every
    exception of a stage is caught in [process] itself (the calls to the
    logger and to [respond] are taken not to raise). *)
Theorem process_never_raises (e : env) (j : job) (st : state) :
  fst (process e j st) = Ok tt.
Proof.
  assert (H : never_raises (process e j)).
  { unfold process. raises_nothing. apply chart_stage_never_raises. }
  destruct (H st) as [[] Ha]. exact Ha.
Qed.

(** ** The shape of a run of [process] *)

Lemma process_cases (e : env) (j : job) (st : state) :
  (exists exc st1,
     question_to_sql e (job_question j) st = (Raise exc, st1)
     /\ process e j st = (Ok tt, after st1 (generation_failure_calls exc)))
  \/ (exists sql st1 exc st2,
        question_to_sql e (job_question j) st = (Ok sql, st1)
        /\ execute_query e sql (after st1 [ELog INFO (py "Generated SQL: " ++ sql)])
           = (Raise exc, st2)
        /\ process e j st = (Ok tt, after st2 (execution_failure_calls sql exc)))
  \/ (exists sql st1 columns rows total st2,
        question_to_sql e (job_question j) st = (Ok sql, st1)
        /\ execute_query e sql (after st1 [ELog INFO (py "Generated SQL: " ++ sql)])
           = (Ok (columns, rows, total), st2)
        /\ process e j st
           = (if is_date_range_query sql && negb (bool_decide (rows = []))
              then chart_stage e j columns rows
              else ret tt)
               (after st2 (delivery_calls j sql columns rows total))).
Proof.
  unfold process. run.
  destruct (question_to_sql e (job_question j) st) as [[sql|exc] st1] eqn:H1; run.
  - fold (after st1 [ELog INFO (py "Generated SQL: " ++ sql)]).
    destruct (execute_query e sql (after st1 [ELog INFO (py "Generated SQL: " ++ sql)]))
      as [[[[columns rows] total]|exc] st2] eqn:H2; run.
    + right. right. exists sql, st1, columns, rows, total, st2.
      split; [reflexivity|]. split; [exact H2|].
      unfold after, delivery_calls. now rewrite <- !app_assoc.
    + right. left. exists sql, st1, exc, st2.
      split; [reflexivity|]. split; [exact H2|].
      unfold after, execution_failure_calls. now rewrite <- !app_assoc.
  - left. exists exc, st1. split; [reflexivity|].
    unfold after, generation_failure_calls. now rewrite <- !app_assoc.
Qed.

(** A statement that [question_to_sql] returns has passed its check. *)
Lemma question_to_sql_validated (e : env) (question sql : pystr) (st : state) :
  fst (question_to_sql e question st) = Ok sql ->
  exists raw,
    env_completion e SYSTEM_PROMPT (HUMAN_TEMPLATE question) = Ok (Some raw)
    /\ sql = _clean_sql raw
    /\ startswith (str_lower sql) (py "select") = true.
Proof.
  unfold question_to_sql, _get_client. run.
  destruct (client_set st); run;
    [|destruct (hf_token e) as [[|c tok]|]; run; try discriminate];
    (destruct (env_completion e SYSTEM_PROMPT (HUMAN_TEMPLATE question))
       as [[raw|]|exc]; run; try discriminate;
     unfold check_output;
     destruct (startswith (str_lower (_clean_sql raw)) (py "select")) eqn:Hs;
     run; try discriminate;
     intros [= <-]; exists raw; now repeat split).
Qed.

Lemma execute_query_calls_once (e : env) (sql : pystr) (st : state) :
  exists evs,
    trace (snd (execute_query e sql st)) = trace st ++ evs
    /\ forallb (is_store_call sql) evs = true
    /\ (length (List.filter is_execute evs) <= 1)%nat.
Proof.
  unfold execute_query, _get_pool. run.
  destruct (pool_set st) eqn:Hp; run;
    [|destruct (env_connect e) as [exc|]; run;
      [destruct (is_Psycopg2Error (exn_class_of exc)); run|]];
    (destruct (env_getconn e) as [exg|]; run;
     [|destruct (env_execute e sql) as [all_rows|exe]; run;
       [destruct (env_rollback e) as [exr|]; run|];
       rewrite ?Hp; run;
       destruct (env_putconn e) as [exp|]; run]);
    eexists; (split; [rewrite <- ?app_assoc; cbn [app]; reflexivity|]);
    cbn [forallb is_store_call List.filter is_execute andb length];
    rewrite ?bool_decide_eq_true_2 by reflexivity;
    (split; [reflexivity|lia]).
Qed.

Lemma filter_none {A} (P Q : A -> bool) (l : list A) :
  (forall x, P x = true -> Q x = false) -> forallb P l = true -> List.filter Q l = [].
Proof.
  intros H. induction l as [|a l IH]; [reflexivity|].
  cbn [forallb List.filter]. intros [Ha Hl]%andb_true_iff.
  now rewrite (H a Ha), IH.
Qed.


(** The calls of a run of [process], stage by stage. *)
Lemma process_calls (e : env) (j : job) (st : state) :
  exists evs evs1,
    trace (snd (process e j st)) = trace st ++ evs
    /\ forallb is_llm_call evs1 = true
    /\ ((exists exc, evs = evs1 ++ generation_failure_calls exc)
        \/ exists sql evs2,
             startswith (str_lower sql) (py "select") = true
             /\ forallb (is_store_call sql) evs2 = true
             /\ (length (List.filter is_execute evs2) <= 1)%nat
             /\ ((exists exc,
                    evs = evs1 ++ [ELog INFO (py "Generated SQL: " ++ sql)] ++ evs2
                          ++ execution_failure_calls sql exc)
                 \/ exists columns rows total evs3,
                      forallb is_chart_call evs3 = true
                      /\ evs = evs1 ++ [ELog INFO (py "Generated SQL: " ++ sql)] ++ evs2
                               ++ delivery_calls j sql columns rows total ++ evs3)).
Proof.
  destruct (question_to_sql_calls e (job_question j) st) as (evs1 & Ht1 & F1).
  destruct (process_cases e j st)
    as [(exc & st1 & H1 & Hp)
       |[(sql & st1 & exc & st2 & H1 & H2 & Hp)
        |(sql & st1 & columns & rows & total & st2 & H1 & H2 & Hp)]];
    rewrite Hp; rewrite H1 in Ht1; cbn [snd] in Ht1.
  - exists (evs1 ++ generation_failure_calls exc), evs1.
    split; [cbn [snd after trace]; now rewrite Ht1, <- app_assoc|].
    split; [exact F1|]. left. now exists exc.
  - destruct (question_to_sql_validated e (job_question j) sql st) as (raw & _ & _ & Hv);
      [now rewrite H1|].
    destruct (execute_query_calls_once e sql
                (after st1 [ELog INFO (py "Generated SQL: " ++ sql)]))
      as (evs2 & Ht2 & F2 & C2).
    rewrite H2 in Ht2. cbn [snd after trace] in Ht2.
    exists (evs1 ++ [ELog INFO (py "Generated SQL: " ++ sql)] ++ evs2
            ++ execution_failure_calls sql exc), evs1.
    split; [cbn [snd after trace]; now rewrite Ht2, Ht1, <- !app_assoc|].
    split; [exact F1|]. right. exists sql, evs2. repeat split; try assumption.
    left. now exists exc.
  - destruct (question_to_sql_validated e (job_question j) sql st) as (raw & _ & _ & Hv);
      [now rewrite H1|].
    destruct (execute_query_calls_once e sql
                (after st1 [ELog INFO (py "Generated SQL: " ++ sql)]))
      as (evs2 & Ht2 & F2 & C2).
    rewrite H2 in Ht2. cbn [snd after trace] in Ht2.
    assert (H3 : exists evs3,
               trace (snd ((if is_date_range_query sql && negb (bool_decide (rows = []))
                            then chart_stage e j columns rows
                            else ret tt)
                             (after st2 (delivery_calls j sql columns rows total))))
               = trace (after st2 (delivery_calls j sql columns rows total)) ++ evs3
               /\ forallb is_chart_call evs3 = true).
    { destruct (is_date_range_query sql && negb (bool_decide (rows = []))).
      - apply chart_stage_calls.
      - exists []. now rewrite app_nil_r. }
    destruct H3 as (evs3 & Ht3 & F3).
    exists (evs1 ++ [ELog INFO (py "Generated SQL: " ++ sql)] ++ evs2
            ++ delivery_calls j sql columns rows total ++ evs3), evs1.
    split; [rewrite Ht3; cbn [after trace]; now rewrite Ht2, Ht1, <- !app_assoc|].
    split; [exact F1|]. right. exists sql, evs2. repeat split; try assumption.
    right. now exists columns, rows, total, evs3.
Qed.

(** X6. In every run of [process] the user is sent exactly one message: the
    failure of the synthesis, the failure of the execution, or the result.
    Whatever happens in the chart stage adds no message. *)
Theorem process_one_response (e : env) (j : job) (st : state) :
  exists evs,
    trace (snd (process e j st)) = trace st ++ evs
    /\ length (List.filter is_response evs) = 1%nat.
Proof.
  destruct (process_calls e j st) as (evs & evs1 & Ht & F1 & H).
  exists evs. split; [exact Ht|].
  assert (Q1 : List.filter is_response evs1 = [])
    by (revert F1; apply filter_none; now intros []).
  destruct H as [[exc ->]|(sql & evs2 & _ & F2 & _ & H)].
  - rewrite List.filter_app, Q1. reflexivity.
  - assert (Q2 : List.filter is_response evs2 = [])
      by (revert F2; apply filter_none; now intros []).
    destruct H as [[exc ->]|(columns & rows & total & evs3 & F3 & ->)].
    + rewrite !List.filter_app, Q1, Q2. reflexivity.
    + assert (Q3 : List.filter is_response evs3 = [])
        by (revert F3; apply filter_none; now intros []).
      rewrite !List.filter_app, Q1, Q2, Q3. reflexivity.
Qed.



(** ** The files that the pipeline touches *)

Lemma named_temporary_file_files (e : env) :
  respects (same_files_but_tmp e) (NamedTemporaryFile e).
Proof.
  intros st q Hq. unfold NamedTemporaryFile. run.
  destruct (env_tmpfile e) as [path|exc]; run; [|reflexivity].
  apply lookup_insert_ne. congruence.
Qed.

Lemma generate_chart_files (e : env) (columns : list pystr) (rows : list row)
    (question : pystr) :
  respects (same_files_but_tmp e) (generate_chart e columns rows question).
Proof.
  unfold generate_chart. by_shape (same_files_but_tmp_steady e).
  apply named_temporary_file_files.
Qed.

(** The path that [generate_chart] returns is the name of the temporary
    file. *)
Lemma generate_chart_path (e : env) (columns : list pystr) (rows : list row)
    (question path : pystr) (st : state) :
  fst (generate_chart e columns rows question st) = Ok (Some path) ->
  env_tmpfile e = Ok path.
Proof.
  unfold generate_chart, NamedTemporaryFile.
  destruct (MATPLOTLIB_AVAILABLE e); run; [|discriminate].
  destruct rows as [|row0 rows]; run; [discriminate|].
  destruct (length columns <? 2)%nat; run; [discriminate|].
  destruct (plottable columns row0) as [|y ys]; run; [discriminate|].
  destruct (env_draw e _); run; [discriminate|].
  destruct (env_tmpfile e) as [tmp|exc]; run; [|discriminate].
  destruct (env_savefig e tmp); run; [discriminate|].
  now intros [= ->].
Qed.

(** [cleanup_chart] touches no other file than the one it is given. *)
Lemma cleanup_chart_local (path q : pystr) (st : state) :
  q <> path -> fs (snd (cleanup_chart path st)) !! q = fs st !! q.
Proof.
  intros Hq. destruct path as [|c p]; [reflexivity|].
  destruct (path_ok (c :: p)) eqn:Hok.
  - destruct (fs st !! (c :: p)) as [node|] eqn:H.
    + assert (Hne : c :: p <> []) by discriminate.
      rewrite (cleanup_chart_present _ node st Hne Hok H). cbn [snd fs].
      destruct node as [[|]|]; try reflexivity.
      apply lookup_delete_ne. congruence.
    + now rewrite cleanup_chart_absent.
  - now rewrite cleanup_chart_unencodable.
Qed.

Lemma chart_stage_files (e : env) (j : job) (columns : list pystr) (rows : list row) :
  respects (same_files_but_tmp e) (chart_stage e j columns rows).
Proof.
  intros st. unfold chart_stage, bind at 1, attempt.
  pose proof (generate_chart_files e columns rows (job_question j) st) as Hg.
  pose proof (generate_chart_path e columns rows (job_question j)) as Hp.
  specialize (fun path => Hp path st).
  destruct (generate_chart e columns rows (job_question j) st) as [[chart_path|exc] st1];
    cbn [fst snd] in *.
  - eapply (same_files_but_tmp_steady e); [exact Hg|]. clear Hg.
    match goal with
    | |- same_files_but_tmp _ ?s (snd (?m ?s)) =>
      revert s; change (respects (same_files_but_tmp e) m)
    end.
    unfold files_upload_v2.
    destruct chart_path as [[|c p]|]; by_shape (same_files_but_tmp_steady e).
    intros st1 q Hq. apply cleanup_chart_local.
    intros ->. apply Hq. now apply Hp.
  - eapply (same_files_but_tmp_steady e); [exact Hg|].
    now intros q _.
Qed.

(** X8. The only file that a run of [process] can create, change or remove
    is the temporary file of the chart: every other path of the file system
    is after the run what it was before. *)
Theorem process_files (e : env) (j : job) (st : state) (q : pystr) :
  env_tmpfile e <> Ok q ->
  fs (snd (process e j st)) !! q = fs st !! q.
Proof.
  revert q. change (same_files_but_tmp e st (snd (process e j st))).
  destruct (process_cases e j st)
    as [(exc & st1 & H1 & Hp)
       |[(sql & st1 & exc & st2 & H1 & H2 & Hp)
        |(sql & st1 & columns & rows & total & st2 & H1 & H2 & Hp)]];
    rewrite Hp;
    pose proof (question_to_sql_files e (job_question j) st) as F1;
    rewrite H1 in F1; cbn [snd] in F1; unfold same_files in F1.
  - apply same_files_weaken. exact F1.
  - pose proof (execute_query_files e sql
                  (after st1 [ELog INFO (py "Generated SQL: " ++ sql)])) as F2.
    rewrite H2 in F2. unfold same_files in F2. cbn [snd after fs] in F2.
    apply same_files_weaken. unfold same_files. cbn [snd after fs]. congruence.
  - pose proof (execute_query_files e sql
                  (after st1 [ELog INFO (py "Generated SQL: " ++ sql)])) as F2.
    rewrite H2 in F2. unfold same_files in F2. cbn [snd after fs] in F2.
    assert (F : same_files st (after st2 (delivery_calls j sql columns rows total)))
      by (unfold same_files; cbn [after fs]; congruence).
    eapply (same_files_but_tmp_steady e); [apply same_files_weaken, F|].
    destruct (is_date_range_query sql && negb (bool_decide (rows = []))).
    + apply chart_stage_files.
    + now intros q _.
Qed.

Lemma process_files_witness :
  fs (snd (process (world true (py "SELECT date, revenue FROM public.sales_daily ORDER BY date;")
                          (Ok [north_row]) None None)
             (Job (py "revenue per day") (Some (py "U1")) (Some (py "C1")))
             (State [] {[py "/etc/passwd" := RegularFile true]} false false)))
    !! py "/etc/passwd"
  = Some (RegularFile true).
Proof.
  rewrite (process_files
             (world true (py "SELECT date, revenue FROM public.sales_daily ORDER BY date;")
                    (Ok [north_row]) None None)
             (Job (py "revenue per day") (Some (py "U1")) (Some (py "C1")))
             (State [] {[py "/etc/passwd" := RegularFile true]} false false)
             (py "/etc/passwd")).
  - apply lookup_singleton_eq.
  - discriminate.
Defined.

(** ** The command handler and the delivery of the result *)

(** X9. Whatever the payload, [handle_ask_data] acknowledges the command
    before anything else and answers it with exactly one message; it calls
    neither the completion provider nor the store nor the file system; and
    it starts the worker thread exactly when the text, stripped, is not
    empty, handing it the stripped text with the user and the channel of
    the payload. *)
Theorem handle_ask_data_dispatch (body : payload) (st : state) :
  let question := str_strip (default [] (body_text body)) in
  fst (handle_ask_data body st)
  = Ok (match question with
        | [] => None
        | _ => Some (Job question (body_user_id body) (body_channel_id body))
        end)
  /\ exists evs,
       snd (handle_ask_data body st) = after st (EAck :: evs)
       /\ forallb is_handler_call evs = true
       /\ length (List.filter is_response evs) = 1%nat
       /\ List.filter is_thread_start evs
          = match question with [] => [] | _ => [EThreadStart] end.
Proof.
  cbv zeta. unfold handle_ask_data, after. run.
  destruct (str_strip (default [] (body_text body))) as [|c q]; run;
    (split; [reflexivity|]); rewrite <- !app_assoc; cbn [app];
    eexists; (split; [reflexivity|]); now repeat split.
Qed.

(** X10. When the statement was synthesised and executed, [process] sends
    the result (the question, the statement and the table formatted from
    what [execute_query] returned) before any work on the chart, and the
    chart stage is entered only for a date-range statement with at least
    one row: otherwise the run ends with the delivery. *)
Theorem process_delivers (e : env) (j : job) (sql : pystr) (columns : list pystr)
    (rows : list row) (total : Z) (st st1 st2 : state) :
  question_to_sql e (job_question j) st = (Ok sql, st1) ->
  execute_query e sql (after st1 [ELog INFO (py "Generated SQL: " ++ sql)])
  = (Ok (columns, rows, total), st2) ->
  exists evs,
    trace (snd (process e j st))
    = trace st2 ++ delivery_calls j sql columns rows total ++ evs
    /\ forallb is_chart_call evs = true
    /\ (is_date_range_query sql = false \/ rows = [] ->
        process e j st = (Ok tt, after st2 (delivery_calls j sql columns rows total))).
Proof.
  intros H1 H2.
  assert (Hp : process e j st
               = (if is_date_range_query sql && negb (bool_decide (rows = []))
                  then chart_stage e j columns rows
                  else ret tt)
                   (after st2 (delivery_calls j sql columns rows total))).
  { unfold process. run. rewrite H1. run.
    fold (after st1 [ELog INFO (py "Generated SQL: " ++ sql)]). rewrite H2. run.
    unfold after, delivery_calls. now rewrite <- !app_assoc. }
  rewrite Hp.
  destruct (is_date_range_query sql && negb (bool_decide (rows = []))) eqn:Hc.
  - destruct (chart_stage_calls e j columns rows
                (after st2 (delivery_calls j sql columns rows total)))
      as (evs & Ht & F).
    exists evs. split; [rewrite Ht; cbn [after trace]; now rewrite <- app_assoc|].
    split; [exact F|].
    intros [Hd| ->].
    + now rewrite Hd in Hc.
    + rewrite bool_decide_eq_true_2 in Hc by reflexivity.
      now rewrite andb_false_r in Hc.
  - exists []. split; [now rewrite app_nil_r|]. now split.
Qed.

Lemma process_delivers_witness :
  exists evs,
    trace (snd (process
                  (world true (py "SELECT region, revenue FROM public.sales_daily;")
                         (Ok [north_row]) None None)
                  (Job (py "revenue by region") (Some (py "U1")) (Some (py "C1")))
                  initial))
    = [EClientInit;
       ECompletion SYSTEM_PROMPT (HUMAN_TEMPLATE (py "revenue by region"));
       ELog INFO (py "Generated SQL: "
                  ++ py "SELECT region, revenue FROM public.sales_daily;");
       EPoolInit; EGetConn;
       EExecute (py "SELECT region, revenue FROM public.sales_daily;");
       ERollback; EPutConn]
      ++ delivery_calls (Job (py "revenue by region") (Some (py "U1")) (Some (py "C1")))
           (py "SELECT region, revenue FROM public.sales_daily;")
           [py "region"; py "revenue"] [north_row] 1
      ++ evs
    /\ forallb is_chart_call evs = true.
Proof.
  destruct (process_delivers
              (world true (py "SELECT region, revenue FROM public.sales_daily;")
                     (Ok [north_row]) None None)
              (Job (py "revenue by region") (Some (py "U1")) (Some (py "C1")))
              (py "SELECT region, revenue FROM public.sales_daily;")
              [py "region"; py "revenue"] [north_row] 1
              initial
              (State [EClientInit;
                      ECompletion SYSTEM_PROMPT (HUMAN_TEMPLATE (py "revenue by region"))]
                     ∅ true false)
              (State [EClientInit;
                      ECompletion SYSTEM_PROMPT (HUMAN_TEMPLATE (py "revenue by region"));
                      ELog INFO (py "Generated SQL: "
                                 ++ py "SELECT region, revenue FROM public.sales_daily;");
                      EPoolInit; EGetConn;
                      EExecute (py "SELECT region, revenue FROM public.sales_daily;");
                      ERollback; EPutConn]
                     ∅ true true))
    as (evs & Ht & F & _).
  - vm_compute. reflexivity.
  - vm_compute. reflexivity.
  - exists evs. split; [exact Ht|exact F].
Defined.

(** ** Texts inside texts *)

Lemma contains_refl (s : pystr) : contains s s.
Proof. exists [], []. cbn [app]. now rewrite app_nil_r. Qed.

Lemma contains_trans (t s u : pystr) : contains t s -> contains s u -> contains t u.
Proof.
  intros (a & b & ->) (c & d & ->). exists (c ++ a), (b ++ d).
  now rewrite <- !app_assoc.
Qed.

Lemma contains_nil (t : pystr) : t <> [] -> ~ contains t [].
Proof.
  intros Ht (pre & post & H). symmetry in H.
  apply app_eq_nil in H as [_ H]. now apply app_eq_nil in H as [H _].
Qed.

Lemma contains_cons (t : pystr) (x : N) (s : pystr) :
  contains t (x :: s) -> (exists post, x :: s = t ++ post) \/ contains t s.
Proof.
  intros ([|p pre] & post & H).
  - left. now exists post.
  - right. injection H as _ ->. now exists pre, post.
Qed.

Lemma contains_tail (t : pystr) (x : N) (s : pystr) : contains t s -> contains t (x :: s).
Proof. intros (pre & post & ->). now exists (x :: pre), post. Qed.

Lemma startswith_prefix (p : pystr) :
  forall s, startswith s p = true <-> exists r, s = p ++ r.
Proof.
  induction p as [|a p IH]; intros s.
  - destruct s; cbn; split; eauto.
  - destruct s as [|b s]; cbn [startswith].
    + split; [discriminate|]. now intros [r H].
    + rewrite andb_true_iff, N.eqb_eq, IH. split.
      * intros [-> [r ->]]. now exists r.
      * intros [r [= -> ->]]. eauto.
Qed.

(** ** Stripping, once more *)

Lemma lstrip_spaces (s : pystr) : exists ws, s = ws ++ lstrip s.
Proof.
  induction s as [|c s [ws IH]]; [now exists []|].
  cbn [lstrip]. destruct (isspace c); [|now exists []].
  exists (c :: ws). cbn [app]. now f_equal.
Qed.

Lemma lstrip_rev_lstrip (s : pystr) :
  exists ws, lstrip s = rev (lstrip (rev (lstrip s))) ++ ws.
Proof.
  destruct (lstrip_spaces (rev (lstrip s))) as [ws Hr].
  exists (rev ws). rewrite <- rev_app_distr, <- Hr. now rewrite rev_involutive.
Qed.

Lemma str_strip_contains (s : pystr) : contains (str_strip s) s.
Proof.
  unfold str_strip, rstrip.
  destruct (lstrip_spaces s) as [ws Hs], (lstrip_rev_lstrip s) as [ws2 Hr].
  exists ws, ws2. now rewrite <- Hr.
Qed.

Lemma str_strip_head (s : pystr) (c : N) (t : pystr) :
  str_strip s = c :: t -> isspace c = false.
Proof.
  unfold str_strip, rstrip. intros H.
  destruct (lstrip_rev_lstrip s) as [ws Hr]. rewrite H in Hr.
  now apply lstrip_head in Hr.
Qed.

Lemma str_strip_last (s : pystr) (d : N) :
  last (str_strip s) = Some d -> isspace d = false.
Proof.
  unfold str_strip, rstrip. rewrite last_rev_head. intros H.
  destruct (lstrip (rev (lstrip s))) as [|x l] eqn:E; [discriminate|].
  injection H as ->. now apply lstrip_head in E.
Qed.

(** A text that neither starts nor ends with a space is left as it is. *)
Lemma str_strip_fixed (s : pystr) :
  (forall c t, s = c :: t -> isspace c = false) ->
  (forall d, last s = Some d -> isspace d = false) ->
  str_strip s = s.
Proof.
  intros Hh Hl. destruct s as [|c t]; [reflexivity|].
  pose proof (Hh c t eq_refl) as Hc.
  induction t as [|d t' _] using rev_ind.
  - unfold str_strip, rstrip. rewrite (lstrip_id c [] Hc). cbn [rev app].
    now rewrite (lstrip_id c [] Hc).
  - apply str_strip_id; [exact Hc|].
    apply Hl. change (c :: t' ++ [d]) with ((c :: t') ++ [d]). apply last_snoc.
Qed.

Lemma str_strip_idempotent (s : pystr) : str_strip (str_strip s) = str_strip s.
Proof.
  apply str_strip_fixed.
  - intros c t. apply str_strip_head.
  - intros d. apply str_strip_last.
Qed.

(** ** What [replace] leaves of a tripled character *)

Lemma replace_from_skip (old new : pystr) (s : pystr) :
  forall k, replace_from old new k s = replace_from old new O (drop k s).
Proof.
  induction s as [|c s IH]; intros [|k]; try reflexivity.
  cbn [replace_from drop]. apply IH.
Qed.

Lemma str_replace_triple (c x : N) (s : pystr) :
  str_replace [c; c; c] [] (x :: s)
  = if startswith (x :: s) [c; c; c]
    then str_replace [c; c; c] [] (drop 2 s)
    else x :: str_replace [c; c; c] [] s.
Proof.
  unfold str_replace. cbn [replace_from].
  destruct (startswith (x :: s) [c; c; c]); [|reflexivity].
  cbn [length Nat.pred app]. apply replace_from_skip.
Qed.

Lemma lead_triple (c : N) (s : pystr) :
  (3 <= lead c s)%nat -> startswith s [c; c; c] = true.
Proof.
  destruct s as [|x1 [|x2 [|x3 r]]]; cbn [lead];
    repeat match goal with
           | |- context [?x =? c] => destruct (N.eqb_spec x c) as [->|?]
           end;
    cbn [lead]; try lia.
  intros _. cbn [startswith]. rewrite !N.eqb_refl. now destruct r.
Qed.

Lemma lead_head (c : N) (s : pystr) :
  (2 <= lead c s)%nat -> exists r, s = c :: c :: r.
Proof.
  destruct s as [|x1 [|x2 r]]; cbn [lead];
    repeat match goal with
           | |- context [?x =? c] => destruct (N.eqb_spec x c) as [->|?]
           end;
    cbn [lead]; try lia.
  eauto.
Qed.

(** After [replace(ccc, "")] no three [c] in a row are left: every run of
    [c] keeps fewer than three of them, and no two runs are joined. *)
Lemma str_replace_triple_run (c : N) (n : nat) :
  forall s, (length s <= n)%nat ->
    (lead c (str_replace [c; c; c] [] s) < 3)%nat
    /\ ((lead c s < 3)%nat -> lead c (str_replace [c; c; c] [] s) = lead c s)
    /\ ~ contains [c; c; c] (str_replace [c; c; c] [] s).
Proof.
  induction n as [|n IH]; intros [|x s] Hlen; cbn [length] in Hlen; try lia;
    try (split; [cbn; lia|]; split; [reflexivity|]; now apply contains_nil).
  rewrite str_replace_triple.
  destruct (startswith (x :: s) [c; c; c]) eqn:E.
  - apply startswith_prefix in E as [r [= -> ->]]. cbn [drop].
    destruct (IH r) as (L1 & L2 & L3); [cbn [length] in Hlen; lia|].
    split; [exact L1|]. split; [|exact L3].
    cbn [lead]. rewrite N.eqb_refl. lia.
  - destruct (IH s) as (L1 & L2 & L3); [lia|].
    assert (Hlt : (lead c (x :: s) < 3)%nat).
    { destruct (Nat.lt_ge_cases (lead c (x :: s)) 3) as [H|H]; [exact H|].
      apply lead_triple in H. congruence. }
    cbn [lead] in *. destruct (N.eqb_spec x c) as [->|Hx].
    + rewrite L2 by lia. split; [lia|]. split; [reflexivity|].
      intros [[post H]|H]%contains_cons; [|now apply L3].
      injection H as H.
      assert (H2 : (2 <= lead c (str_replace [c; c; c] [] s))%nat)
        by (rewrite H; cbn [lead]; rewrite N.eqb_refl; lia).
      rewrite L2 in H2 by lia. lia.
    + split; [lia|]. split; [reflexivity|].
      intros [[post H]|H]%contains_cons; [|now apply L3].
      now injection H as -> _.
Qed.

(** The text that [_clean_sql] searches holds no fence. *)
Lemma strip_fences_no_fence (raw : pystr) : ~ contains (py "```") (strip_fences raw).
Proof.
  unfold strip_fences. change (py "```") with [0x60; 0x60; 0x60].
  now apply (str_replace_triple_run 0x60 _ _ (Nat.le_refl _)).
Qed.

(** ** The statement that [question_to_sql] returns *)

(** The statement is a part of the text without fences, stripped. *)
Lemma clean_sql_part (raw : pystr) :
  exists x, _clean_sql raw = str_strip x /\ contains x (strip_fences raw).
Proof.
  destruct (re_search select_flags select_re (strip_fences raw)) as [[[pre m] post]|] eqn:Hs.
  - exists m. split; [now apply (clean_sql_found raw pre m post)|].
    apply re_search_leftmost in Hs as [[Ht _] _]. now exists pre, post.
  - exists (strip_fences raw). split; [now apply clean_sql_not_found|].
    apply contains_refl.
Qed.

(** X11. Every statement that [question_to_sql] returns starts with
    [select] once lowercased, has no white space around it, and holds no
    code fence. *)
Theorem question_to_sql_postcondition (e : env) (question sql : pystr) (st : state) :
  fst (question_to_sql e question st) = Ok sql ->
  startswith (str_lower sql) (py "select") = true
  /\ str_strip sql = sql
  /\ ~ contains (py "```") sql.
Proof.
  intros H. apply question_to_sql_validated in H as (raw & _ & -> & Hv).
  split; [exact Hv|].
  destruct (clean_sql_part raw) as (x & -> & Hx).
  split; [apply str_strip_idempotent|].
  intros Hc. apply (strip_fences_no_fence raw).
  eapply contains_trans; [exact Hc|].
  eapply contains_trans; [apply str_strip_contains|exact Hx].
Qed.

Lemma question_to_sql_postcondition_witness :
  startswith (str_lower (py "select region from public.sales_daily;")) (py "select") = true
  /\ str_strip (py "select region from public.sales_daily;")
     = py "select region from public.sales_daily;"
  /\ ~ contains (py "```") (py "select region from public.sales_daily;").
Proof.
  apply (question_to_sql_postcondition
           (world true (py "Here you go:
```sql
select region from public.sales_daily;
```") (Ok []) None None)
           (py "regions") _ initial).
  vm_compute. reflexivity.
Defined.

(** X12. When the text without fences holds a statement, [_clean_sql]
    returns it up to the first semicolon that follows SELECT and one more
    character, and nothing after: the result is SELECT in any case, one
    more character, a body without any semicolon, and the semicolon. *)
Theorem clean_sql_first_statement (raw : pystr) :
  (exists pre m post, occurs select_flags select_re (strip_fences raw) pre m post) ->
  exists w x body,
    _clean_sql raw = w ++ x :: body ++ [ch ";"]
    /\ Forall2 (fun a c => atom_match select_flags (ALit a) c = true) (py "SELECT") w
    /\ ~ In (ch ";") body
    /\ contains (_clean_sql raw) (strip_fences raw).
Proof.
  intros Hocc. apply re_search_is_Some in Hocc as [[[pre m] post] Hs].
  rewrite (clean_sql_found raw pre m post Hs).
  apply re_search_select in Hs as [[Ht Hm] Hmin].
  rewrite (select_match_stripped _ _ _ Hm).
  assert (Hin : contains m (strip_fences raw)) by now exists pre, post.
  apply select_shape in Hm as (w & x & body & -> & Hw & Hb).
  exists w, x, body. split; [reflexivity|]. split; [exact Hw|]. split; [|exact Hin].
  intros (b1 & b2 & ->)%in_split.
  destruct (Hmin pre (w ++ x :: b1 ++ [ch ";"]) (b2 ++ [ch ";"] ++ post)) as [_ Hlen].
  - split.
    + rewrite Ht. f_equal.
      repeat (rewrite <- ?app_assoc; cbn [app]; try reflexivity; f_equal).
    + apply select_shape. exists w, x, b1. split; [reflexivity|]. split; [exact Hw|].
      exact Hb.
  - specialize (Hlen eq_refl). rewrite !length_app in Hlen. cbn [length] in Hlen.
    rewrite !length_app in Hlen. cbn [length] in Hlen. lia.
Qed.

Lemma clean_sql_first_statement_witness :
  exists w x body,
    _clean_sql (py "SELECT 1; DROP TABLE sales_daily;") = w ++ x :: body ++ [ch ";"]
    /\ Forall2 (fun a c => atom_match select_flags (ALit a) c = true) (py "SELECT") w
    /\ ~ In (ch ";") body
    /\ contains (_clean_sql (py "SELECT 1; DROP TABLE sales_daily;"))
                (strip_fences (py "SELECT 1; DROP TABLE sales_daily;")).
Proof.
  apply (clean_sql_first_statement (py "SELECT 1; DROP TABLE sales_daily;")).
  apply re_search_is_Some. vm_compute. eauto.
Defined.

(** ** The completion client *)

(** X13. Without a token in the environment, and with no client built
    before, [question_to_sql] raises the [EnvironmentError] of
    [_get_client] (an [OSError]) before any call to the provider: nothing
    is called and nothing changes. *)
Theorem question_to_sql_needs_token (e : env) (question : pystr) (st : state) :
  client_set st = false ->
  hf_token e = None \/ hf_token e = Some [] ->
  question_to_sql e question st
  = (Raise (Exn OSError
              (py "HUGGINGFACE_API_TOKEN is not set. Get your free token at https://huggingface.co/settings/tokens")),
     st).
Proof.
  intros Hc Ht. unfold question_to_sql, _get_client. run. rewrite Hc.
  now destruct Ht as [-> | ->].
Qed.

Lemma question_to_sql_needs_token_witness :
  question_to_sql (world_with (Some []) None) (py "revenue by region") initial
  = (Raise (Exn OSError
              (py "HUGGINGFACE_API_TOKEN is not set. Get your free token at https://huggingface.co/settings/tokens")),
     initial).
Proof.
  apply question_to_sql_needs_token; [reflexivity|]. now right.
Defined.

Lemma question_to_sql_sets_client (e : env) (question : pystr) (st : state) :
  client_set st = true \/ (exists c tok, hf_token e = Some (c :: tok)) ->
  client_set (snd (question_to_sql e question st)) = true.
Proof.
  intros H. unfold question_to_sql, _get_client. run.
  destruct (client_set st) eqn:Hc; run.
  - destruct (env_completion e _ _) as [content|exc]; run; [|exact Hc].
    now destruct (check_output content).
  - destruct H as [H|(c & tok & ->)]; [discriminate|]. run.
    destruct (env_completion e _ _) as [content|exc]; run; [|reflexivity].
    now destruct (check_output content).
Qed.

(** X14. The client is built once: after a call of [question_to_sql] that
    found a token (or a client), every later call, whatever the
    environment then holds, makes one call only, the completion request
    with the system prompt and the question in the template. *)
Theorem question_to_sql_client_once (e e' : env) (question question' : pystr)
    (st : state) :
  client_set st = true \/ (exists c tok, hf_token e = Some (c :: tok)) ->
  trace (snd (question_to_sql e' question' (snd (question_to_sql e question st))))
  = trace (snd (question_to_sql e question st))
    ++ [ECompletion SYSTEM_PROMPT (HUMAN_TEMPLATE question')].
Proof.
  intros H. pose proof (question_to_sql_sets_client e question st H) as Hc.
  destruct (question_to_sql e question st) as [r st1]. cbn [snd] in *.
  unfold question_to_sql, _get_client. run. rewrite Hc. run.
  destruct (env_completion e' _ _) as [content|exc]; run; [|reflexivity].
  now destruct (check_output content).
Qed.

Lemma question_to_sql_client_once_witness :
  trace (snd (question_to_sql
                (world true (py "SELECT 2;") (Ok []) None None) (py "second")
                (snd (question_to_sql (world true (py "SELECT 1;") (Ok []) None None)
                        (py "first") initial))))
  = trace (snd (question_to_sql (world true (py "SELECT 1;") (Ok []) None None)
                  (py "first") initial))
    ++ [ECompletion SYSTEM_PROMPT (HUMAN_TEMPLATE (py "second"))].
Proof.
  apply question_to_sql_client_once. right. now exists 0x68, (py "f_xxx").
Defined.

(** ** Cleaning a clean statement *)

Lemma fence_match_prefix (prev : option N) (s rest : pystr) :
  match_at (ReFlags true false) fence_re prev s = Some rest ->
  exists r, s = py "```" ++ r.
Proof.
  intros H. apply match_at_sound in H as (m & -> & Hm).
  unfold fence_re in Hm. cbn [matches] in Hm.
  destruct Hm as (m1 & m2 & -> & Hlit & _).
  apply matches_rlit in Hlit.
  assert (Hq : forall c, atom_match (ReFlags true false) (ALit 0x60) c = true -> c = 0x60).
  { intros c. unfold atom_match.
    replace (IGNORECASE (ReFlags true false) && sre_iscased 0x60) with false
      by (vm_compute; reflexivity).
    apply N.eqb_eq. }
  change (py "```") with [0x60; 0x60; 0x60] in *.
  inversion Hlit as [|a1 c1 l1 k1 H1 T1]; subst.
  inversion T1 as [|a2 c2 l2 k2 H2 T2]; subst.
  inversion T2 as [|a3 c3 l3 k3 H3 T3]; subst.
  inversion T3; subst.
  apply Hq in H1, H2, H3. subst.
  exists (m2 ++ rest). now rewrite <- app_assoc.
Qed.

Lemma sub_from_no_match (fl : re_flags) (r : regex) (repl : pystr) (s : pystr) :
  (forall pre suf prev, s = pre ++ suf -> match_at fl r prev suf = None) ->
  forall prev, sub_from fl r repl O prev s = s.
Proof.
  induction s as [|c s IH]; intros H prev; [reflexivity|].
  cbn [sub_from]. rewrite (H [] (c :: s) prev eq_refl). f_equal.
  apply IH. intros pre suf p ->. now apply (H (c :: pre)).
Qed.

Lemma str_replace_absent (old new t : pystr) :
  ~ contains old t -> str_replace old new t = t.
Proof.
  unfold str_replace. induction t as [|c t IH]; intros H; [reflexivity|].
  cbn [replace_from].
  destruct (startswith (c :: t) old) eqn:E.
  - exfalso. apply H. apply startswith_prefix in E as [r ->]. now exists [], r.
  - f_equal. apply IH. intros Hc. apply H. now apply contains_tail.
Qed.

(** A text without fence is left as it is by the removal of the fences. *)
Lemma strip_fences_fixed (t : pystr) : ~ contains (py "```") t -> strip_fences t = t.
Proof.
  intros H. unfold strip_fences, re_sub.
  rewrite sub_from_no_match; [now apply str_replace_absent|].
  intros pre suf prev -> .
  destruct (match_at (ReFlags true false) fence_re prev suf) as [rest|] eqn:E;
    [|reflexivity].
  exfalso. apply H. apply fence_match_prefix in E as [r ->]. now exists pre, r.
Qed.

(** Whether a text is a statement depends neither on what stands before
    it nor on what follows it. *)
Lemma select_context (prev prev' : option N) (m rest rest' : pystr) :
  matches select_flags select_re prev m rest ->
  matches select_flags select_re prev' m rest'.
Proof.
  intros (w & x & body & -> & Hw & Hb)%select_shape.
  apply select_shape. exists w, x, body. split; [reflexivity|]. split; [exact Hw|].
  destruct w as [|c0 w]; [inversion Hw|].
  rewrite last_char_cons in *. exact Hb.
Qed.

(** X15. Cleaning is idempotent: [_clean_sql] leaves unchanged what
    [_clean_sql] has returned. *)
Theorem clean_sql_idempotent (raw : pystr) : _clean_sql (_clean_sql raw) = _clean_sql raw.
Proof.
  pose proof (strip_fences_no_fence raw) as Hnf.
  destruct (re_search select_flags select_re (strip_fences raw)) as [[[pre m] post]|] eqn:Hs.
  - rewrite (clean_sql_found raw pre m post Hs).
    pose proof Hs as Hfirst. apply re_search_select in Hfirst as [[Ht Hm] Hmin].
    rewrite (select_match_stripped _ _ _ Hm).
    assert (Hfm : strip_fences m = m).
    { apply strip_fences_fixed. intros Hc. apply Hnf.
      eapply contains_trans; [exact Hc|]. now exists pre, post. }
    assert (Hsm : re_search select_flags select_re m = Some ([], m, [])).
    { apply re_search_select. split.
      - split; [cbn [app]; now rewrite app_nil_r|]. eapply select_context, Hm.
      - intros pre' m' post' [Ht' Hm']. split; [cbn [length]; lia|]. intros Hl.
        destruct pre' as [|p pre']; [|discriminate]. cbn [app] in Ht'.
        destruct (Hmin pre m' (post' ++ post)) as [_ Hlen].
        + split; [|eapply select_context, Hm'].
          rewrite Ht, Ht'. now rewrite <- app_assoc.
        + now apply Hlen. }
    rewrite (clean_sql_found m [] m []) by (now rewrite Hfm).
    apply (select_match_stripped _ _ _ Hm).
  - rewrite (clean_sql_not_found raw Hs).
    assert (Hfu : strip_fences (str_strip (strip_fences raw)) = str_strip (strip_fences raw)).
    { apply strip_fences_fixed. intros Hc. apply Hnf.
      eapply contains_trans; [exact Hc|apply str_strip_contains]. }
    assert (Hsu : re_search select_flags select_re (str_strip (strip_fences raw)) = None).
    { destruct (re_search select_flags select_re (str_strip (strip_fences raw)))
        as [[[p m] q]|] eqn:E; [|reflexivity].
      exfalso. apply re_search_leftmost in E as [[Hu Hm] _].
      destruct (str_strip_contains (strip_fences raw)) as (a & b & Ht).
      assert (Hsome : is_Some (re_search select_flags select_re (strip_fences raw))).
      { apply re_search_is_Some. exists (a ++ p), m, (q ++ b). split.
        - etransitivity; [exact Ht|]. rewrite Hu. now rewrite <- !app_assoc.
        - eapply select_context, Hm. }
      rewrite Hs in Hsome. now destruct Hsome. }
    rewrite (clean_sql_not_found _) by (now rewrite Hfu).
    rewrite Hfu. apply str_strip_idempotent.
Qed.

(** ** What [execute_query] returns *)

Lemma execute_query_returns (e : env) (sql : pystr) (st : state)
    (columns : list pystr) (rows : list row) (total : Z) :
  fst (execute_query e sql st) = Ok (columns, rows, total) ->
  exists all_rows,
    env_execute e sql = Ok all_rows
    /\ rows = take PREVIEW_ROW_LIMIT all_rows
    /\ total = Z.of_nat (length all_rows)
    /\ columns = match rows with r :: _ => dict_keys r | [] => [] end.
Proof.
  unfold execute_query, _get_pool. run.
  destruct (pool_set st) eqn:Hp; run;
    [|destruct (env_connect e) as [exc|]; run;
      [destruct (is_Psycopg2Error (exn_class_of exc)); run; discriminate|]];
    (destruct (env_getconn e) as [exg|]; run; [discriminate|];
     destruct (env_execute e sql) as [all_rows|exe]; run;
       [destruct (env_rollback e) as [exr|]; run|];
       rewrite ?Hp; run;
       destruct (env_putconn e) as [exp|]; run; try discriminate;
     intros [= <- <- <-]; now exists all_rows).
Qed.

(** X16. Whatever [execute_query] returns, the preview has at most ten
    rows and never more than the total, all the rows when the total is at
    most ten, no row exactly when the total is zero, and the columns are
    the keys of the first row of the preview. *)
Theorem execute_query_bounds (e : env) (sql : pystr) (st : state)
    (columns : list pystr) (rows : list row) (total : Z) :
  fst (execute_query e sql st) = Ok (columns, rows, total) ->
  (length rows <= 10)%nat
  /\ (Z.of_nat (length rows) <= total)%Z
  /\ ((total <= 10)%Z -> Z.of_nat (length rows) = total)
  /\ (rows = [] <-> total = 0%Z)
  /\ columns = match rows with r :: _ => dict_keys r | [] => [] end.
Proof.
  intros (all_rows & _ & -> & -> & ->)%execute_query_returns.
  unfold PREVIEW_ROW_LIMIT. rewrite length_take.
  split; [lia|]. split; [lia|]. split; [lia|]. split; [|reflexivity].
  destruct all_rows; cbn; split; intros; try reflexivity; try discriminate; lia.
Qed.

Lemma execute_query_bounds_witness :
  (length (repeat north_row 10) <= 10)%nat
  /\ (Z.of_nat (length (repeat north_row 10)) <= 37)%Z
  /\ ((37 <= 10)%Z -> Z.of_nat (length (repeat north_row 10)) = 37%Z)
  /\ (repeat north_row 10 = [] <-> 37%Z = 0%Z)
  /\ [py "region"; py "revenue"]
     = match repeat north_row 10 with r :: _ => dict_keys r | [] => [] end.
Proof.
  apply (execute_query_bounds
           (world true (py "SELECT 1;") (Ok (repeat north_row 37)) None None)
           (py "SELECT region, revenue FROM public.sales_daily;") initial).
  reflexivity.
Defined.

(** X17. The table made from what [execute_query] returns: the message
    that no row was returned exactly when the total is zero; otherwise
    the lines of the table, followed by the footer exactly when the total
    exceeds ten, and the footer then reads "Showing 10 of" the total. *)
Theorem execute_query_table (e : env) (sql : pystr) (st : state)
    (columns : list pystr) (rows : list row) (total : Z) :
  fst (execute_query e sql st) = Ok (columns, rows, total) ->
  format_slack_table columns rows total
  = if (total =? 0)%Z then py "_No rows returned._"
    else str_join NL (table_lines columns rows)
         ++ (if (10 <? total)%Z
             then NL ++ py "_Showing 10 of " ++ str_of_int total ++ py " rows._"
             else []).
Proof.
  intros (all_rows & _ & -> & -> & _)%execute_query_returns.
  unfold format_slack_table, footer_line, PREVIEW_ROW_LIMIT.
  destruct all_rows as [|r all_rows]; [reflexivity|].
  cbn [take]. replace (Z.of_nat (length (r :: all_rows)) =? 0)%Z with false
    by (symmetry; apply Z.eqb_neq; cbn [length]; lia).
  f_equal. cbn [length]. rewrite length_take.
  destruct (Z.ltb_spec 10 (Z.of_nat (S (length all_rows)))) as [Hgt|Hle].
  - replace (S (Nat.min 9 (length all_rows))) with 10%nat by lia.
    replace (Z.of_nat 10 <? Z.of_nat (S (length all_rows)))%Z with true
      by (symmetry; apply Z.ltb_lt; lia).
    reflexivity.
  - replace (Z.of_nat (S (Nat.min 9 (length all_rows))) <? Z.of_nat (S (length all_rows)))%Z
      with false by (symmetry; apply Z.ltb_ge; lia).
    reflexivity.
Qed.

Lemma execute_query_table_witness :
  format_slack_table [py "region"; py "revenue"] (repeat north_row 10) 37
  = str_join NL (table_lines [py "region"; py "revenue"] (repeat north_row 10))
    ++ NL ++ py "_Showing 10 of 37 rows._".
Proof.
  apply (execute_query_table
           (world true (py "SELECT 1;") (Ok (repeat north_row 37)) None None)
           (py "SELECT region, revenue FROM public.sales_daily;") initial).
  reflexivity.
Defined.

(** ** The connection pool, once more *)



Lemma execute_query_sets_pool (e : env) (sql : pystr) (st : state) :
  pool_set st = true \/ env_connect e = None ->
  pool_set (snd (execute_query e sql st)) = true.
Proof.
  intros H. unfold execute_query. unfold bind at 1. rewrite (get_pool_ok e st H).
  unfold _get_pool. run.
  destruct (env_getconn e) as [exg|]; run; [reflexivity|].
  destruct (env_execute e sql) as [all_rows|exe]; run;
    [destruct (env_rollback e) as [exr|]; run|];
    destruct (env_putconn e) as [exp|]; reflexivity.
Qed.

(** X19. The pool is built once: after a call of [execute_query] that got
    past the construction of the pool, a later call, whatever the
    environment then holds, starts by asking the pool for a connection and
    never builds a pool again. *)
Theorem execute_query_pool_once (e e' : env) (sql sql' : pystr) (st : state) :
  pool_set st = true \/ env_connect e = None ->
  exists evs,
    trace (snd (execute_query e' sql' (snd (execute_query e sql st))))
    = trace (snd (execute_query e sql st)) ++ EGetConn :: evs
    /\ ~ In EPoolInit evs.
Proof.
  intros H. pose proof (execute_query_sets_pool e sql st H) as Hp.
  destruct (execute_query e sql st) as [r st1]. cbn [snd] in *.
  unfold execute_query, _get_pool. run. rewrite Hp. run.
  destruct (env_getconn e') as [exg|]; run;
    [|destruct (env_execute e' sql') as [all_rows|exe]; run;
      [destruct (env_rollback e') as [exr|]; run|];
      rewrite ?Hp; run;
      destruct (env_putconn e') as [exp|]; run];
    eexists; (split; [rewrite <- ?app_assoc; cbn [app]; reflexivity|]);
    cbn [In]; intuition discriminate.
Qed.

Lemma execute_query_pool_once_witness :
  exists evs,
    trace (snd (execute_query
                  (world true (py "SELECT 2;") (Ok []) None None) (py "SELECT 2;")
                  (snd (execute_query (world true (py "SELECT 1;") (Ok []) None None)
                          (py "SELECT 1;") initial))))
    = trace (snd (execute_query (world true (py "SELECT 1;") (Ok []) None None)
                    (py "SELECT 1;") initial))
      ++ EGetConn :: evs
    /\ ~ In EPoolInit evs.
Proof.
  apply execute_query_pool_once. now right.
Defined.

(** ** The alignment of the table *)

Lemma length_str_join (sep : pystr) (parts : list pystr) :
  length (str_join sep parts)
  = (list_sum (List.map (@length N) parts) + length sep * (length parts - 1))%nat.
Proof.
  induction parts as [|p ps IH]; [cbn; lia|].
  destruct ps as [|q ps].
  - cbn. lia.
  - change (str_join sep (p :: q :: ps)) with (p ++ sep ++ str_join sep (q :: ps)).
    rewrite !length_app, IH. cbn [List.map list_sum length].
    rewrite !Nat.sub_succ, !Nat.sub_0_r, Nat.mul_succ_r.
    unfold list_sum. cbn [fold_right]. lia.
Qed.

Lemma length_ljust (w : nat) (s : pystr) : length (ljust w s) = Nat.max w (length s).
Proof. unfold ljust. rewrite length_app, repeat_length. lia. Qed.

Lemma cell_fits (rows : list row) (r : row) (col : pystr) :
  In r rows -> (length (cell r col) <= column_width rows col)%nat.
Proof.
  intros Hin. unfold column_width.
  assert (H : (length (cell r col)
               <= list_max (List.map (fun r => length (cell r col)) rows))%nat).
  { assert (Hall := proj1 (list_max_le (List.map (fun r => length (cell r col)) rows) _)
                      (Nat.le_refl _)).
    rewrite List.Forall_forall in Hall. apply Hall.
    apply in_map_iff. now exists r. }
  lia.
Qed.

(** A line whose cells fit their columns has the width of the table. *)
Lemma fmt_row_width (columns : list pystr) (rows : list row) (g : pystr -> pystr) :
  (forall col, In col columns -> (length (g col) <= column_width rows col)%nat) ->
  length (fmt_row columns (compute_widths columns rows) (List.map g columns))
  = table_width columns rows.
Proof.
  intros Hfit. rewrite fmt_row_cells, !length_app, length_str_join, !length_map.
  rewrite map_map.
  rewrite (map_ext_in _ (column_width rows)).
  - unfold table_width. change (length (py "| ")) with 2%nat.
    change (length (py " |")) with 2%nat. change (length (py " | ")) with 3%nat. lia.
  - intros col Hin. rewrite length_ljust.
    rewrite compute_widths_max by now apply list_elem_of_In.
    fold (column_width rows col). specialize (Hfit col Hin). lia.
Qed.

Lemma separator_line_width (columns : list pystr) (rows : list row) :
  length (separator_line columns (compute_widths columns rows)) = table_width columns rows.
Proof.
  unfold separator_line. rewrite !length_app, length_str_join, !length_map, map_map.
  rewrite (map_ext_in _ (column_width rows)).
  - unfold table_width. change (length (py "+-")) with 2%nat.
    change (length (py "-+")) with 2%nat. change (length (py "-+-")) with 3%nat. lia.
  - intros col Hin. rewrite repeat_length.
    now rewrite compute_widths_max by now apply list_elem_of_In.
Qed.

(** X20. The table is aligned: its rules, its header and the lines of its
    rows all have the same length, the widths of the columns plus three
    characters between two columns and two at each end. *)
Theorem table_lines_aligned (columns : list pystr) (rows : list row) :
  Forall (fun line => length line = table_width columns rows) (table_lines columns rows).
Proof.
  unfold table_lines. cbv zeta.
  assert (Hh : length (fmt_row columns (compute_widths columns rows) columns)
               = table_width columns rows).
  { pose proof (fmt_row_width columns rows (fun col => col)) as H.
    rewrite map_id in H. apply H.
    intros col _. unfold column_width. lia. }
  apply Forall_app. split; [|apply Forall_app; split].
  - repeat (constructor; [first [apply separator_line_width | exact Hh]|]).
    constructor.
  - apply List.Forall_forall. intros line (r & <- & Hin)%in_map_iff.
    apply fmt_row_width. intros col _. now apply cell_fits.
  - constructor; [apply separator_line_width|constructor].
Qed.

(** ** The classifier and the letter case *)

Lemma ascii_case_stable (c : N) : c < 128 -> case_stable c = true.
Proof.
  intros Hc.
  assert (Hall : forallb case_stable ascii_chars = true) by (vm_compute; reflexivity).
  rewrite forallb_forall in Hall. apply Hall.
  unfold ascii_chars. apply in_map_iff. exists (N.to_nat c).
  split; [apply N2Nat.id|]. apply in_seq. lia.
Qed.

Lemma str_upper_cons (c : N) (s : pystr) : str_upper (c :: s) = upper_full c ++ str_upper s.
Proof. reflexivity. Qed.

Lemma str_upper_do_lower (s : pystr) :
  Forall (fun c => c < 128) s ->
  forall before, str_upper (do_lower before s) = str_upper s.
Proof.
  induction 1 as [|c s Hc _ IH]; intros before; [reflexivity|].
  apply ascii_case_stable in Hc. unfold case_stable in Hc.
  apply andb_true_iff in Hc as [[Hs Hl]%andb_true_iff _].
  apply negb_true_iff in Hs. apply bool_decide_eq_true in Hl.
  cbn [do_lower]. rewrite Hs, str_upper_app, IH, Hl. now rewrite str_upper_cons.
Qed.

Lemma str_upper_idempotent (s : pystr) :
  Forall (fun c => c < 128) s -> str_upper (str_upper s) = str_upper s.
Proof.
  induction 1 as [|c s Hc _ IH]; [reflexivity|].
  apply ascii_case_stable in Hc. unfold case_stable in Hc.
  apply andb_true_iff in Hc as [_ Hu]. apply bool_decide_eq_true in Hu.
  now rewrite str_upper_cons, str_upper_app, IH, Hu.
Qed.

(** X21. The classifier ignores the letter case of an ASCII statement: the
    statement, its lowercase form and its uppercase form are classified
    alike. *)
Theorem is_date_range_query_ascii_case (sql : pystr) :
  Forall (fun c => c < 128) sql ->
  is_date_range_query (str_lower sql) = is_date_range_query sql
  /\ is_date_range_query (str_upper sql) = is_date_range_query sql.
Proof.
  intros H. unfold is_date_range_query. cbv zeta. unfold str_lower.
  now rewrite (str_upper_do_lower sql H), (str_upper_idempotent sql H).
Qed.

Lemma is_date_range_query_ascii_case_witness :
  is_date_range_query
    (str_lower (py "SELECT date, SUM(revenue) FROM public.sales_daily GROUP BY date;"))
  = is_date_range_query
      (py "SELECT date, SUM(revenue) FROM public.sales_daily GROUP BY date;")
  /\ is_date_range_query
       (str_upper (py "SELECT date, SUM(revenue) FROM public.sales_daily GROUP BY date;"))
     = is_date_range_query
         (py "SELECT date, SUM(revenue) FROM public.sales_daily GROUP BY date;").
Proof.
  apply is_date_range_query_ascii_case.
  apply List.Forall_forall. intros c Hc. apply N.ltb_lt.
  revert c Hc. apply forallb_forall. vm_compute. reflexivity.
Defined.

(** ** The data of the chart *)


(** ** The chart stage before the file is made *)

(** X23. When drawing the chart raises, or the temporary file cannot be
    created, the chart stage logs one warning and ends: no file was made,
    none is removed, nothing is uploaded and the user is sent nothing. *)
Theorem chart_stage_early_failure (e : env) (j : job) (columns : list pystr)
    (row0 : row) (rows : list row) (exc : exn) (st : state) :
  MATPLOTLIB_AVAILABLE e = true ->
  (2 <= length columns)%nat ->
  plottable columns row0 <> [] ->
  let spec := chart_of columns (row0 :: rows) (plottable columns row0) (job_question j) in
  env_draw e spec = Some exc \/ (env_draw e spec = None /\ env_tmpfile e = Raise exc) ->
  chart_stage e j columns (row0 :: rows) st
  = (Ok tt,
     after st [EDraw spec;
               ELog WARNING (py "Chart upload failed (non-critical): " ++ exn_str exc)]).
Proof.
  intros Ha Hc Hp spec Hf.
  unfold chart_stage. unfold bind at 1, attempt.
  rewrite (generate_chart_run e columns row0 rows (job_question j) st Ha Hc Hp).
  fold spec. cbv zeta. unfold NamedTemporaryFile, after. run.
  destruct Hf as [Hd|[Hd Ht]]; rewrite Hd; run; [|rewrite Ht; run];
    now rewrite <- !app_assoc.
Qed.

Lemma chart_stage_early_failure_witness :
  chart_stage (world_drawing None (Raise (Exn OSError (py "No space left on device"))))
    (Job (py "revenue by region") (Some (py "U1")) (Some (py "C1")))
    [py "region"; py "revenue"] [north_row] initial
  = (Ok tt,
     after initial
       [EDraw (chart_of [py "region"; py "revenue"] [north_row] [py "revenue"]
                        (py "revenue by region"));
        ELog WARNING (py "Chart upload failed (non-critical): "
                      ++ py "No space left on device")]).
Proof.
  refine (chart_stage_early_failure
            (world_drawing None (Raise (Exn OSError (py "No space left on device"))))
            (Job (py "revenue by region") (Some (py "U1")) (Some (py "C1")))
            [py "region"; py "revenue"] north_row []
            (Exn OSError (py "No space left on device")) initial
            eq_refl _ _ _).
  - simpl. lia.
  - discriminate.
  - right. split; reflexivity.
Defined.

(** ** Disposal, twice *)

(** X24. [cleanup_chart] touches no path but the one it is given, and a
    second call on the same path leaves the file system as the first call
    left it; after a removal that succeeded the second call does nothing
    at all. *)
Theorem cleanup_chart_idempotent (path : pystr) (st : state) :
  let st1 := snd (cleanup_chart path st) in
  fs (snd (cleanup_chart path st1)) = fs st1
  /\ (fs st !! path = Some (RegularFile true) -> cleanup_chart path st1 = (Ok tt, st1))
  /\ (forall q, q <> path -> fs st1 !! q = fs st !! q).
Proof.
  cbv zeta. split; [|split]; [| |intros q Hq; now apply cleanup_chart_local].
  - destruct path as [|c p]; [reflexivity|].
    assert (Hne : c :: p <> []) by discriminate.
    destruct (path_ok (c :: p)) eqn:Hok; [|now rewrite !cleanup_chart_unencodable].
    destruct (fs st !! (c :: p)) as [node|] eqn:H;
      [|now rewrite !cleanup_chart_absent by (now rewrite ?cleanup_chart_absent)].
    rewrite (cleanup_chart_present _ node st Hne Hok H). cbn [snd].
    destruct node as [[|]|].
    + rewrite cleanup_chart_absent; [reflexivity|]. cbn [fs]. apply lookup_delete_eq.
    + now rewrite (cleanup_chart_present _ (RegularFile false) _ Hne Hok).
    + now rewrite (cleanup_chart_present _ Directory _ Hne Hok).
  - intros H. destruct path as [|c p]; [reflexivity|].
    assert (Hne : c :: p <> []) by discriminate.
    destruct (path_ok (c :: p)) eqn:Hok; [|now rewrite !cleanup_chart_unencodable].
    rewrite (cleanup_chart_present _ _ st Hne Hok H). cbn [snd].
    apply cleanup_chart_absent. cbn [fs]. apply lookup_delete_eq.
Qed.

(** ** The start of the application *)




(** ** The connection string *)

(** X26. The connection string.  A non-empty [DATABASE_URL] is the
    connection string, whatever the other variables hold; an empty one
    counts as none; and with no variable set the connection string is that
    of the database [analytics] on the local host, port 5432, for the user
    [postgres] with an empty password. *)
Theorem get_dsn_sources (environ : gmap pystr pystr) :
  (forall c url k v,
     os_environ_get environ (py "DATABASE_URL") = Some (c :: url) ->
     k <> py "DATABASE_URL" ->
     _get_dsn environ = c :: url /\ _get_dsn (<[k := v]> environ) = c :: url)
  /\ _get_dsn (<[py "DATABASE_URL" := []]> environ)
     = _get_dsn (delete (py "DATABASE_URL") environ)
  /\ _get_dsn ∅ = py "postgresql://postgres:@localhost:5432/analytics".
Proof.
  split; [|split].
  - intros c url k v H Hk. unfold _get_dsn. rewrite H. split; [reflexivity|].
    unfold os_environ_get in *. rewrite lookup_insert_ne by congruence. now rewrite H.
  - unfold _get_dsn, environ_get, os_environ_get.
    rewrite lookup_insert_eq, lookup_delete_eq.
    now rewrite !lookup_insert_ne, !lookup_delete_ne by (vm_compute; discriminate).
  - reflexivity.
Qed.

(** ** The request to the provider *)

Lemma question_to_sql_trace (e : env) (question : pystr) (st : state) :
  client_set st = true \/ (exists c tok, hf_token e = Some (c :: tok)) ->
  trace (snd (question_to_sql e question st))
  = trace st ++ client_events st
    ++ [ECompletion SYSTEM_PROMPT (HUMAN_TEMPLATE question)].
Proof.
  intros H. unfold question_to_sql, _get_client, client_events. run.
  destruct (client_set st) eqn:Hc; run.
  - destruct (env_completion e _ _) as [content|exc]; run; [|reflexivity].
    now destruct (check_output content).
  - destruct H as [H|(c & tok & ->)]; [discriminate|]. run.
    rewrite <- app_assoc.
    destruct (env_completion e _ _) as [content|exc]; run; [|reflexivity].
    now destruct (check_output content).
Qed.

(** X27. With a client or a token at hand, a run of [process] makes
    exactly one request to the provider, before anything else but the
    construction of the client: its system turn is the system prompt and
    its user turn is the question of the command between "Question: " and
    a line break followed by "SQL:". *)
Theorem process_completion_request (e : env) (j : job) (st : state) :
  client_set st = true \/ (exists c tok, hf_token e = Some (c :: tok)) ->
  exists evs,
    trace (snd (process e j st))
    = trace st ++ client_events st
      ++ ECompletion SYSTEM_PROMPT
           (py "Question: " ++ job_question j ++ NL ++ py "SQL:") :: evs
    /\ List.filter is_llm_call evs = [].
Proof.
  intros H. pose proof (question_to_sql_trace e (job_question j) st H) as Ht1.
  fold (HUMAN_TEMPLATE (job_question j)).
  destruct (process_cases e j st)
    as [(exc & st1 & H1 & Hp)
       |[(sql & st1 & exc & st2 & H1 & H2 & Hp)
        |(sql & st1 & columns & rows & total & st2 & H1 & H2 & Hp)]];
    rewrite Hp; rewrite H1 in Ht1; cbn [snd] in Ht1.
  - exists (generation_failure_calls exc). split; [|reflexivity].
    cbn [snd after trace]. rewrite Ht1, <- !app_assoc. reflexivity.
  - destruct (execute_query_calls e sql
                (after st1 [ELog INFO (py "Generated SQL: " ++ sql)]))
      as (evs2 & Ht2 & F2).
    rewrite H2 in Ht2. cbn [snd after trace] in Ht2.
    exists ([ELog INFO (py "Generated SQL: " ++ sql)] ++ evs2
            ++ execution_failure_calls sql exc).
    split.
    + cbn [snd after trace]. rewrite Ht2, Ht1, <- !app_assoc. reflexivity.
    + rewrite !List.filter_app.
      rewrite (filter_none (is_store_call sql) is_llm_call evs2) by
        (assumption || now intros []).
      reflexivity.
  - destruct (execute_query_calls e sql
                (after st1 [ELog INFO (py "Generated SQL: " ++ sql)]))
      as (evs2 & Ht2 & F2).
    rewrite H2 in Ht2. cbn [snd after trace] in Ht2.
    assert (H3 : exists evs3,
               trace (snd ((if is_date_range_query sql && negb (bool_decide (rows = []))
                            then chart_stage e j columns rows
                            else ret tt)
                             (after st2 (delivery_calls j sql columns rows total))))
               = trace (after st2 (delivery_calls j sql columns rows total)) ++ evs3
               /\ forallb is_chart_call evs3 = true).
    { destruct (is_date_range_query sql && negb (bool_decide (rows = []))).
      - apply chart_stage_calls.
      - exists []. now rewrite app_nil_r. }
    destruct H3 as (evs3 & Ht3 & F3).
    exists ([ELog INFO (py "Generated SQL: " ++ sql)] ++ evs2
            ++ delivery_calls j sql columns rows total ++ evs3).
    split.
    + rewrite Ht3. cbn [after trace]. rewrite Ht2, Ht1, <- !app_assoc. reflexivity.
    + rewrite !List.filter_app.
      rewrite (filter_none (is_store_call sql) is_llm_call evs2) by
        (assumption || now intros []).
      rewrite (filter_none is_chart_call is_llm_call evs3) by
        (assumption || now intros []).
      reflexivity.
Qed.

Lemma process_completion_request_witness :
  exists evs,
    trace (snd (process (world true (py "SELECT 1;") (Ok [north_row]) None None)
                  (Job (py "revenue by region") (Some (py "U1")) (Some (py "C1")))
                  initial))
    = trace initial ++ client_events initial
      ++ ECompletion SYSTEM_PROMPT
           (py "Question: " ++ py "revenue by region" ++ NL ++ py "SQL:") :: evs
    /\ List.filter is_llm_call evs = [].
Proof.
  apply (process_completion_request
           (world true (py "SELECT 1;") (Ok [north_row]) None None)
           (Job (py "revenue by region") (Some (py "U1")) (Some (py "C1"))) initial).
  right. now exists 0x68, (py "f_xxx").
Defined.

(** ** Failures of the rollback and of the release *)

(** X28. When the statement has run and the rollback raises,
    [execute_query] still gives the connection back, and raises what the
    rollback raised: the rows are not returned. *)
Theorem execute_query_rollback_failure (e : env) (sql : pystr) (all_rows : list row)
    (exr : exn) (st : state) :
  pool_set st = true \/ env_connect e = None ->
  env_getconn e = None ->
  env_execute e sql = Ok all_rows ->
  env_rollback e = Some exr ->
  env_putconn e = None ->
  execute_query e sql st
  = (Raise exr,
     State (trace st ++ pool_events st ++ [EGetConn; EExecute sql; ERollback; EPutConn])
           (fs st) (client_set st) true).
Proof.
  intros Hp Hg He Hr Hc.
  unfold execute_query. unfold bind at 1. rewrite (get_pool_ok e st Hp).
  run. rewrite Hg, He, Hr. run.
  unfold _get_pool. run. rewrite Hc. run.
  now rewrite <- !app_assoc.
Qed.

Lemma execute_query_rollback_failure_witness :
  execute_query
    (world_store (Ok [north_row]) (Some (Exn Psycopg2Error (py "connection lost"))) None)
    (py "SELECT 1;") initial
  = (Raise (Exn Psycopg2Error (py "connection lost")),
     State ([] ++ [EPoolInit] ++ [EGetConn; EExecute (py "SELECT 1;"); ERollback; EPutConn])
           ∅ false true).
Proof.
  refine (execute_query_rollback_failure
            (world_store (Ok [north_row])
                         (Some (Exn Psycopg2Error (py "connection lost"))) None)
            (py "SELECT 1;") [north_row] (Exn Psycopg2Error (py "connection lost"))
            initial _ eq_refl eq_refl eq_refl eq_refl).
  now right.
Defined.

(** X29. When giving the connection back raises, [execute_query] raises
    that exception whatever the statement did: a result is lost, and the
    exception of a failed statement is replaced. *)
Theorem execute_query_release_failure (e : env) (sql : pystr) (exp : exn) (st : state) :
  pool_set st = true \/ env_connect e = None ->
  env_getconn e = None ->
  env_putconn e = Some exp ->
  fst (execute_query e sql st) = Raise exp
  /\ last (trace (snd (execute_query e sql st))) = Some EPutConn.
Proof.
  intros Hp Hg Hc.
  assert (H : execute_query e sql st
              = (Raise exp,
                 State (trace st ++ pool_events st
                        ++ [EGetConn; EExecute sql]
                        ++ match env_execute e sql with
                           | Ok _ => [ERollback]
                           | Raise _ => []
                           end
                        ++ [EPutConn])
                       (fs st) (client_set st) true)).
  { unfold execute_query. unfold bind at 1. rewrite (get_pool_ok e st Hp).
    run. rewrite Hg. run.
    destruct (env_execute e sql) as [all_rows|exe]; run;
      [destruct (env_rollback e) as [exr|]; run|];
      unfold _get_pool; run; rewrite Hc; run;
      now rewrite <- !app_assoc. }
  rewrite H. cbn [fst snd trace]. split; [reflexivity|].
  rewrite !app_assoc. apply last_snoc.
Qed.

Lemma execute_query_release_failure_witness :
  fst (execute_query
         (world_store (Raise (Exn Psycopg2Error (py "syntax error")))
                      None (Some (Exn Psycopg2Error (py "pool closed"))))
         (py "SELEC 1;") initial)
  = Raise (Exn Psycopg2Error (py "pool closed"))
  /\ last (trace (snd (execute_query
                         (world_store (Raise (Exn Psycopg2Error (py "syntax error")))
                                      None (Some (Exn Psycopg2Error (py "pool closed"))))
                         (py "SELEC 1;") initial)))
     = Some EPutConn.
Proof.
  refine (execute_query_release_failure
            (world_store (Raise (Exn Psycopg2Error (py "syntax error")))
                         None (Some (Exn Psycopg2Error (py "pool closed"))))
            (py "SELEC 1;") (Exn Psycopg2Error (py "pool closed"))
            initial _ eq_refl eq_refl).
  now right.
Defined.
